(** * KalshiBot: order book, contract scheduler and signal engine

    A shallow embedding of [order_book.py] (class [OrderBook]) and of the
    contract-rolling and signal-tracking core of [app.py] (class
    [BTC15Frame]: [_compute], [_roll], [_poll], [_check_events],
    [_add_event_row], [_add_milestone_row]), with the properties stated
    for them.

    Conventions.
    - Python integers are unbounded: prices, quantities and counters are [Z].
    - A Python [dict] used as a price -> quantity map is a [gmap Z Z].
    - [None] results are [option]; a raised exception is the [Raise]
      constructor of [result].
    - A [datetime.timedelta] is its exact number of microseconds, so that
      the comparisons of [total_seconds()] (or of [total_seconds() / 60])
      against a whole number of seconds (or minutes) are comparisons of
      integers.
    - The clock readings [datetime.datetime.now()] and the values of the
      three spin boxes are inputs of the functions that read them. *)

From Stdlib Require Import ZArith QArith List String Ascii Bool Lia.
From stdpp Require Import base option list strings gmap fin_maps.

Local Open Scope Z_scope.

(* ====================================================================== *)
(** ** Exceptions *)

Inductive exn : Type :=
| TypeError
| OverflowError
| ValueError.

Inductive result (A : Type) : Type :=
| Ok (a : A)
| Raise (e : exn).
Arguments Ok {A} a.
Arguments Raise {A} e.

#[global] Instance result_ret : MRet result := λ A a, Ok a.
#[global] Instance result_bind : MBind result := λ A B k r,
  match r with
  | Ok a => k a
  | Raise e => Raise e
  end.

(* ====================================================================== *)
(** ** order_book.py *)

Module OrderBook.

(** The [msg] payload of an [orderbook_snapshot] message. A key that is
    absent from the message is [None]: [msg.get("yes", [])] then reads
    the empty list. *)
Record snapshot_msg : Type := SnapshotMsg {
  snap_yes : option (list (Z * Z));
  snap_no  : option (list (Z * Z))
}.

(** The [msg] payload of an [orderbook_delta] message. *)
Record delta_msg : Type := DeltaMsg {
  d_side  : string;
  d_price : Z;
  d_delta : Z
}.

Record t : Type := Book {
  market_ticker : string;
  yes : gmap Z Z;
  no  : gmap Z Z
}.

(** [OrderBook.__init__] *)
Definition init (ticker : string) : t :=
  {| market_ticker := ticker; yes := ∅; no := ∅ |}.

(** [{price: qty for price, qty in levels}]: the pairs are inserted
    from left to right, a later pair overwriting an earlier one with
    the same price. *)
Definition dict_of_levels (levels : list (Z * Z)) : gmap Z Z :=
  fold_left (λ m pq, <[pq.1 := pq.2]> m) levels ∅.

(** [msg.get(key, [])] *)
Definition get_levels (field : option (list (Z * Z))) : list (Z * Z) :=
  default [] field.

Definition apply_snapshot (b : t) (msg : snapshot_msg) : t :=
  {| market_ticker := market_ticker b;
     yes := dict_of_levels (get_levels (snap_yes msg));
     no  := dict_of_levels (get_levels (snap_no msg)) |}.

(** The body of [apply_delta] once [side] is bound to one of the two
    dictionaries: [side.get(price, 0) + delta], then [pop] or store. *)
Definition update_side (side : gmap Z Z) (price delta : Z) : gmap Z Z :=
  let new_qty := default 0 (side !! price) + delta in
  if new_qty <=? 0 then delete price side
  else <[price := new_qty]> side.

Definition apply_delta (b : t) (msg : delta_msg) : t :=
  if String.eqb (d_side msg) "yes" then
    {| market_ticker := market_ticker b;
       yes := update_side (yes b) (d_price msg) (d_delta msg);
       no  := no b |}
  else
    {| market_ticker := market_ticker b;
       yes := yes b;
       no  := update_side (no b) (d_price msg) (d_delta msg) |}.

(** [max(book.keys())]; [None] stands for the [ValueError] of [max] on
    an empty sequence, which the emptiness test of the callers rules
    out. *)
Definition max_list (l : list Z) : option Z :=
  foldr (λ k acc, Some (from_option (Z.max k) k acc)) None l.

Definition max_key (book : gmap Z Z) : option Z :=
  max_list (map_to_list book).*1.

(** Truth value of a dictionary: true exactly when it is not empty. *)
Definition truthy (book : gmap Z Z) : bool :=
  negb (bool_decide (book = ∅)).

Definition best_bid (b : t) (side : string) : option Z :=
  let book := if String.eqb side "yes" then yes b else no b in
  if truthy book then max_key book else None.

Definition best_ask (b : t) (side : string) : option Z :=
  let other := if String.eqb side "yes" then no b else yes b in
  if truthy other then (λ k, 100 - k) <$> max_key other else None.

Definition spread (b : t) (side : string) : option Z :=
  match best_bid b side, best_ask b side with
  | Some bid, Some ask => Some (ask - bid)
  | _, _ => None
  end.

End OrderBook.

(* ====================================================================== *)
(** ** The [datetime] library, as far as [app.py] uses it

    Naive datetimes of the proleptic Gregorian calendar, with the
    arithmetic of CPython's [datetime] module: [toordinal], subtraction
    of two datetimes, addition of a timedelta, [replace] and the
    [strftime] directives [%y %b %d %H %M]. *)

Module Datetime.

Record datetime : Type := DT {
  year : Z; month : Z; day : Z;
  hour : Z; minute : Z; second : Z; microsecond : Z
}.

Definition MINYEAR : Z := 1.
Definition MAXYEAR : Z := 9999.

Definition is_leap (y : Z) : bool :=
  (y mod 4 =? 0) && (negb (y mod 100 =? 0) || (y mod 400 =? 0)).

(** [_DAYS_IN_MONTH], with its placeholder at index 0. *)
Definition DAYS_IN_MONTH : list Z :=
  [-1; 31; 28; 31; 30; 31; 30; 31; 31; 30; 31; 30; 31].

(** [_DAYS_BEFORE_MONTH], with its placeholder at index 0. *)
Definition DAYS_BEFORE_MONTH : list Z :=
  [-1; 0; 31; 59; 90; 120; 151; 181; 212; 243; 273; 304; 334].

Definition days_in_month (y m : Z) : Z :=
  if (m =? 2) && is_leap y then 29
  else nth (Z.to_nat m) DAYS_IN_MONTH (-1).

Definition days_before_year (y : Z) : Z :=
  let y' := y - 1 in
  y' * 365 + y' / 4 - y' / 100 + y' / 400.

Definition days_before_month (y m : Z) : Z :=
  nth (Z.to_nat m) DAYS_BEFORE_MONTH (-1)
  + (if (2 <? m) && is_leap y then 1 else 0).

(** The field checks of the [datetime] constructor. *)
Definition valid (d : datetime) : bool :=
  (MINYEAR <=? year d) && (year d <=? MAXYEAR)
  && (1 <=? month d) && (month d <=? 12)
  && (1 <=? day d) && (day d <=? days_in_month (year d) (month d))
  && (0 <=? hour d) && (hour d <? 24)
  && (0 <=? minute d) && (minute d <? 60)
  && (0 <=? second d) && (second d <? 60)
  && (0 <=? microsecond d) && (microsecond d <? 1000000).

(** [toordinal()]: 1 for 0001-01-01. *)
Definition toordinal (d : datetime) : Z :=
  days_before_year (year d) + days_before_month (year d) (month d) + day d.

(** A [timedelta] is its number of microseconds. *)
Abbreviation timedelta := Z.

Definition US_PER_SECOND : Z := 1000000.
Definition US_PER_DAY : Z := 86400 * US_PER_SECOND.

Definition td_seconds (n : Z) : timedelta := n * US_PER_SECOND.
Definition td_minutes (n : Z) : timedelta := n * 60 * US_PER_SECOND.
Definition td_hours (n : Z) : timedelta := n * 3600 * US_PER_SECOND.

(** Microseconds since midnight. *)
Definition time_of_day (d : datetime) : Z :=
  ((hour d * 60 + minute d) * 60 + second d) * US_PER_SECOND + microsecond d.

(** [a - b] for two datetimes: the difference of the ordinals in days
    plus the difference of the times of day. *)
Definition sub (a b : datetime) : timedelta :=
  (toordinal a - toordinal b) * US_PER_DAY + (time_of_day a - time_of_day b).

(** The calendar day after and before a date; the time of day is kept.
    Leaving the years [MINYEAR..MAXYEAR] is the [OverflowError] of
    [date.fromordinal]. *)
Definition next_day (d : datetime) : result datetime :=
  if day d <? days_in_month (year d) (month d) then
    Ok (DT (year d) (month d) (day d + 1)
           (hour d) (minute d) (second d) (microsecond d))
  else if month d <? 12 then
    Ok (DT (year d) (month d + 1) 1
           (hour d) (minute d) (second d) (microsecond d))
  else if year d <? MAXYEAR then
    Ok (DT (year d + 1) 1 1
           (hour d) (minute d) (second d) (microsecond d))
  else Raise OverflowError.

Definition prev_day (d : datetime) : result datetime :=
  if 1 <? day d then
    Ok (DT (year d) (month d) (day d - 1)
           (hour d) (minute d) (second d) (microsecond d))
  else if 1 <? month d then
    Ok (DT (year d) (month d - 1) (days_in_month (year d) (month d - 1))
           (hour d) (minute d) (second d) (microsecond d))
  else if MINYEAR <? year d then
    Ok (DT (year d - 1) 12 31
           (hour d) (minute d) (second d) (microsecond d))
  else Raise OverflowError.

Fixpoint iterate (f : datetime → result datetime) (n : nat) (d : datetime)
  : result datetime :=
  match n with
  | O => Ok d
  | S n' => d' ← f d; iterate f n' d'
  end.

(** The date [k] days away from [d]: [date.fromordinal(d.toordinal() + k)]. *)
Definition shift_days (d : datetime) (k : Z) : result datetime :=
  if 0 <=? k then iterate next_day (Z.to_nat k) d
  else iterate prev_day (Z.to_nat (- k)) d.

(** [d + td] ([datetime.__add__]): the time of day plus [td] is split by
    [divmod] into whole days, carried into the date, and the time of day
    that is left. *)
Definition add (d : datetime) (td : timedelta) : result datetime :=
  let total := time_of_day d + td in
  let days := total / US_PER_DAY in
  let rest := total mod US_PER_DAY in
  let secs := rest / US_PER_SECOND in
  let us := rest mod US_PER_SECOND in
  let hh := secs / 3600 in
  let rem := secs mod 3600 in
  d' ← shift_days d days;
  Ok (DT (year d') (month d') (day d') hh (rem / 60) (rem mod 60) us).

(** [d.replace(minute=m, second=s, microsecond=us)]: a new datetime, with
    the constructor's checks. *)
Definition replace (d : datetime) (m s us : Z) : result datetime :=
  let d' := DT (year d) (month d) (day d) (hour d) m s us in
  if valid d' then Ok d' else Raise ValueError.

(** *** [strftime] *)

Definition digit (n : Z) : ascii := ascii_of_nat (48 + Z.to_nat n).

(** [%02d] of a number below 100. *)
Definition pad2 (n : Z) : string :=
  String (digit (n / 10)) (String (digit (n mod 10)) EmptyString).

(** Abbreviated month names of the C locale. *)
Definition MONTH_ABBR : list string :=
  [EmptyString; "Jan"; "Feb"; "Mar"; "Apr"; "May"; "Jun";
   "Jul"; "Aug"; "Sep"; "Oct"; "Nov"; "Dec"]%string.

Definition strftime_d (d : datetime) : string := pad2 (day d).
Definition strftime_b (d : datetime) : string :=
  nth (Z.to_nat (month d)) MONTH_ABBR EmptyString.
Definition strftime_y (d : datetime) : string := pad2 (year d mod 100).
Definition strftime_H (d : datetime) : string := pad2 (hour d).
Definition strftime_M (d : datetime) : string := pad2 (minute d).

(** [str.upper()] on ASCII letters. *)
Definition upper_ascii (c : ascii) : ascii :=
  let n := nat_of_ascii c in
  if (Nat.leb 97 n && Nat.leb n 122)%bool then ascii_of_nat (n - 32) else c.

Fixpoint upper (s : string) : string :=
  match s with
  | EmptyString => EmptyString
  | String c s' => String (upper_ascii c) (upper s')
  end.

End Datetime.

(* ====================================================================== *)
(** ** app.py: class [BTC15Frame] *)

Module BTC15Frame.

Import Datetime.

(** *** Ticker math *)

(** [_compute(now)]: ticker and expiry of the active 15-minute contract. *)
Definition _compute (now : datetime) : result (string * datetime) :=
  let nm := (minute now / 15 + 1) * 15 in
  exp ← (if 60 <=? nm then
           d ← replace now 0 0 0; add d (td_hours 1)
         else replace now nm 0 0);
  let dd  := strftime_d exp in
  let mon := upper (strftime_b exp) in
  let yy  := strftime_y exp in
  let hh  := strftime_H exp in
  let mm  := strftime_M exp in
  let ticker := ("KXBTC15M-" ++ yy ++ mon ++ dd ++ hh ++ mm ++ "-" ++ mm)%string in
  Ok (ticker, exp).

(** *** Events

    What [_add_event_row] and [_add_milestone_row] hand to the [on_event]
    sink: the label, the time, the price argument, the dwell duration and
    [analytics["pnl_value"]]. *)

Inductive label : Type :=
| T40
| TARGET (n : Z)
| STOP_LOSS
| MILESTONE.

Record event : Type := Event {
  ev_label    : label;
  ev_time     : datetime;
  ev_price    : option Z;
  ev_duration : option timedelta;
  ev_pnl      : option Q
}.

Definition is_target (l : label) : bool :=
  match l with TARGET _ => true | _ => false end.

Definition is_stop_loss (l : label) : bool :=
  match l with STOP_LOSS => true | _ => false end.

(** [pnl_val = 10.0 * (ask - 40) / 40] for TARGET and STOP LOSS rows,
    [None] for the others. The quotient is a multiple of 1/4, which binary
    floating point represents exactly, so the rational is the value the
    float holds. *)
Definition pnl_value (l : label) (ask : Z) : option Q :=
  if is_target l || is_stop_loss l
  then Some (10 * (inject_Z ask - 40) / 40)%Q
  else None.

Definition _add_event_row (l : label) (time : datetime) (ask : Z)
  (duration : option timedelta) : event :=
  {| ev_label := l; ev_time := time; ev_price := Some ask;
     ev_duration := duration; ev_pnl := pnl_value l ask |}.

Definition _add_milestone_row (now : datetime) : event :=
  {| ev_label := MILESTONE; ev_time := now; ev_price := None;
     ev_duration := None; ev_pnl := None |}.

(** *** State *)

(** The three spin boxes read by [_check_events]; a [TclError] on reading
    one is the value 0. *)
Record config : Type := Config {
  no_entry_after : Z;
  max_cycles     : Z;
  sl_delay       : Z
}.

Definition default_config : config := Config 0 0 0.

Record state : Type := State {
  ticker           : string;
  expiry           : option datetime;
  book             : OrderBook.t;
  side             : string;
  _contract_start  : option datetime;
  _in_trigger      : bool;
  _trigger_time    : option datetime;
  _cycle_count     : Z;
  _cycle_log       : list (datetime * datetime);
  _stop_loss_count : Z;
  _stopped_out     : bool;
  _entry_ask       : option Z
}.

(** The state part of [_roll]: the cycle tracking is reset, the contract
    of the current time is computed and a fresh book is opened. *)
Definition _roll (now : datetime) (s : state) : result state :=
  '(tk, exp) ← _compute now;
  start ← add exp (- td_minutes 15);
  Ok {| ticker := tk;
        expiry := Some exp;
        book := OrderBook.init tk;
        side := side s;
        _contract_start := Some start;
        _in_trigger := false;
        _trigger_time := None;
        _cycle_count := 0;
        _cycle_log := [];
        _stop_loss_count := 0;
        _stopped_out := false;
        _entry_ask := None |}.

(** The frame as [__init__] leaves it before its first [_roll]. *)
Definition init (side0 : string) : state :=
  {| ticker := EmptyString; expiry := None; book := OrderBook.init EmptyString;
     side := side0; _contract_start := None;
     _in_trigger := false; _trigger_time := None; _cycle_count := 0;
     _cycle_log := []; _stop_loss_count := 0; _stopped_out := false;
     _entry_ask := None |}.

(** *** The cycle tracker *)

Definition enter (now : datetime) (ask : Z) (s : state) : state :=
  {| ticker := ticker s; expiry := expiry s; book := book s; side := side s;
     _contract_start := _contract_start s;
     _in_trigger := true;
     _trigger_time := Some now;
     _cycle_count := _cycle_count s; _cycle_log := _cycle_log s;
     _stop_loss_count := _stop_loss_count s;
     _stopped_out := _stopped_out s;
     _entry_ask := Some ask |}.

Definition stop_out (s : state) : state :=
  {| ticker := ticker s; expiry := expiry s; book := book s; side := side s;
     _contract_start := _contract_start s;
     _in_trigger := false;
     _trigger_time := None;
     _cycle_count := _cycle_count s; _cycle_log := _cycle_log s;
     _stop_loss_count := _stop_loss_count s + 1;
     _stopped_out := true;
     _entry_ask := _entry_ask s |}.

Definition complete_cycle (t now : datetime) (s : state) : state :=
  {| ticker := ticker s; expiry := expiry s; book := book s; side := side s;
     _contract_start := _contract_start s;
     _in_trigger := false;
     _trigger_time := None;
     _cycle_count := _cycle_count s + 1;
     _cycle_log := _cycle_log s ++ [(t, now)];
     _stop_loss_count := _stop_loss_count s;
     _stopped_out := _stopped_out s;
     _entry_ask := _entry_ask s |}.

Definition set_stopped_out (s : state) : state :=
  {| ticker := ticker s; expiry := expiry s; book := book s; side := side s;
     _contract_start := _contract_start s;
     _in_trigger := _in_trigger s;
     _trigger_time := _trigger_time s;
     _cycle_count := _cycle_count s; _cycle_log := _cycle_log s;
     _stop_loss_count := _stop_loss_count s;
     _stopped_out := true;
     _entry_ask := _entry_ask s |}.

(** [_check_events], with [now] the reading of the clock it makes and
    [c] the values it reads from the spin boxes. The result is the new
    state and the events emitted, in order. Subtracting the [None] of an
    unset [_trigger_time] from [now] is a [TypeError]. *)
Definition _check_events (c : config) (now : datetime) (s : state)
  : result (state * list event) :=
  if _stopped_out s then Ok (s, []) else
  let ask := OrderBook.best_ask (book s) (side s) in
  let bid := OrderBook.best_bid (book s) (side s) in
  match ask with
  | None => Ok (s, [])
  | Some ask =>
    let secs_remaining :=
      match expiry s with
      | Some e => sub e now
      | None => td_seconds 999
      end in
    if negb (_in_trigger s) then
      if secs_remaining <? td_seconds 30 then Ok (s, []) else
      let no_entry_mins := no_entry_after c in
      let cut_off :=
        match _contract_start s with
        | Some cs =>
            (0 <? no_entry_mins) && (td_minutes no_entry_mins <=? sub now cs)
        | None => false
        end in
      if cut_off then Ok (s, []) else
      if ask <=? 40 then
        Ok (enter now ask s, [_add_event_row T40 now ask None])
      else Ok (s, [])
    else
      if ask <=? 10 then
        let elapsed :=
          match _trigger_time s with
          | Some t => sub now t
          | None => td_seconds 999
          end in
        if (0 <? sl_delay c) && (elapsed <? td_seconds (sl_delay c)) then
          Ok (s, [])
        else
          Ok (stop_out s, [_add_event_row STOP_LOSS now ask None])
      else
        match bid with
        | Some bid =>
          if 45 <=? bid then
            match _trigger_time s with
            | None => Raise TypeError
            | Some t =>
              let secs := sub now t in
              let '(s1, ev1) :=
                if secs <? td_seconds 2 then (s, [])
                else
                  let s' := complete_cycle t now s in
                  (s', [_add_event_row (TARGET (_cycle_count s')) now bid
                          (Some secs)]) in
              let ev2 :=
                if _cycle_count s1 =? 4 then [_add_milestone_row now]
                else [] in
              let max_c := max_cycles c in
              let s2 :=
                if (0 <? max_c) && (max_c <=? _cycle_count s1)
                then set_stopped_out s1 else s1 in
              Ok (s2, ev1 ++ ev2)
            end
          else Ok (s, [])
        | None => Ok (s, [])
        end
  end.

(** *** The queue consumer *)

Inductive payload : Type :=
| Snapshot (msg : OrderBook.snapshot_msg)
| Delta (msg : OrderBook.delta_msg).

Definition set_book (b : OrderBook.t) (s : state) : state :=
  {| ticker := ticker s; expiry := expiry s; book := b; side := side s;
     _contract_start := _contract_start s;
     _in_trigger := _in_trigger s;
     _trigger_time := _trigger_time s;
     _cycle_count := _cycle_count s; _cycle_log := _cycle_log s;
     _stop_loss_count := _stop_loss_count s;
     _stopped_out := _stopped_out s;
     _entry_ask := _entry_ask s |}.

(** One ["data"] item of [_poll]: the book is updated, then
    [_check_events] runs. *)
Definition on_data (c : config) (p : payload) (now : datetime) (s : state)
  : result (state * list event) :=
  let b := match p with
           | Snapshot msg => OrderBook.apply_snapshot (book s) msg
           | Delta msg => OrderBook.apply_delta (book s) msg
           end in
  _check_events c now (set_book b s).

(** A run of book updates within one contract: no [_roll] in between. *)
Fixpoint run (c : config) (inputs : list (payload * datetime)) (s : state)
  : result (state * list event) :=
  match inputs with
  | [] => Ok (s, [])
  | (p, now) :: rest =>
      '(s1, ev1) ← on_data c p now s;
      '(s2, ev2) ← run c rest s1;
      Ok (s2, ev1 ++ ev2)
  end.


End BTC15Frame.

(* ====================================================================== *)
(** ** Vocabulary of the statements *)

Module Spec.

(** Every level of a side has a positive quantity. *)
Definition positive (m : gmap Z Z) : Prop :=
  ∀ p q, m !! p = Some q → 0 < q.

(** Every pair of a level list has a positive quantity. *)
Definition positive_levels (l : list (Z * Z)) : Prop :=
  Forall (λ pq, 0 < pq.2) l.

Definition known_side (s : string) : Prop :=
  s = "yes"%string ∨ s = "no"%string.

(** [k] is the greatest key of [m]. *)
Definition is_max_key (m : gmap Z Z) (k : Z) : Prop :=
  is_Some (m !! k) ∧ ∀ k', is_Some (m !! k') → k' ≤ k.

(** The quantity of the last pair of a level list that has price [p]. *)
Fixpoint last_qty (p : Z) (l : list (Z * Z)) : option Z :=
  match l with
  | [] => None
  | (p', q) :: l' =>
      match last_qty p l' with
      | Some q' => Some q'
      | None => if decide (p' = p) then Some q else None
      end
  end.

(** What one delta does to the map of the side it names: at its price the
    level holds the sum when that is positive and is absent otherwise;
    the other levels stay. *)
Definition delta_applied (before after : gmap Z Z) (price delta : Z) : Prop :=
  let new_qty := default 0 (before !! price) + delta in
  after !! price = (if decide (new_qty ≤ 0) then None else Some new_qty)
  ∧ ∀ p, p ≠ price → after !! p = before !! p.

(** The datetime [d] with its time of day set to [r] microseconds after
    midnight, split into fields the way [datetime.__add__] does. *)
Definition at_time_of_day (d : Datetime.datetime) (r : Z) : Datetime.datetime :=
  let secs := r / Datetime.US_PER_SECOND in
  let rem := secs mod 3600 in
  Datetime.DT (Datetime.year d) (Datetime.month d) (Datetime.day d)
    (secs / 3600) (rem / 60) (rem mod 60) (r mod Datetime.US_PER_SECOND).

(** The last quarter of an hour of the last day of year 9999: the only
    datetimes whose next 15-minute boundary is not a datetime. *)
Definition last_quarter_hour (d : Datetime.datetime) : bool :=
  (Datetime.year d =? Datetime.MAXYEAR) && (Datetime.month d =? 12)
  && (Datetime.day d =? 31) && (Datetime.hour d =? 23)
  && (45 <=? Datetime.minute d).

(** Reading a ticker back: the value of a decimal digit and of a
    two-character decimal field. *)
Definition digit_value (c : ascii) : option Z :=
  let n := nat_of_ascii c in
  if (Nat.leb 48 n && Nat.leb n 57)%bool
  then Some (Z.of_nat n - 48) else None.

Definition two_digits (s : string) : option Z :=
  match s with
  | String a (String b EmptyString) =>
      match digit_value a, digit_value b with
      | Some x, Some y => Some (10 * x + y)
      | _, _ => None
      end
  | _ => None
  end.

(** The twelve 3-letter uppercase month abbreviations. *)
Definition MONTHS_UPPER : list string :=
  ["JAN"; "FEB"; "MAR"; "APR"; "MAY"; "JUN";
   "JUL"; "AUG"; "SEP"; "OCT"; "NOV"; "DEC"]%string.

(** *** The cycle tracker *)

Definition labels (evs : list BTC15Frame.event) : list BTC15Frame.label :=
  map BTC15Frame.ev_label evs.

(** The book of a state after one ["data"] item. *)
Definition updated_book (p : BTC15Frame.payload) (s : BTC15Frame.state)
  : OrderBook.t :=
  match p with
  | BTC15Frame.Snapshot msg => OrderBook.apply_snapshot (BTC15Frame.book s) msg
  | BTC15Frame.Delta msg => OrderBook.apply_delta (BTC15Frame.book s) msg
  end.

(** What holds of the tracker between two rolls while the spin boxes are
    left alone: an open trigger has its time and is not stopped out, and a
    tracker that is not stopped out has cycles left. *)
Definition tracker_inv (c : BTC15Frame.config) (s : BTC15Frame.state) : Prop :=
  (BTC15Frame._in_trigger s = true →
   BTC15Frame._stopped_out s = false
   ∧ is_Some (BTC15Frame._trigger_time s))
  ∧ (BTC15Frame._stopped_out s = false →
     BTC15Frame.max_cycles c ≤ 0
     ∨ BTC15Frame._cycle_count s < BTC15Frame.max_cycles c).

(** A filler book update and a clock reading, for the traces below. *)
Definition tick_delta : BTC15Frame.payload :=
  BTC15Frame.Delta (OrderBook.DeltaMsg "yes" 20 1).

Definition at_second (n : Z) : Datetime.datetime :=
  Datetime.DT 2026 2 21 12 0 n 0.

(** Ask 40 and bid 45 on the yes side. *)
Definition crossing_snapshot : BTC15Frame.payload :=
  BTC15Frame.Snapshot
    (OrderBook.SnapshotMsg (Some [(45, 100)]) (Some [(60, 50)])).

(** Four entry/target cycles, three seconds of dwell each, then a fifth
    entry and a book update one second after it. *)
Definition milestone_trace : list (BTC15Frame.payload * Datetime.datetime) :=
  [ (crossing_snapshot, at_second 1); (tick_delta, at_second 4);
    (tick_delta, at_second 5); (tick_delta, at_second 8);
    (tick_delta, at_second 9); (tick_delta, at_second 12);
    (tick_delta, at_second 13); (tick_delta, at_second 16);
    (tick_delta, at_second 17); (tick_delta, at_second 18) ].

(** A contract from its roll on: the frame is rolled at [t0], then the
    book updates are consumed. *)
Definition contract_run (c : BTC15Frame.config) (t0 : Datetime.datetime)
  (side0 : string) (inputs : list (BTC15Frame.payload * Datetime.datetime))
  : result (BTC15Frame.state * list BTC15Frame.event) :=
  s0 ← BTC15Frame._roll t0 (BTC15Frame.init side0);
  BTC15Frame.run c inputs s0.

(** The labels emitted by a run and the cycle counter it ends with. *)
Definition summary (r : result (BTC15Frame.state * list BTC15Frame.event))
  : result (list BTC15Frame.label * Z) :=
  '(s, evs) ← r; Ok (labels evs, BTC15Frame._cycle_count s).



(** The frame on the yes side as [_roll] leaves it between 12:00 and
    12:15 on 2026-02-21. *)
Definition rolled_at_noon : BTC15Frame.state :=
  BTC15Frame.State "KXBTC15M-26FEB211215-15"
    (Some (Datetime.DT 2026 2 21 12 15 0 0))
    (OrderBook.init "KXBTC15M-26FEB211215-15") "yes"
    (Some (Datetime.DT 2026 2 21 12 0 0 0))
    false None 0 [] 0 false None.

End Spec.

From Stdlib Require Import Lqa.
From stdpp Require Import pretty.

Local Open Scope Z_scope.

(* ====================================================================== *)
(** ** Vocabulary for the order book as a whole *)

Module BookSpec.

(** [side.get(price, 0)]: the quantity read at a price, 0 for an absent
    level. *)
Definition qty (m : gmap Z Z) (p : Z) : Z := default 0 (m !! p).

(** The map a side string selects: the yes map for "yes", the no map for
    every other string. *)
Definition side_map (b : OrderBook.t) (side : string) : gmap Z Z :=
  if String.eqb side "yes" then OrderBook.yes b else OrderBook.no b.

(** Whether a delta message changes the map that [side] selects, at
    price [p]. *)
Definition targets (side : string) (p : Z) (msg : OrderBook.delta_msg) : bool :=
  Bool.eqb (String.eqb (OrderBook.d_side msg) "yes") (String.eqb side "yes")
  && (OrderBook.d_price msg =? p).

(** The deltas of a message list that change the level [p] of [side], in
    order. *)
Definition deltas_for (side : string) (p : Z)
  (msgs : list OrderBook.delta_msg) : list Z :=
  map OrderBook.d_delta (List.filter (targets side p) msgs).

(** A counter that adds signed amounts and never goes below zero. *)
Definition saturating (q : Z) (ds : list Z) : Z :=
  fold_left (λ q d, Z.max 0 (q + d)) ds q.

(** The message that undoes the amount of [msg]. *)
Definition opposite (msg : OrderBook.delta_msg) : OrderBook.delta_msg :=
  OrderBook.DeltaMsg (OrderBook.d_side msg) (OrderBook.d_price msg)
    (- OrderBook.d_delta msg).

(** Two messages change different levels: different maps or different
    prices. *)
Definition independent (m1 m2 : OrderBook.delta_msg) : Prop :=
  String.eqb (OrderBook.d_side m1) "yes" ≠ String.eqb (OrderBook.d_side m2) "yes"
  ∨ OrderBook.d_price m1 ≠ OrderBook.d_price m2.

End BookSpec.

(* ====================================================================== *)
(** ** Vocabulary for whole contracts *)

Module TrackerSpec.

Import BTC15Frame.

Definition is_entry (l : label) : bool :=
  match l with T40 => true | _ => false end.

Definition is_milestone (l : label) : bool :=
  match l with MILESTONE => true | _ => false end.

(** How many of the events carry a label of the given kind. *)
Definition count (kind : label → bool) (evs : list event) : Z :=
  Z.of_nat (length (List.filter kind (Spec.labels evs))).

(** 1 while a trigger is open, 0 otherwise. *)
Definition open_count (s : state) : Z := if _in_trigger s then 1 else 0.

(** The numbers of the TARGET events, in order of emission. *)
Definition target_numbers (evs : list event) : list Z :=
  omap (λ e, match ev_label e with TARGET n => Some n | _ => None end) evs.

(** One ["data"] item applied to a book. *)
Definition apply_payload (p : payload) (b : OrderBook.t) : OrderBook.t :=
  match p with
  | Snapshot msg => OrderBook.apply_snapshot b msg
  | Delta msg => OrderBook.apply_delta b msg
  end.

(** The book after a run of updates, and the ask of [side] seen after
    each of them. *)
Definition book_after (inputs : list (payload * Datetime.datetime))
  (b : OrderBook.t) : OrderBook.t :=
  fold_left (λ b i, apply_payload i.1 b) inputs b.

Fixpoint asks_seen (side0 : string)
  (inputs : list (payload * Datetime.datetime)) (b : OrderBook.t)
  : list (option Z) :=
  match inputs with
  | [] => []
  | (p, _) :: rest =>
      OrderBook.best_ask (apply_payload p b) side0
      :: asks_seen side0 rest (apply_payload p b)
  end.

(** The ask never came down to the entry threshold. *)
Definition never_at_entry (asks : list (option Z)) : Prop :=
  Forall (λ a, ∀ k, a = Some k → 40 < k) asks.

End TrackerSpec.

(* ====================================================================== *)
(** ** app.py: the end of a contract and the two history tabs *)

Module Callbacks.

Import Datetime BTC15Frame.

(** [strftime("%H:%M:%S")] *)
Definition strftime_HMS (d : datetime) : string :=
  (strftime_H d ++ ":" ++ strftime_M d ++ ":" ++ pad2 (second d))%string.

(** Truth value of a string: true exactly when it is not empty. *)
Definition nonempty (s : string) : bool :=
  match s with EmptyString => false | String _ _ => true end.

(** The label strings [_check_events] and [_add_milestone_row] pass on:
    ["T40"], [f"TARGET #{self._cycle_count}"], ["STOP LOSS"],
    ["MILESTONE"]. *)
Definition label_str (l : label) : string :=
  match l with
  | T40 => "T40"
  | TARGET n => "TARGET #" ++ pretty n
  | STOP_LOSS => "STOP LOSS"
  | MILESTONE => "MILESTONE"
  end%string.

(** In [_roll], before the reset: the time of the open trigger, if any. *)
Definition open_trig_str (s : state) : option string :=
  if _in_trigger s then strftime_HMS <$> _trigger_time s else None.

(** In [_roll]: [cycle_data], queued with the ["roll"] item. *)
Definition cycle_data (s : state) : Z * option string * Z :=
  (_cycle_count s, open_trig_str s, _stop_loss_count s).

(** In [_roll]: the arguments of the [on_contract_end] call, made only
    when the frame already has a ticker (not on its very first roll). *)
Definition contract_end_call (s : state)
  : option (string * string * Z * Z * bool) :=
  if nonempty (ticker s)
  then Some (ticker s, side s, _cycle_count s, _stop_loss_count s,
             _in_trigger s)
  else None.

(** The suffix both summaries use for the stop losses of a contract. *)
Definition stop_suffix (stop_count : Z) : string :=
  let plural : string := if 1 <? stop_count then "es" else EmptyString in
  if stop_count =? 0 then EmptyString
  else ("  |  " ++ pretty stop_count ++ " stop loss" ++ plural)%string.

(** [_append_roll_marker]: the summary text, the row tag and the event
    label of the CONTRACT END row. *)
Definition roll_marker (data : Z * option string * Z)
  : string * string * string :=
  let '(cycle_count, open_trig, stop_loss_count) := data in
  let stop_sfx := stop_suffix stop_loss_count in
  let open_text := default EmptyString open_trig in
  if 4 <=? cycle_count then
    (("★ " ++ pretty cycle_count ++ " CYCLES completed  ≤40→≥45"
      ++ stop_sfx ++ "  ★")%string,
     "milestone"%string,
     ("CYCLES:" ++ pretty cycle_count)%string)
  else if 0 <? cycle_count then
    ((pretty cycle_count ++ " cycle(s)  ≤40→≥45  completed" ++ stop_sfx
      ++ (if nonempty open_text
          then "  +  open trigger @ " ++ open_text else EmptyString))%string,
     "event_tgt"%string,
     ("CYCLES:" ++ pretty cycle_count)%string)
  else if nonempty open_text then
    (("≤40 hit @ " ++ open_text ++ "  →  ≥45 never reached" ++ stop_sfx)%string,
     "event_t"%string, "CYCLE ✗"%string)
  else
    (("ask never reached ≤40" ++ stop_sfx)%string,
     "roll"%string, "NO TRIG"%string).

End Callbacks.

Module HistoryFrame.

Import Datetime.

(** One row of [_records], with the tag of its tree row. *)
Record row : Type := Row {
  end_time  : string;
  r_ticker  : string;
  r_side    : string;
  cycles    : string;
  stops     : string;
  open_trig : string;
  result    : string;
  tag       : string
}.

(** [add_record], with [now] its reading of the clock: the row it
    appends. *)
Definition add_record (now : datetime) (ticker side : string)
  (cycle_count stop_count : Z) (open_trig0 : bool) : row :=
  let '(result0, tag0) :=
    if 4 <=? cycle_count then
      (("★ " ++ pretty cycle_count ++ " CYCLES ≤40→≥45")%string,
       "milestone"%string)
    else if 0 <? cycle_count then
      ((pretty cycle_count ++ " cycle(s) ≤40→≥45")%string, "good"%string)
    else if open_trig0 then
      ("trigger hit — target not reached"%string, "stop"%string)
    else ("no trigger"%string, "neutral"%string) in
  {| end_time := Callbacks.strftime_HMS now;
     r_ticker := ticker;
     r_side := upper side;
     cycles := pretty cycle_count;
     stops := pretty stop_count;
     open_trig := if open_trig0 then "yes" else "—";
     result := (result0 ++ Callbacks.stop_suffix stop_count)%string;
     tag := tag0 |}.

End HistoryFrame.

Module TradeHistoryFrame.

(** The counters and the running P&L of the tab. The rows it also keeps
    for display and export are not part of this model. A [KeyError] is
    [None]. *)
Record t : Type := TradeHistory {
  _stats          : gmap string Z;
  _cumulative_pnl : Q
}.

(** [__init__] *)
Definition init : t :=
  {| _stats :=
       list_to_map
         [("cycles_yes", 0); ("cycles_no", 0);
          ("stops_yes", 0); ("stops_no", 0);
          ("triggers_yes", 0); ("triggers_no", 0);
          ("contracts_yes", 0); ("contracts_no", 0);
          ("milestones_yes", 0); ("milestones_no", 0)]%string;
     _cumulative_pnl := 0%Q |}.

(** [self._stats[key] += 1] *)
Definition bump (key : string) (stats : gmap string Z)
  : option (gmap string Z) :=
  v ← stats !! key; Some (<[key := v + 1]> stats).

(** [add_event]: the label decides which counter of the side goes up;
    a P&L value, when there is one, is added to the running total. *)
Definition add_event (side event_label : string) (pnl_value : option Q)
  (h : t) : option t :=
  stats ←
    (if String.prefix "TARGET" event_label then
       bump ("cycles_" ++ side) (_stats h)
     else if String.eqb event_label "STOP LOSS" then
       bump ("stops_" ++ side) (_stats h)
     else if String.eqb event_label "T40" then
       bump ("triggers_" ++ side) (_stats h)
     else if String.eqb event_label "MILESTONE" then
       bump ("milestones_" ++ side) (_stats h)
     else Some (_stats h));
  Some {| _stats := stats;
          _cumulative_pnl :=
            match pnl_value with
            | Some v => (_cumulative_pnl h + v)%Q
            | None => _cumulative_pnl h
            end |}.

(** [add_contract_end] *)
Definition add_contract_end (side : string) (h : t) : option t :=
  stats ← bump ("contracts_" ++ side) (_stats h);
  Some {| _stats := stats; _cumulative_pnl := _cumulative_pnl h |}.

(** The [on_event] calls of a frame of the given side, one per event, in
    order. *)
Fixpoint deliver (side : string) (evs : list BTC15Frame.event) (h : t)
  : option t :=
  match evs with
  | [] => Some h
  | ev :: rest =>
      h' ← add_event side (Callbacks.label_str (BTC15Frame.ev_label ev))
             (BTC15Frame.ev_pnl ev) h;
      deliver side rest h'
  end.

End TradeHistoryFrame.

(* ====================================================================== *)
(** ** Vocabulary for the history tabs *)

Module HistorySpec.

Import BTC15Frame TradeHistoryFrame.

(** The four event counters the trade history keeps for a side: cycles,
    stops, triggers, milestones. A counter whose key is missing is
    [None]. *)
Definition tallies (side : string) (h : TradeHistoryFrame.t)
  : option (Z * Z * Z * Z) :=
  a ← _stats h !! ("cycles_" ++ side)%string;
  b ← _stats h !! ("stops_" ++ side)%string;
  c ← _stats h !! ("triggers_" ++ side)%string;
  d ← _stats h !! ("milestones_" ++ side)%string;
  Some (a, b, c, d).

(** The other side of a known side. *)
Definition other_side (side : string) : string :=
  if String.eqb side "yes" then "no" else "yes".

(** 1 for a label of the given kind, 0 otherwise. *)
Definition tick (kind : label → bool) (l : label) : Z :=
  if kind l then 1 else 0.

(** The sum of the P&L values the events carry. *)
Definition total_pnl (evs : list event) : Q :=
  fold_right (λ ev acc, match ev_pnl ev with
                        | Some v => (v + acc)%Q
                        | None => acc
                        end) 0%Q evs.

(** What the P&L of an event is, by its kind: a gain of at least 1.25 on
    a TARGET, a loss of at least 7.5 on a STOP LOSS, none otherwise. *)
Definition pnl_by_kind (ev : event) : Prop :=
  match ev_label ev with
  | TARGET _ => ∃ q, ev_pnl ev = Some q ∧ ((5 # 4) <= q)%Q
  | STOP_LOSS => ∃ q, ev_pnl ev = Some q ∧ (q <= - (15 # 2))%Q
  | _ => ev_pnl ev = None
  end.

(** The row tag of the roll marker that goes with a tag of the history
    tab. *)
Definition marker_tag (history_tag : string) : string :=
  if String.eqb history_tag "milestone" then "milestone"
  else if String.eqb history_tag "good" then "event_tgt"
  else if String.eqb history_tag "stop" then "event_t"
  else "roll".

End HistorySpec.

(* ====================================================================== *)
(** ** app.py: the one-second tick of [BTC15Frame] *)

Module Timers.

Import Datetime BTC15Frame.

(** [f"{n:02d}"] for a number that is not negative. *)
Definition fmt_02d (n : Z) : string :=
  if n <? 10 then ("0" ++ pretty n)%string else pretty n.

(** [int(x)] for the seconds of a timedelta that is not negative: whole
    seconds, rounded down. *)
Definition whole_seconds (td : Z) : Z := td / US_PER_SECOND.

(** The text [_tick] puts in the countdown label while the contract
    runs: time remaining, and time into the 900-second session. *)
Definition countdown_text (secs : Z) : string :=
  let m := whole_seconds secs / 60 in
  let s := whole_seconds secs mod 60 in
  let elapsed := Z.max 0 (td_seconds 900 - secs) in
  let em := whole_seconds elapsed / 60 in
  let es := whole_seconds elapsed mod 60 in
  ("Rem " ++ fmt_02d m ++ ":" ++ fmt_02d s ++ "  |  Sn "
   ++ fmt_02d em ++ ":" ++ fmt_02d es)%string.

(** [_tick], with [running] the flag it tests, [now] its reading of the
    clock and [now'] the later reading [_roll] makes when it is called.
    The result is the new state and the countdown text, when one is
    set. *)
Definition _tick (running : bool) (now now' : datetime) (s : state)
  : result (state * option string) :=
  if negb running then Ok (s, None) else
  match expiry s with
  | Some e =>
      let secs := sub e now in
      if secs <=? 0 then
        s' ← _roll now' s; Ok (s', None)
      else Ok (s, Some (countdown_text secs))
  | None => Ok (s, None)
  end.

End Timers.

(* ====================================================================== *)
(** ** order_book.py [display] and app.py [_redraw]: the price ladder *)

From stdpp Require Import sorting.

Local Open Scope Z_scope.

Module Ladder.

(** The order of [sorted(book.items(), reverse=True)]: [x] comes before
    [y] when the tuple [x] is greater than or equal to the tuple [y]. *)
Definition tuple_ge (x y : Z * Z) : Prop :=
  y.1 < x.1 ∨ (y.1 = x.1 ∧ y.2 ≤ x.2).

#[global] Instance tuple_ge_dec x y : Decision (tuple_ge x y).
Proof. unfold tuple_ge. apply _. Defined.

Definition sorted_desc (m : gmap Z Z) : list (Z * Z) :=
  merge_sort tuple_ge (map_to_list m).

(** The (price, quantity) pairs of the bid rows, from the top row down:
    [sorted(own.items(), reverse=True)[:8]]. *)
Definition bid_rows (b : OrderBook.t) (side : string) : list (Z * Z) :=
  let own := if String.eqb side "yes" then OrderBook.yes b
             else OrderBook.no b in
  take 8 (sorted_desc own).

(** The (ask price, quantity) pairs of the ask rows, from the top row
    down: the first 8 of the opposite side in descending order, walked in
    reverse, each shown at 100 minus its price. *)
Definition ask_rows (b : OrderBook.t) (side : string) : list (Z * Z) :=
  let other := if String.eqb side "yes" then OrderBook.no b
               else OrderBook.yes b in
  (λ pq, (100 - pq.1, pq.2)) <$> reverse (take 8 (sorted_desc other)).

(** Prices fall strictly from one row to the next. *)
Definition falling (rows : list (Z * Z)) : Prop :=
  StronglySorted (λ x y, y.1 < x.1) rows.

End Ladder.

(* ====================================================================== *)
(** ** watcher.py [watch_orderbook] and app.py [BookFrame]: the feeds *)

(** A message received on the websocket, by its ["type"]. An error
    message carries the text of its ["msg"]; a message of any other type
    carries nothing that is read. *)
Inductive ws_message : Type :=
| OrderbookSnapshot (msg : OrderBook.snapshot_msg)
| OrderbookDelta (msg : OrderBook.delta_msg)
| ErrorMessage (text : string)
| OtherMessage.

Module Watcher.

Import OrderBook.

(** The numbers [OrderBook.display] prints: the header line and the two
    blocks of rows. *)
Record screen : Type := Screen {
  scr_ticker : string;
  scr_bid    : option Z;
  scr_ask    : option Z;
  scr_spread : option Z;
  scr_asks   : list (Z * Z);
  scr_bids   : list (Z * Z)
}.

Definition display (b : OrderBook.t) (side : string) : screen :=
  {| scr_ticker := market_ticker b;
     scr_bid := best_bid b side;
     scr_ask := best_ask b side;
     scr_spread := spread b side;
     scr_asks := Ladder.ask_rows b side;
     scr_bids := Ladder.bid_rows b side |}.

(** The receive loop of [watch_orderbook] over the messages that arrive,
    in order: the book when the loop breaks or the messages run out, and
    the screens displayed on the way. *)
Fixpoint receive (side : string) (debug : bool) (msgs : list ws_message)
  (book : OrderBook.t) : OrderBook.t * list screen :=
  match msgs with
  | [] => (book, [])
  | OrderbookSnapshot msg :: rest =>
      let book' := apply_snapshot book msg in
      let r := receive side debug rest book' in
      (r.1, (if debug then [] else [display book' side]) ++ r.2)
  | OrderbookDelta msg :: rest =>
      let book' := apply_delta book msg in
      let r := receive side debug rest book' in
      (r.1, (if debug then [] else [display book' side]) ++ r.2)
  | ErrorMessage _ :: _ => (book, [])
  | OtherMessage :: rest => receive side debug rest book
  end.

Definition watch_orderbook (ticker side : string) (debug : bool)
  (msgs : list ws_message) : OrderBook.t * list screen :=
  receive side debug msgs (OrderBook.init ticker).

End Watcher.

Module BookFrame.

Import OrderBook.

(** An item of the frame's queue. *)
Inductive item : Type :=
| Status (text : string)
| Data (p : BTC15Frame.payload).

(** The receive loop of [_ws_loop]: what it puts on the queue for the
    messages that arrive. *)
Fixpoint forward (msgs : list ws_message) : list item :=
  match msgs with
  | [] => []
  | OrderbookSnapshot msg :: rest =>
      Data (BTC15Frame.Snapshot msg) :: forward rest
  | OrderbookDelta msg :: rest =>
      Data (BTC15Frame.Delta msg) :: forward rest
  | ErrorMessage text :: _ => [Status ("Error: " ++ text)]
  | OtherMessage :: rest => forward rest
  end.

Definition _ws_loop (msgs : list ws_message) : list item :=
  Status "Live" :: forward msgs.

(** What [_redraw] shows: the three numbers of the summary line, or none
    while it reads "Waiting for snapshot", and the two blocks of rows. *)
Record drawing : Type := Drawing {
  summary : option (Z * option Z * option Z);
  asks    : list (Z * Z);
  bids    : list (Z * Z)
}.

Definition _redraw (side : string) (bk : OrderBook.t) : drawing :=
  {| summary := match best_bid bk side with
                | Some bid => Some (bid, best_ask bk side, spread bk side)
                | None => None
                end;
     asks := Ladder.ask_rows bk side;
     bids := Ladder.bid_rows bk side |}.

Record t : Type := Frame {
  side       : string;
  book       : OrderBook.t;
  status_var : string
}.

(** [BookFrame.__init__] *)
Definition init (ticker : string) : t :=
  {| side := "yes"; book := OrderBook.init ticker;
     status_var := "Connecting…" |}.

(** The loop of [_poll] over the items on the queue: the frame when the
    queue is empty, and what each [_redraw] showed. *)
Fixpoint drain (items : list item) (f : t) : t * list drawing :=
  match items with
  | [] => (f, [])
  | Status text :: rest =>
      drain rest {| side := side f; book := book f; status_var := text |}
  | Data p :: rest =>
      let book' := match p with
                   | BTC15Frame.Snapshot msg => apply_snapshot (book f) msg
                   | BTC15Frame.Delta msg => apply_delta (book f) msg
                   end in
      let r := drain rest {| side := side f; book := book';
                             status_var := status_var f |} in
      (r.1, _redraw (side f) book' :: r.2)
  end.

Definition _poll (running : bool) (items : list item) (f : t)
  : t * list drawing :=
  if negb running then (f, []) else drain items f.

End BookFrame.

(** Vocabulary for the feeds. *)
Module FeedSpec.

Definition is_error (m : ws_message) : bool :=
  match m with ErrorMessage _ => true | _ => false end.

(** The drawing that shows the numbers of a screen. *)
Definition drawing_of (s : Watcher.screen) : BookFrame.drawing :=
  {| BookFrame.summary :=
       match Watcher.scr_bid s with
       | Some bid => Some (bid, Watcher.scr_ask s, Watcher.scr_spread s)
       | None => None
       end;
     BookFrame.asks := Watcher.scr_asks s;
     BookFrame.bids := Watcher.scr_bids s |}.

End FeedSpec.

(* ====================================================================== *)
(** ** app.py [_fetch_strike]: the retry loop *)

Module StrikeFetch.

Section Loop.

(** The type of the strike value, a Python float that is only passed
    on. *)
Context {V : Type}.

(** How the body of one attempt ends: a pattern matched and gave a
    value, no pattern matched, or an exception was raised. *)
Inductive outcome : Type :=
| Matched (val : V)
| NoMatch
| Raised (e : string).

(** What the thread does that can be seen from outside, in order. *)
Inductive action : Type :=
| SetSharedStrike (val : V)
| PutStrike (val : V)
| PutStatus (text : string)
| PutStrikeFailed
| Sleep (secs : Z).

(** The [for attempt in range(6)] loop over the attempts still to make,
    with [try_ attempt] the outcome of attempt number [attempt]. *)
Fixpoint attempts (range : list Z) (try_ : Z → outcome) : list action :=
  match range with
  | [] => [PutStrikeFailed]
  | attempt :: rest =>
      match try_ attempt with
      | Matched val => [SetSharedStrike val; PutStrike val]
      | NoMatch => Sleep 7 :: attempts rest try_
      | Raised e =>
          if attempt =? 5 then
            [PutStatus ("Strike error: " ++ e); PutStrikeFailed]
          else Sleep 7 :: attempts rest try_
      end
  end.

Definition _fetch_strike (try_ : Z → outcome) : list action :=
  attempts (seqZ 0 6) try_.

(** The attempt matched nothing. *)
Definition unmatched (o : outcome) : Prop :=
  match o with Matched _ => False | _ => True end.

End Loop.

Arguments outcome : clear implicits.
Arguments action : clear implicits.

End StrikeFetch.

(* ====================================================================== *)
(** * Properties of the order book *)

Section OrderBookFacts.

Import OrderBook Spec.

Implicit Types (m : gmap Z Z) (b : OrderBook.t) (l : list (Z * Z)).

Lemma update_side_applied m price delta :
  delta_applied m (update_side m price delta) price delta.
Proof.
  unfold delta_applied, update_side. cbn zeta.
  destruct (Z.leb_spec (default 0 (m !! price) + delta) 0) as [Hle | Hgt].
  - rewrite decide_True by done. split.
    + apply lookup_delete_eq.
    + intros p Hp. by rewrite lookup_delete_ne.
  - rewrite decide_False by lia. split.
    + apply lookup_insert_eq.
    + intros p Hp. by rewrite lookup_insert_ne.
Qed.

Lemma update_side_positive m price delta :
  positive m → positive (update_side m price delta).
Proof.
  intros Hm p q. destruct (update_side_applied m price delta) as [Hat Hoff].
  destruct (decide (p = price)) as [-> | Hne].
  - rewrite Hat. case_decide; [done |]. intros [= <-]. lia.
  - rewrite Hoff by done. apply Hm.
Qed.

Lemma positive_empty : positive ∅.
Proof. intros p q. by rewrite lookup_empty. Qed.

Lemma fold_insert_lookup l m p :
  fold_left (λ m pq, <[pq.1 := pq.2]> m) l m !! p
  = match last_qty p l with Some q => Some q | None => m !! p end.
Proof.
  revert m. induction l as [| [p' q] l IH]; intros m; cbn; [done |].
  rewrite IH. destruct (last_qty p l); [done |].
  case_decide as Hp.
  - subst. apply lookup_insert_eq.
  - by rewrite lookup_insert_ne.
Qed.

Lemma dict_of_levels_lookup l p : dict_of_levels l !! p = last_qty p l.
Proof.
  unfold dict_of_levels. rewrite fold_insert_lookup, lookup_empty.
  by destruct (last_qty p l).
Qed.

Lemma last_qty_elem p q l : last_qty p l = Some q → (p, q) ∈ l.
Proof.
  induction l as [| [p' q'] l IH]; cbn; [done |].
  destruct (last_qty p l) as [q0 |].
  - intros [= <-]. right. by apply IH.
  - case_decide; [| done]. intros [= <-]. subst. left.
Qed.

Lemma dict_of_levels_positive l :
  positive_levels l → positive (dict_of_levels l).
Proof.
  intros Hl p q. rewrite dict_of_levels_lookup. intros Hq.
  apply last_qty_elem in Hq.
  unfold positive_levels in Hl. rewrite Forall_forall in Hl.
  by apply (Hl (p, q)).
Qed.

Lemma apply_delta_positive b msg :
  positive (yes b) → positive (no b) →
  positive (yes (apply_delta b msg)) ∧ positive (no (apply_delta b msg)).
Proof.
  intros Hy Hn. unfold apply_delta.
  destruct (String.eqb (d_side msg) "yes"); cbn;
    auto using update_side_positive.
Qed.

Lemma apply_deltas_positive deltas b :
  positive (yes b) → positive (no b) →
  positive (yes (fold_left apply_delta deltas b))
  ∧ positive (no (fold_left apply_delta deltas b)).
Proof.
  revert b. induction deltas as [| msg deltas IH]; intros b Hy Hn; cbn.
  - done.
  - destruct (apply_delta_positive b msg Hy Hn). by apply IH.
Qed.

(** *** The greatest key *)

Lemma max_list_spec (l : list Z) :
  match max_list l with
  | None => l = []
  | Some k => k ∈ l ∧ ∀ x, x ∈ l → x ≤ k
  end.
Proof.
  induction l as [| a l IH]; [done |].
  change (max_list (a :: l))
    with (Some (from_option (Z.max a) a (max_list l))).
  destruct (max_list l) as [k |]; cbn [from_option].
  - destruct IH as [Hin Hub]. split.
    + destruct (Z.max_spec a k) as [[_ ->] | [_ ->]]; [by right | left].
    + intros x [-> | Hx]%elem_of_cons; [lia |].
      specialize (Hub x Hx). lia.
  - subst l. split; [left |]. intros x [-> | Hx]%elem_of_cons; [lia |].
    by apply elem_of_nil in Hx.
Qed.

Lemma elem_of_keys m k : k ∈ (map_to_list m).*1 ↔ is_Some (m !! k).
Proof.
  rewrite list_elem_of_fmap. split.
  - intros [[k' q] [-> Hin]]. apply elem_of_map_to_list in Hin. by exists q.
  - intros [q Hq]. exists (k, q). split; [done |].
    by apply elem_of_map_to_list.
Qed.

Lemma max_key_spec m :
  (m = ∅ ∧ max_key m = None) ∨ (∃ k, is_max_key m k ∧ max_key m = Some k).
Proof.
  unfold max_key. pose proof (max_list_spec (map_to_list m).*1) as H.
  destruct (max_list (map_to_list m).*1) as [k |].
  - right. exists k. destruct H as [Hin Hub]. split; [| done]. split.
    + by apply elem_of_keys.
    + intros k' Hk'. apply Hub. by apply elem_of_keys.
  - left. split; [| done]. apply fmap_nil_inv in H.
    by apply map_to_list_empty_iff.
Qed.

Lemma is_max_key_nonempty m k : is_max_key m k → m ≠ ∅.
Proof. intros [[q Hq] _] ->. by rewrite lookup_empty in Hq. Qed.

Lemma truthy_spec m : truthy m = true ↔ m ≠ ∅.
Proof.
  unfold truthy. rewrite negb_true_iff, bool_decide_eq_false. done.
Qed.

(** [max] over the keys, guarded by the truth value of the map. *)
Lemma guarded_max_spec m :
  (m = ∅ ∧ (if truthy m then max_key m else None) = None)
  ∨ (∃ k, is_max_key m k ∧ (if truthy m then max_key m else None) = Some k).
Proof.
  destruct (max_key_spec m) as [[-> Hnone] | (k & Hk & Hsome)].
  - left. split; [done |]. by destruct (truthy ∅).
  - right. exists k. split; [done |].
    pose proof (is_max_key_nonempty m k Hk) as Hne.
    apply truthy_spec in Hne. by rewrite Hne.
Qed.

End OrderBookFacts.

Section OrderBookClaims.

Import OrderBook Spec.

Implicit Types (b : OrderBook.t) (msg : delta_msg).

(** C1, as stated, fails: a delta whose side is neither "yes" nor "no" is
    not a no-op. On an empty book the message
    [{side: "maybe", price: 50, delta: 10}] creates the level 50 -> 10 in
    the no map. *)
Lemma apply_delta_unknown_side_not_noop :
  let b := OrderBook.init "KXBTC15M" in
  let msg := DeltaMsg "maybe" 50 10 in
  ¬ known_side (d_side msg)
  ∧ no (apply_delta b msg) !! 50 = Some 10
  ∧ no (apply_delta b msg) ≠ no b.
Proof.
  cbn zeta. split; [| split].
  - intros [H | H]; discriminate H.
  - reflexivity.
  - intros H. apply (f_equal (λ m, m !! 50)) in H. discriminate H.
Qed.

(** C1, amended: for every delta message whose side field is not "yes"
    (the value "no" and every unrecognised value alike), [apply_delta]
    leaves the yes map unchanged and applies the delta to the no map: the
    level at the message's price holds the old quantity plus the delta
    when that sum is positive and is absent otherwise, every other level
    of the no map is unchanged. *)
Theorem apply_delta_not_yes_updates_no b msg :
  d_side msg ≠ "yes"%string →
  yes (apply_delta b msg) = yes b
  ∧ market_ticker (apply_delta b msg) = market_ticker b
  ∧ delta_applied (no b) (no (apply_delta b msg)) (d_price msg) (d_delta msg).
Proof.
  intros Hside. unfold apply_delta.
  destruct (String.eqb_spec (d_side msg) "yes") as [Heq | _]; [done |].
  cbn. split; [done |]. split; [done |]. apply update_side_applied.
Qed.

(** The amended C1 at the message [{side: "maybe", price: 50, delta: 10}]. *)
Lemma apply_delta_not_yes_updates_no_witness :
  let b := OrderBook.init "KXBTC15M" in
  let msg := DeltaMsg "maybe" 50 10 in
  d_side msg ≠ "yes"%string
  ∧ yes (apply_delta b msg) = yes b
  ∧ market_ticker (apply_delta b msg) = market_ticker b
  ∧ delta_applied (no b) (no (apply_delta b msg)) (d_price msg) (d_delta msg).
Proof.
  cbn zeta. split.
  - discriminate.
  - apply (apply_delta_not_yes_updates_no
             (OrderBook.init "KXBTC15M") (DeltaMsg "maybe" 50 10)).
    discriminate.
Defined.

(** C2: from a snapshot whose quantities are all positive, any finite
    sequence of deltas with known sides leads to a book in which every
    level of either side has a positive quantity; and one delta with a
    known side sets, in the map of its side, the level at its price to
    the old quantity plus the delta when that is positive and removes it
    otherwise, leaving the other levels and the other side as they
    were. *)
Theorem no_nonpositive_level_after_deltas b0 snap deltas :
  positive_levels (get_levels (snap_yes snap)) →
  positive_levels (get_levels (snap_no snap)) →
  Forall (λ msg, known_side (d_side msg)) deltas →
  let b := fold_left apply_delta deltas (apply_snapshot b0 snap) in
  (positive (yes b) ∧ positive (no b))
  ∧ Forall (λ msg, ∀ b1,
      (d_side msg = "yes"%string
       ∧ delta_applied (yes b1) (yes (apply_delta b1 msg))
           (d_price msg) (d_delta msg)
       ∧ no (apply_delta b1 msg) = no b1)
      ∨ (d_side msg = "no"%string
         ∧ delta_applied (no b1) (no (apply_delta b1 msg))
             (d_price msg) (d_delta msg)
         ∧ yes (apply_delta b1 msg) = yes b1)) deltas.
Proof.
  intros Hyes Hno Hsides. cbn zeta. split.
  - apply apply_deltas_positive; cbn; by apply dict_of_levels_positive.
  - eapply Forall_impl; [exact Hsides |].
    intros msg [Hs | Hs] b1; [left | right]; (split; [done |]);
      unfold apply_delta; rewrite Hs; cbn;
      (split; [apply update_side_applied | done]).
Qed.

(** C2 at the snapshot [yes=[[30,100]], no=[[65,50]]] and three deltas. *)
Lemma no_nonpositive_level_after_deltas_witness :
  let snap := SnapshotMsg (Some [(30, 100)]) (Some [(65, 50)]) in
  let deltas := [DeltaMsg "yes" 30 (-100); DeltaMsg "no" 65 (-20);
                 DeltaMsg "yes" 31 7] in
  let b := fold_left apply_delta deltas
             (apply_snapshot (OrderBook.init "KXBTC15M") snap) in
  (positive_levels (get_levels (snap_yes snap))
   ∧ positive_levels (get_levels (snap_no snap))
   ∧ Forall (λ msg, known_side (d_side msg)) deltas)
  ∧ positive (yes b) ∧ positive (no b).
Proof.
  cbn zeta. split.
  { repeat split; repeat constructor; (by left) || (by right). }
  apply (no_nonpositive_level_after_deltas (OrderBook.init "KXBTC15M")
           (SnapshotMsg (Some [(30, 100)]) (Some [(65, 50)]))
           [DeltaMsg "yes" 30 (-100); DeltaMsg "no" 65 (-20);
            DeltaMsg "yes" 31 7]).
  - repeat constructor.
  - repeat constructor.
  - repeat constructor; (by left) || (by right).
Defined.

(** C3: for both sides of every book, [best_ask] of a side is 100 minus
    the greatest key of the opposite side's map when that map is not
    empty and is none when it is empty; [best_bid] of a side is the
    greatest key of the side's own map and none when that map is empty.
    Hence [best_ask] of a side is 100 minus [best_bid] of the opposite
    side. *)
Theorem best_ask_is_100_minus_opposite_best_bid b :
  let bid_of own r :=
    (own = ∅ ∧ r = None) ∨ (∃ k, is_max_key own k ∧ r = Some k) in
  let ask_of other r :=
    (other = ∅ ∧ r = None) ∨ (∃ k, is_max_key other k ∧ r = Some (100 - k)) in
  bid_of (yes b) (best_bid b "yes")
  ∧ bid_of (no b) (best_bid b "no")
  ∧ ask_of (no b) (best_ask b "yes")
  ∧ ask_of (yes b) (best_ask b "no")
  ∧ best_ask b "yes" = (λ k, 100 - k) <$> best_bid b "no"
  ∧ best_ask b "no" = (λ k, 100 - k) <$> best_bid b "yes".
Proof.
  cbn zeta. unfold best_bid, best_ask. cbn [String.eqb Ascii.eqb Bool.eqb].
  cbn beta iota.
  repeat split.
  - apply guarded_max_spec.
  - apply guarded_max_spec.
  - destruct (guarded_max_spec (no b)) as [[He Hr] | (k & Hk & Hr)].
    + left. split; [done |]. rewrite He. by destruct (truthy ∅).
    + right. exists k. split; [done |].
      destruct (truthy (no b)); [| done]. by rewrite Hr.
  - destruct (guarded_max_spec (yes b)) as [[He Hr] | (k & Hk & Hr)].
    + left. split; [done |]. rewrite He. by destruct (truthy ∅).
    + right. exists k. split; [done |].
      destruct (truthy (yes b)); [| done]. by rewrite Hr.
  - by destruct (truthy (no b)).
  - by destruct (truthy (yes b)).
Qed.

(** C10: [apply_snapshot] stores the level lists unfiltered: each side's
    map holds, for every price, the quantity of the last pair of the list
    with that price, whatever its sign. The snapshot
    [yes=[[30,0]], no=[[65,-5]]] leaves the level 30 with quantity 0 and
    the level 65 with quantity -5 in the book, while [apply_delta] keeps
    all quantities positive once they are. *)
Theorem apply_snapshot_keeps_nonpositive_levels :
  (∀ b snap p,
     yes (apply_snapshot b snap) !! p = last_qty p (get_levels (snap_yes snap))
     ∧ no (apply_snapshot b snap) !! p = last_qty p (get_levels (snap_no snap)))
  ∧ (let b := apply_snapshot (OrderBook.init "KXBTC15M")
                (SnapshotMsg (Some [(30, 0)]) (Some [(65, -5)])) in
     yes b !! 30 = Some 0 ∧ no b !! 65 = Some (-5)
     ∧ ¬ positive (yes b) ∧ ¬ positive (no b))
  ∧ (∀ b msg, positive (yes b) ∧ positive (no b) →
       positive (yes (apply_delta b msg)) ∧ positive (no (apply_delta b msg))).
Proof.
  split; [| split].
  - intros b snap p. cbn. by rewrite !dict_of_levels_lookup.
  - cbn zeta. split; [reflexivity |]. split; [reflexivity |]. split.
    + intros H. specialize (H 30 0 eq_refl). lia.
    + intros H. specialize (H 65 (-5) eq_refl). lia.
  - intros b msg [Hy Hn]. by apply apply_delta_positive.
Qed.

End OrderBookClaims.

(* ====================================================================== *)
(** * Properties of the calendar arithmetic *)

Section DatetimeFacts.

Import Datetime Spec.

Implicit Types (d : datetime) (td : Z).

Lemma valid_fields d :
  valid d = true ↔
  (MINYEAR ≤ year d ≤ MAXYEAR) ∧ (1 ≤ month d ≤ 12)
  ∧ (1 ≤ day d ≤ days_in_month (year d) (month d))
  ∧ (0 ≤ hour d < 24) ∧ (0 ≤ minute d < 60) ∧ (0 ≤ second d < 60)
  ∧ (0 ≤ microsecond d < 1000000).
Proof.
  unfold valid. rewrite !andb_true_iff, !Z.leb_le, !Z.ltb_lt. tauto.
Qed.

Lemma month_cases m :
  1 ≤ m ≤ 12 →
  m = 1 ∨ m = 2 ∨ m = 3 ∨ m = 4 ∨ m = 5 ∨ m = 6
  ∨ m = 7 ∨ m = 8 ∨ m = 9 ∨ m = 10 ∨ m = 11 ∨ m = 12.
Proof. lia. Qed.

Ltac by_month H :=
  destruct (month_cases _ H) as
    [-> | [-> | [-> | [-> | [-> | [-> | [-> | [-> | [-> | [-> | [-> | ->]]]]]]]]]]].

Lemma days_in_month_bounds y m : 1 ≤ m ≤ 12 → 28 ≤ days_in_month y m ≤ 31.
Proof.
  intros Hm. unfold days_in_month.
  by_month Hm; destruct (is_leap y); by vm_compute.
Qed.

Lemma days_before_next_month y m :
  1 ≤ m < 12 →
  days_before_month y (m + 1) = days_before_month y m + days_in_month y m.
Proof.
  intros Hm. assert (Hm' : 1 ≤ m ≤ 12) by lia.
  unfold days_before_month, days_in_month.
  by_month Hm'; try lia; destruct (is_leap y); reflexivity.
Qed.

Lemma days_before_december y :
  days_before_month y 12 + 31 = 365 + (if is_leap y then 1 else 0).
Proof. unfold days_before_month. destruct (is_leap y); reflexivity. Qed.

Lemma days_before_next_year y :
  days_before_year (y + 1)
  = days_before_year y + 365 + (if is_leap y then 1 else 0).
Proof.
  unfold days_before_year, is_leap. cbn zeta.
  replace (y + 1 - 1) with y by lia.
  destruct (Z.eqb_spec (y mod 4) 0), (Z.eqb_spec (y mod 100) 0),
    (Z.eqb_spec (y mod 400) 0); cbn [andb orb negb];
    Z.div_mod_to_equations; lia.
Qed.

Lemma next_day_ordinal d d' :
  valid d = true → next_day d = Ok d' →
  valid d' = true ∧ toordinal d' = toordinal d + 1
  ∧ time_of_day d' = time_of_day d.
Proof.
  rewrite !valid_fields. unfold next_day, toordinal, time_of_day, MINYEAR, MAXYEAR.
  intros (Hy & Hm & Hd & Hh & Hmi & Hs & Hus).
  destruct (Z.ltb_spec (day d) (days_in_month (year d) (month d))).
  { intros [= <-]. cbn. repeat split; lia. }
  destruct (Z.ltb_spec (month d) 12).
  { intros [= <-]. cbn [year month day hour minute second microsecond].
    rewrite days_before_next_month by lia.
    pose proof (days_in_month_bounds (year d) (month d + 1)).
    repeat split; lia. }
  destruct (Z.ltb_spec (year d) 9999); [| done].
  intros [= <-]. cbn [year month day hour minute second microsecond].
  assert (month d = 12) as Hm12 by lia. rewrite Hm12 in *.
  rewrite days_before_next_year.
  pose proof (days_before_december (year d)).
  assert (days_in_month (year d) 12 = 31) as H31
    by (unfold days_in_month; destruct (is_leap (year d)); reflexivity).
  assert (days_before_month (year d + 1) 1 = 0) as Hjan
    by (unfold days_before_month; destruct (is_leap (year d + 1)); reflexivity).
  assert (days_in_month (year d + 1) 1 = 31) as H31'
    by (unfold days_in_month; destruct (is_leap (year d + 1)); reflexivity).
  repeat split; lia.
Qed.

Lemma prev_day_ordinal d d' :
  valid d = true → prev_day d = Ok d' →
  valid d' = true ∧ toordinal d' = toordinal d - 1
  ∧ time_of_day d' = time_of_day d.
Proof.
  rewrite !valid_fields. unfold prev_day, toordinal, time_of_day, MINYEAR, MAXYEAR.
  intros (Hy & Hm & Hd & Hh & Hmi & Hs & Hus).
  destruct (Z.ltb_spec 1 (day d)).
  { intros [= <-]. cbn. repeat split; lia. }
  destruct (Z.ltb_spec 1 (month d)).
  { intros [= <-]. cbn [year month day hour minute second microsecond].
    pose proof (days_before_next_month (year d) (month d - 1)) as Hn.
    replace (month d - 1 + 1) with (month d) in Hn by lia.
    pose proof (days_in_month_bounds (year d) (month d - 1)).
    repeat split; lia. }
  destruct (Z.ltb_spec 1 (year d)); [| done].
  intros [= <-]. cbn [year month day hour minute second microsecond].
  assert (month d = 1) as Hm1 by lia. rewrite Hm1 in *.
  pose proof (days_before_next_year (year d - 1)) as Hn.
  replace (year d - 1 + 1) with (year d) in Hn by lia.
  pose proof (days_before_december (year d - 1)).
  assert (days_in_month (year d - 1) 12 = 31) as H31
    by (unfold days_in_month; destruct (is_leap (year d - 1)); reflexivity).
  assert (days_before_month (year d) 1 = 0) as Hjan
    by (unfold days_before_month; destruct (is_leap (year d)); reflexivity).
  repeat split; lia.
Qed.

Lemma iterate_next_day n : ∀ d d',
  valid d = true → iterate next_day n d = Ok d' →
  valid d' = true ∧ toordinal d' = toordinal d + Z.of_nat n
  ∧ time_of_day d' = time_of_day d.
Proof.
  induction n as [| n IH]; intros d d' Hv; cbn [iterate].
  - intros [= <-]. repeat split; [done | lia].
  - destruct (next_day d) as [d1 | e] eqn:Hn; cbn; [| done].
    destruct (next_day_ordinal d d1 Hv Hn) as (Hv1 & Ho1 & Ht1).
    intros Hit. destruct (IH d1 d' Hv1 Hit) as (Hv' & Ho' & Ht').
    repeat split; [done | lia | congruence].
Qed.

Lemma iterate_prev_day n : ∀ d d',
  valid d = true → iterate prev_day n d = Ok d' →
  valid d' = true ∧ toordinal d' = toordinal d - Z.of_nat n
  ∧ time_of_day d' = time_of_day d.
Proof.
  induction n as [| n IH]; intros d d' Hv; cbn [iterate].
  - intros [= <-]. repeat split; [done | lia].
  - destruct (prev_day d) as [d1 | e] eqn:Hn; cbn; [| done].
    destruct (prev_day_ordinal d d1 Hv Hn) as (Hv1 & Ho1 & Ht1).
    intros Hit. destruct (IH d1 d' Hv1 Hit) as (Hv' & Ho' & Ht').
    repeat split; [done | lia | congruence].
Qed.

Lemma shift_days_ordinal d k d' :
  valid d = true → shift_days d k = Ok d' →
  valid d' = true ∧ toordinal d' = toordinal d + k.
Proof.
  intros Hv. unfold shift_days. destruct (Z.leb_spec 0 k) as [Hk | Hk]; intros Hs.
  - destruct (iterate_next_day _ _ _ Hv Hs) as (? & ? & ?). split; [done | lia].
  - destruct (iterate_prev_day _ _ _ Hv Hs) as (? & ? & ?). split; [done | lia].
Qed.

Lemma toordinal_min d : valid d = true → 1 ≤ toordinal d.
Proof.
  rewrite valid_fields. unfold MINYEAR, MAXYEAR, toordinal.
  intros (Hy & Hm & Hd & _).
  assert (0 ≤ days_before_year (year d)).
  { unfold days_before_year. cbn zeta. Z.div_mod_to_equations. lia. }
  assert (0 ≤ days_before_month (year d) (month d)).
  { unfold days_before_month.
    by_month Hm; destruct (is_leap (year d)); by vm_compute. }
  lia.
Qed.

Lemma toordinal_first d :
  valid d = true → year d = 1 → month d = 1 → toordinal d = day d.
Proof.
  intros _ Hy Hm. unfold toordinal. rewrite Hy, Hm. reflexivity.
Qed.

Lemma prev_day_total d :
  valid d = true → 1 < toordinal d → ∃ d', prev_day d = Ok d'.
Proof.
  intros Hv Hord. pose proof Hv as Hf. rewrite valid_fields in Hf.
  unfold MINYEAR, MAXYEAR in Hf. unfold prev_day, MINYEAR.
  destruct (Z.ltb_spec 1 (day d)); [by eexists |].
  destruct (Z.ltb_spec 1 (month d)); [by eexists |].
  destruct (Z.ltb_spec 1 (year d)); [by eexists |].
  rewrite toordinal_first in Hord by (done || lia). lia.
Qed.

Lemma next_day_total d :
  valid d = true →
  ¬ (year d = MAXYEAR ∧ month d = 12 ∧ day d = 31) →
  ∃ d', next_day d = Ok d'.
Proof.
  intros Hv Hlast. rewrite valid_fields in Hv. unfold MINYEAR, MAXYEAR in *.
  unfold next_day, MAXYEAR.
  destruct (Z.ltb_spec (day d) (days_in_month (year d) (month d)));
    [by eexists |].
  destruct (Z.ltb_spec (month d) 12); [by eexists |].
  destruct (Z.ltb_spec (year d) 9999); [by eexists |].
  exfalso. apply Hlast.
  assert (month d = 12) as Hm by lia. rewrite Hm in *.
  assert (days_in_month (year d) 12 = 31)
    by (unfold days_in_month; destruct (is_leap (year d)); reflexivity).
  lia.
Qed.

(** *** Adding a timedelta *)

Lemma time_of_day_bounds d :
  valid d = true → 0 ≤ time_of_day d < US_PER_DAY.
Proof.
  rewrite valid_fields. unfold time_of_day, US_PER_DAY, US_PER_SECOND. lia.
Qed.

Lemma at_time_of_day_spec d r :
  valid d = true → 0 ≤ r < US_PER_DAY →
  valid (at_time_of_day d r) = true
  ∧ toordinal (at_time_of_day d r) = toordinal d
  ∧ time_of_day (at_time_of_day d r) = r.
Proof.
  rewrite !valid_fields.
  unfold at_time_of_day, toordinal, time_of_day, US_PER_DAY, US_PER_SECOND.
  cbn [year month day hour minute second microsecond].
  intros (Hy & Hm & Hd & _) Hr.
  repeat split; try lia; Z.div_mod_to_equations; lia.
Qed.

Lemma add_same_day d td :
  0 ≤ time_of_day d + td < US_PER_DAY →
  add d td = Ok (at_time_of_day d (time_of_day d + td)).
Proof.
  intros Hr. unfold add. cbn zeta.
  rewrite (Z.div_small _ _ Hr), (Z.mod_small _ _ Hr).
  reflexivity.
Qed.

Lemma add_next_day d td :
  US_PER_DAY ≤ time_of_day d + td < 2 * US_PER_DAY →
  add d td
  = (d' ← next_day d; Ok (at_time_of_day d' (time_of_day d + td - US_PER_DAY))).
Proof.
  intros Hr. unfold add. cbn zeta.
  assert ((time_of_day d + td) / US_PER_DAY = 1) as ->
    by (unfold US_PER_DAY, US_PER_SECOND in *; Z.div_mod_to_equations; lia).
  assert ((time_of_day d + td) mod US_PER_DAY
          = time_of_day d + td - US_PER_DAY) as ->
    by (unfold US_PER_DAY, US_PER_SECOND in *; Z.div_mod_to_equations; lia).
  unfold shift_days. change (iterate next_day (Z.to_nat 1) d)
    with (d' ← next_day d; Ok d').
  by destruct (next_day d).
Qed.

Lemma add_prev_day d td :
  - US_PER_DAY ≤ time_of_day d + td < 0 →
  add d td
  = (d' ← prev_day d; Ok (at_time_of_day d' (time_of_day d + td + US_PER_DAY))).
Proof.
  intros Hr. unfold add. cbn zeta.
  assert ((time_of_day d + td) / US_PER_DAY = -1) as ->
    by (unfold US_PER_DAY, US_PER_SECOND in *; Z.div_mod_to_equations; lia).
  assert ((time_of_day d + td) mod US_PER_DAY
          = time_of_day d + td + US_PER_DAY) as ->
    by (unfold US_PER_DAY, US_PER_SECOND in *; Z.div_mod_to_equations; lia).
  unfold shift_days. change (iterate prev_day (Z.to_nat (- -1)) d)
    with (d' ← prev_day d; Ok d').
  by destruct (prev_day d).
Qed.

(** Whenever [d + td] is a datetime, it is a valid one, [td] later. *)
Lemma add_spec d td d' :
  valid d = true → add d td = Ok d' →
  valid d' = true ∧ sub d' d = td.
Proof.
  intros Hv. unfold add. cbn zeta.
  destruct (shift_days d _) as [d1 | e] eqn:Hs; cbn; [| done].
  intros [= <-].
  destruct (shift_days_ordinal _ _ _ Hv Hs) as [Hv1 Ho1].
  pose proof (Z.mod_pos_bound (time_of_day d + td) US_PER_DAY eq_refl) as Hr.
  destruct (at_time_of_day_spec d1 _ Hv1 Hr) as (Hv' & Ho' & Ht').
  fold (at_time_of_day d1 ((time_of_day d + td) mod US_PER_DAY)).
  split; [done |]. unfold sub. rewrite Ho', Ht', Ho1.
  pose proof (Z.div_mod (time_of_day d + td) US_PER_DAY). lia.
Qed.

End DatetimeFacts.

(* ====================================================================== *)
(** * Properties of the contract scheduler *)

Section SchedulerFacts.

Import Datetime BTC15Frame Spec.

Implicit Types (now exp d : datetime).

Lemma sub_opp a b : sub a b = - sub b a.
Proof. unfold sub. lia. Qed.

Lemma sub_trans a b c : sub a c = sub a b + sub b c.
Proof. unfold sub. lia. Qed.

(** The expiry computed by the first part of [_compute]. *)
Lemma compute_inv now tk exp :
  _compute now = Ok (tk, exp) →
  (if 60 <=? (minute now / 15 + 1) * 15
   then d ← replace now 0 0 0; add d (td_hours 1)
   else replace now ((minute now / 15 + 1) * 15) 0 0) = Ok exp
  ∧ tk = ("KXBTC15M-" ++ strftime_y exp ++ upper (strftime_b exp)
          ++ strftime_d exp ++ strftime_H exp ++ strftime_M exp
          ++ "-" ++ strftime_M exp)%string.
Proof.
  unfold _compute. cbn zeta.
  destruct (if 60 <=? _ then _ else _) as [e | err]; cbn; [| done].
  by intros [= <- <-].
Qed.

Lemma compute_of_expiry now exp :
  (if 60 <=? (minute now / 15 + 1) * 15
   then d ← replace now 0 0 0; add d (td_hours 1)
   else replace now ((minute now / 15 + 1) * 15) 0 0) = Ok exp →
  ∃ tk, _compute now = Ok (tk, exp).
Proof.
  intros H. unfold _compute. cbn zeta. rewrite H. cbn. by eexists.
Qed.

Lemma replace_valid d m s us :
  valid d = true → 0 ≤ m < 60 → 0 ≤ s < 60 → 0 ≤ us < 1000000 →
  replace d m s us = Ok (DT (year d) (month d) (day d) (hour d) m s us).
Proof.
  intros Hv Hm Hs Hus. unfold replace. cbn zeta.
  assert (valid (DT (year d) (month d) (day d) (hour d) m s us) = true) as ->;
    [| done].
  rewrite valid_fields in *. cbn. lia.
Qed.

Lemma expiry_spec now :
  valid now = true → last_quarter_hour now = false →
  ∃ exp,
    (if 60 <=? (minute now / 15 + 1) * 15
     then d ← replace now 0 0 0; add d (td_hours 1)
     else replace now ((minute now / 15 + 1) * 15) 0 0) = Ok exp
    ∧ valid exp = true
    ∧ 0 < sub exp now ≤ td_minutes 15
    ∧ minute exp = ((minute now / 15 + 1) * 15) mod 60
    ∧ second exp = 0 ∧ microsecond exp = 0
    ∧ (minute now < 45 →
       exp = DT (year now) (month now) (day now) (hour now)
               ((minute now / 15 + 1) * 15) 0 0).
Proof.
  intros Hv Hlast. pose proof Hv as Hf. rewrite valid_fields in Hf.
  destruct Hf as (Hy & Hmo & Hd & Hh & Hmi & Hs & Hus).
  destruct (Z.leb_spec 60 ((minute now / 15 + 1) * 15)) as [Hc | Hc].
  - (* the next multiple is 60: carry into the next hour *)
    assert (45 ≤ minute now) as H45 by (Z.div_mod_to_equations; lia).
    rewrite replace_valid by (done || lia). cbn [mbind result_bind].
    set (d0 := DT (year now) (month now) (day now) (hour now) 0 0 0).
    assert (valid d0 = true) as Hv0
      by (rewrite valid_fields; subst d0; cbn; lia).
    assert (toordinal d0 = toordinal now) as Ho0 by reflexivity.
    assert (time_of_day d0 = hour now * 3600 * US_PER_SECOND) as Ht0
      by (subst d0; unfold time_of_day; cbn; lia).
    assert (((minute now / 15 + 1) * 15) mod 60 = 0) as Hnm
      by (Z.div_mod_to_equations; lia).
    destruct (decide (hour now = 23)) as [H23 | H23].
    + rewrite add_next_day
        by (rewrite Ht0, H23; unfold td_hours, US_PER_DAY, US_PER_SECOND; lia).
      destruct (next_day_total d0 Hv0) as [d1 Hd1].
      { intros (Hy9 & Hm12 & Hd31). subst d0. cbn in *.
        unfold last_quarter_hour in Hlast.
        rewrite Hy9, Hm12, Hd31, H23 in Hlast.
        apply (Z.leb_le 45) in H45. rewrite H45 in Hlast. done. }
      rewrite Hd1. cbn [mbind result_bind].
      destruct (next_day_ordinal d0 d1 Hv0 Hd1) as (Hv1 & Ho1 & Ht1).
      replace (time_of_day d0 + td_hours 1 - US_PER_DAY) with 0
        by (rewrite Ht0, H23; reflexivity).
      destruct (at_time_of_day_spec d1 0 Hv1) as (Hve & Hoe & Hte);
        [by vm_compute |].
      eexists. split; [reflexivity |]. split; [done |]. split.
      { unfold sub. rewrite Hoe, Hte, Ho1, Ho0.
        unfold time_of_day, td_minutes, US_PER_DAY, US_PER_SECOND. lia. }
      rewrite Hnm. repeat split; try reflexivity. lia.
    + assert (0 ≤ time_of_day d0 + td_hours 1 < US_PER_DAY) as Hr
        by (rewrite Ht0; unfold td_hours, US_PER_DAY, US_PER_SECOND; lia).
      rewrite add_same_day by done.
      destruct (at_time_of_day_spec d0 _ Hv0 Hr) as (Hve & Hoe & Hte).
      eexists. split; [reflexivity |]. split; [done |]. split.
      { unfold sub. rewrite Hoe, Hte, Ho0, Ht0.
        unfold time_of_day, td_hours, td_minutes, US_PER_DAY, US_PER_SECOND.
        lia. }
      rewrite Hnm, Ht0. unfold at_time_of_day, td_hours, US_PER_SECOND.
      cbn [year month day hour minute second microsecond].
      repeat split; try lia; Z.div_mod_to_equations; lia.
  - assert (0 ≤ (minute now / 15 + 1) * 15 < 60) as Hnm
      by (Z.div_mod_to_equations; lia).
    rewrite replace_valid by (done || lia).
    eexists. split; [reflexivity |].
    split; [rewrite valid_fields; cbn; lia |]. split.
    { unfold sub, toordinal, time_of_day, td_minutes, US_PER_DAY, US_PER_SECOND.
      cbn [year month day hour minute second microsecond].
      Z.div_mod_to_equations. lia. }
    cbn [year month day hour minute second microsecond].
    rewrite Z.mod_small by done. done.
Qed.

(** The contract start of [_roll] exists whenever the expiry lies after a
    valid datetime. *)
Lemma start_total now exp :
  valid now = true → valid exp = true → 0 < sub exp now →
  second exp = 0 → microsecond exp = 0 → minute exp mod 15 = 0 →
  ∃ start, add exp (- td_minutes 15) = Ok start.
Proof.
  intros Hvn Hve Hlt Hs Hus Hm.
  pose proof Hve as Hf. rewrite valid_fields in Hf.
  destruct Hf as (_ & _ & _ & Hh & Hmi & _).
  assert (time_of_day exp = (hour exp * 60 + minute exp) * 60 * US_PER_SECOND)
    as Ht by (unfold time_of_day; rewrite Hs, Hus; lia).
  destruct (decide (hour exp = 0 ∧ minute exp = 0)) as [[Hh0 Hm0] | Hne].
  - rewrite add_prev_day
      by (rewrite Ht, Hh0, Hm0; unfold td_minutes, US_PER_DAY, US_PER_SECOND; lia).
    destruct (prev_day_total exp Hve) as [d1 ->]; [| by eexists].
    pose proof (toordinal_min now Hvn).
    pose proof (time_of_day_bounds now Hvn).
    unfold sub in Hlt. rewrite Ht, Hh0, Hm0 in Hlt.
    unfold US_PER_DAY, US_PER_SECOND in *. lia.
  - rewrite add_same_day; [by eexists |].
    rewrite Ht. unfold td_minutes, US_PER_DAY, US_PER_SECOND.
    Z.div_mod_to_equations. lia.
Qed.

(** In the last quarter of an hour of 9999-12-31 the next boundary is
    past the greatest datetime: [_compute] raises. *)
Lemma compute_overflow now :
  valid now = true → last_quarter_hour now = true →
  _compute now = Raise OverflowError.
Proof.
  intros Hv Hlast. pose proof Hv as Hf. rewrite valid_fields in Hf.
  destruct Hf as (Hy & Hmo & Hd & Hh & Hmi & Hs & Hus).
  unfold last_quarter_hour in Hlast.
  rewrite !andb_true_iff, !Z.eqb_eq, Z.leb_le in Hlast.
  destruct Hlast as ((((Hy9 & Hm12) & Hd31) & H23) & H45).
  unfold _compute. cbn zeta.
  assert ((60 <=? (minute now / 15 + 1) * 15) = true) as ->
    by (apply Z.leb_le; Z.div_mod_to_equations; lia).
  rewrite replace_valid by (done || lia). cbn [mbind result_bind].
  rewrite add_next_day.
  2:{ unfold time_of_day, td_hours, US_PER_DAY, US_PER_SECOND. cbn.
      rewrite H23. lia. }
  unfold next_day. cbn [year month day]. rewrite Hy9, Hm12, Hd31.
  reflexivity.
Qed.

End SchedulerFacts.

Section SchedulerClaims.

Import Datetime BTC15Frame Spec.

Implicit Types (now exp : datetime) (s : state).

(** C5, as stated, fails at the end of the calendar: at 23:50 on
    9999-12-31 the next quarter-hour boundary would be 00:00 of a day past
    the greatest datetime, so [_compute] raises OverflowError instead of
    returning an expiry, and so does [_roll]. *)
Lemma compute_raises_in_last_quarter_hour :
  let now := DT 9999 12 31 23 50 0 0 in
  valid now = true
  ∧ _compute now = Raise OverflowError
  ∧ _roll now (init "yes") = Raise OverflowError
  ∧ ¬ (∃ tk exp, _compute now = Ok (tk, exp)).
Proof.
  cbn zeta.
  assert (_compute (DT 9999 12 31 23 50 0 0) = Raise OverflowError) as Hc
    by (vm_compute; reflexivity).
  split; [reflexivity |]. split; [exact Hc |].
  split; [vm_compute; reflexivity |].
  intros (tk & exp & Hok). rewrite Hc in Hok. discriminate Hok.
Qed.

(** C5, amended: for every datetime [now] other than the last quarter of
    an hour of 9999-12-31 (23:45:00 to 23:59:59.999999, where no later
    boundary exists), [_compute now] returns an
    expiry strictly after [now], at most 15 minutes after it, whose minute
    is the next multiple of 15 taken modulo 60 and whose second and
    microsecond are zero; [_roll] sets the contract start 15 minutes
    before the expiry. At 12:07 the expiry is 12:15:00 and the start
    12:00:00 of the same day. *)
Theorem compute_next_boundary now :
  valid now = true → last_quarter_hour now = false →
  ∃ tk exp,
    _compute now = Ok (tk, exp)
    ∧ valid exp = true
    ∧ 0 < sub exp now ≤ td_minutes 15
    ∧ minute exp = ((minute now / 15 + 1) * 15) mod 60
    ∧ minute exp mod 15 = 0
    ∧ second exp = 0 ∧ microsecond exp = 0
    ∧ (∀ s, ∃ s' start,
         _roll now s = Ok s'
         ∧ expiry s' = Some exp ∧ _contract_start s' = Some start
         ∧ valid start = true ∧ sub exp start = td_minutes 15)
    ∧ (hour now = 12 → minute now = 7 →
       exp = DT (year now) (month now) (day now) 12 15 0 0
       ∧ add exp (- td_minutes 15)
         = Ok (DT (year now) (month now) (day now) 12 0 0 0)).
Proof.
  intros Hv Hlast.
  destruct (expiry_spec now Hv Hlast)
    as (exp & Hexp & Hve & Hsub & Hmin & Hsec & Hus & Hsame).
  destruct (compute_of_expiry now exp Hexp) as [tk Hc].
  assert (minute exp mod 15 = 0) as Hm15
    by (rewrite Hmin; Z.div_mod_to_equations; lia).
  exists tk, exp. repeat (split; [done || lia |]). split.
  - intros s.
    destruct (start_total now exp Hv Hve) as [start Hst]; try done; [lia |].
    destruct (add_spec exp _ start Hve Hst) as [Hvs Hss].
    unfold _roll. rewrite Hc. cbn [mbind result_bind]. rewrite Hst.
    cbn [mbind result_bind]. eexists _, start.
    split; [reflexivity |]. cbn [expiry _contract_start].
    repeat split; try done. rewrite sub_opp, Hss. lia.
  - intros H12 H7. assert (minute now < 45) as Hlt by lia.
    specialize (Hsame Hlt). rewrite H12, H7 in Hsame.
    change ((7 / 15 + 1) * 15) with 15 in Hsame. subst exp.
    split; [done |]. reflexivity.
Qed.

(** C5 at 2026-02-21 12:07:00. *)
Lemma compute_next_boundary_witness :
  let now := DT 2026 2 21 12 7 0 0 in
  valid now = true ∧ last_quarter_hour now = false
  ∧ ∃ tk exp,
      _compute now = Ok (tk, exp)
      ∧ valid exp = true
      ∧ 0 < sub exp now ≤ td_minutes 15
      ∧ minute exp = ((minute now / 15 + 1) * 15) mod 60
      ∧ minute exp mod 15 = 0
      ∧ second exp = 0 ∧ microsecond exp = 0
      ∧ (∀ s, ∃ s' start,
           _roll now s = Ok s'
           ∧ expiry s' = Some exp ∧ _contract_start s' = Some start
           ∧ valid start = true ∧ sub exp start = td_minutes 15)
      ∧ (hour now = 12 → minute now = 7 →
         exp = DT (year now) (month now) (day now) 12 15 0 0
         ∧ add exp (- td_minutes 15)
           = Ok (DT (year now) (month now) (day now) 12 0 0 0)).
Proof.
  cbn zeta. split; [reflexivity |]. split; [reflexivity |].
  apply (compute_next_boundary (DT 2026 2 21 12 7 0 0)); reflexivity.
Defined.

(** *** The ticker *)

Lemma digit_value_digit k : 0 ≤ k ≤ 9 → digit_value (digit k) = Some k.
Proof.
  intros Hk.
  assert (k = 0 ∨ k = 1 ∨ k = 2 ∨ k = 3 ∨ k = 4 ∨ k = 5 ∨ k = 6 ∨ k = 7
          ∨ k = 8 ∨ k = 9) as Hc by lia.
  repeat (destruct Hc as [-> | Hc]; [reflexivity |]). by subst.
Qed.

Lemma two_digits_pad2 n : 0 ≤ n < 100 → two_digits (pad2 n) = Some n.
Proof.
  intros Hn. unfold pad2, two_digits.
  rewrite !digit_value_digit by (Z.div_mod_to_equations; lia).
  f_equal. Z.div_mod_to_equations. lia.
Qed.

Lemma upper_month m :
  1 ≤ m ≤ 12 →
  String.length (upper (nth (Z.to_nat m) MONTH_ABBR EmptyString)) = 3%nat
  ∧ MONTHS_UPPER !! Z.to_nat (m - 1)
    = Some (upper (nth (Z.to_nat m) MONTH_ABBR EmptyString)).
Proof.
  intros Hm.
  destruct (month_cases m Hm) as
    [-> | [-> | [-> | [-> | [-> | [-> | [-> | [-> | [-> | [-> | [-> | ->]]]]]]]]]]];
    by vm_compute.
Qed.

(** C9: the ticker of every expiry produced by [_compute] is the fixed
    prefix, then the expiry's 2-digit year, its 3-letter uppercase month
    abbreviation, its 2-digit day, 2-digit hour (24 h) and 2-digit minute,
    then a dash and the 2-digit minute once more: 23 characters,
    PREFIX-YYMONDDHHMM-MM. *)
Theorem ticker_format now tk exp :
  valid now = true → _compute now = Ok (tk, exp) →
  String.length tk = 23%nat
  ∧ substring 0 9 tk = "KXBTC15M-"%string
  ∧ two_digits (substring 9 2 tk) = Some (year exp mod 100)
  ∧ MONTHS_UPPER !! Z.to_nat (month exp - 1) = Some (substring 11 3 tk)
  ∧ two_digits (substring 14 2 tk) = Some (day exp)
  ∧ two_digits (substring 16 2 tk) = Some (hour exp)
  ∧ two_digits (substring 18 2 tk) = Some (minute exp)
  ∧ substring 20 1 tk = "-"%string
  ∧ substring 21 2 tk = substring 18 2 tk.
Proof.
  intros Hv Hc.
  apply compute_inv in Hc as [Hexp ->].
  assert (valid exp = true) as Hve.
  { destruct (last_quarter_hour now) eqn:Hlast.
    - pose proof (compute_overflow now Hv Hlast) as Hraise.
      destruct (compute_of_expiry now exp Hexp) as [tk Hc]. congruence.
    - destruct (expiry_spec now Hv Hlast) as (exp' & Hexp' & Hve & _).
      congruence. }
  rewrite valid_fields in Hve. unfold MINYEAR, MAXYEAR in Hve.
  destruct Hve as (Hy & Hmo & Hd & Hh & Hmi & _).
  pose proof (days_in_month_bounds (year exp) (month exp) Hmo) as Hdim.
  destruct (upper_month (month exp) Hmo) as [Hlen Hmon].
  unfold strftime_y, strftime_b, strftime_d, strftime_H, strftime_M.
  remember (upper (nth (Z.to_nat (month exp)) MONTH_ABBR EmptyString)) as mon.
  destruct mon as [| c1 [| c2 [| c3 [| c4 mon]]]]; try discriminate Hlen.
  rewrite Hmon.
  repeat split; try reflexivity.
  - apply (two_digits_pad2 (year exp mod 100)). Z.div_mod_to_equations. lia.
  - apply (two_digits_pad2 (day exp)). lia.
  - apply (two_digits_pad2 (hour exp)). lia.
  - apply (two_digits_pad2 (minute exp)). lia.
Qed.

(** C9 at 2026-02-21 18:30:00: the contract expiring at 18:45. *)
Lemma ticker_format_witness :
  let now := DT 2026 2 21 18 30 0 0 in
  let tk := "KXBTC15M-26FEB211845-45"%string in
  let exp := DT 2026 2 21 18 45 0 0 in
  valid now = true ∧ _compute now = Ok (tk, exp)
  ∧ String.length tk = 23%nat
  ∧ substring 0 9 tk = "KXBTC15M-"%string
  ∧ two_digits (substring 9 2 tk) = Some (year exp mod 100)
  ∧ MONTHS_UPPER !! Z.to_nat (month exp - 1) = Some (substring 11 3 tk)
  ∧ two_digits (substring 14 2 tk) = Some (day exp)
  ∧ two_digits (substring 16 2 tk) = Some (hour exp)
  ∧ two_digits (substring 18 2 tk) = Some (minute exp)
  ∧ substring 20 1 tk = "-"%string
  ∧ substring 21 2 tk = substring 18 2 tk.
Proof.
  cbn zeta. split; [reflexivity |]. split; [reflexivity |].
  apply (ticker_format (DT 2026 2 21 18 30 0 0)); reflexivity.
Defined.

End SchedulerClaims.

(* ====================================================================== *)
(** * Properties of the cycle tracker *)

Section TrackerFacts.

Import Datetime BTC15Frame Spec.

Implicit Types (c : config) (s : state) (now : datetime) (p : payload).

(** Splits the goal along the tests of [_check_events]. *)
Ltac tracker_cases :=
  repeat match goal with
  | |- context [match ?x with _ => _ end] =>
      match type of x with
      | bool => destruct x eqn:?
      | option _ => destruct x eqn:?
      | sumbool _ _ => destruct x
      end
  end.

Lemma roll_inv c t0 s00 s0 : _roll t0 s00 = Ok s0 → tracker_inv c s0.
Proof.
  unfold _roll. destruct (_compute t0) as [[tk exp] | e]; cbn; [| done].
  destruct (add exp _) as [start | e]; cbn; [| done].
  intros [= <-]. split; cbn; [done | lia].
Qed.

Lemma check_events_stopped c now s :
  _stopped_out s = true → _check_events c now s = Ok (s, []).
Proof. intros H. unfold _check_events. by rewrite H. Qed.

Lemma check_events_inv c now s s' evs :
  tracker_inv c s → _check_events c now s = Ok (s', evs) → tracker_inv c s'.
Proof.
  intros Hinv. pose proof Hinv as [Htrig Hleft]. unfold _check_events.
  destruct (_stopped_out s) eqn:Hso; [by intros [= <- <-] |].
  specialize (Hleft eq_refl).
  destruct (OrderBook.best_ask _ _) as [ask |]; [| by intros [= <- <-]].
  destruct (_in_trigger s) eqn:Hin; cbn [negb].
  - destruct (Htrig eq_refl) as [_ [t Ht]]. rewrite Ht.
    tracker_cases; intros [= <- <-]; try done; split; cbn; try done; try lia.
    all: intros _; cbn in *;
      match goal with
      | H : (_ && _) = false |- _ =>
          apply andb_false_iff in H as [H | H];
          [apply Z.ltb_ge in H | apply Z.leb_gt in H]; lia
      end.
  - tracker_cases; intros [= <- <-]; try done; split; cbn; try done; try lia.
Qed.

Lemma check_events_total c now s :
  tracker_inv c s → ∃ s' evs, _check_events c now s = Ok (s', evs).
Proof.
  intros [Htrig _]. unfold _check_events.
  destruct (_stopped_out s) eqn:Hso; [by eauto |].
  destruct (OrderBook.best_ask _ _) as [ask |]; [| by eauto].
  destruct (_in_trigger s) eqn:Hin; cbn [negb].
  - destruct (Htrig eq_refl) as [_ [t Ht]]. rewrite Ht.
    tracker_cases; by eauto.
  - tracker_cases; by eauto.
Qed.

Lemma set_book_inv c b s : tracker_inv c s → tracker_inv c (set_book b s).
Proof. done. Qed.

Lemma on_data_inv c p now s s' evs :
  tracker_inv c s → on_data c p now s = Ok (s', evs) → tracker_inv c s'.
Proof.
  intros Hinv. unfold on_data. apply check_events_inv. by apply set_book_inv.
Qed.

Lemma run_inv c inputs : ∀ s s' evs,
  tracker_inv c s → run c inputs s = Ok (s', evs) → tracker_inv c s'.
Proof.
  induction inputs as [| [p now] rest IH]; intros s s' evs Hinv; cbn [run].
  - by intros [= <- <-].
  - destruct (on_data c p now s) as [[s1 ev1] | e] eqn:H1; cbn; [| done].
    destruct (run c rest s1) as [[s2 ev2] | e] eqn:H2; cbn; [| done].
    intros [= <- <-]. eapply IH; [| exact H2]. by eapply on_data_inv.
Qed.

(** Once stopped out, nothing is emitted and nothing changes but the
    book. *)
Lemma run_stopped c inputs : ∀ s,
  _stopped_out s = true →
  ∃ s', run c inputs s = Ok (s', [])
        ∧ _stopped_out s' = true
        ∧ _stop_loss_count s' = _stop_loss_count s
        ∧ _cycle_count s' = _cycle_count s
        ∧ _in_trigger s' = _in_trigger s.
Proof.
  induction inputs as [| [p now] rest IH]; intros s Hso; cbn [run].
  - by eexists.
  - unfold on_data. rewrite check_events_stopped by done.
    cbn [mbind result_bind].
    destruct (IH (set_book (updated_book p s) s) Hso) as (s' & Hrun & H).
    fold (updated_book p s). rewrite Hrun. cbn. by eexists.
Qed.

(** A trigger is only ever opened by an ENTRY. *)
Lemma check_events_trigger_origin c now s s' evs :
  _check_events c now s = Ok (s', evs) → _in_trigger s' = true →
  _in_trigger s = true ∨ T40 ∈ labels evs.
Proof.
  unfold _check_events.
  destruct (_in_trigger s) eqn:Hin; [by left |]. cbn [negb].
  tracker_cases; intros [= <- <-] Hin'; try (left; congruence).
  right. cbn. left.
Qed.

Lemma run_trigger_origin c inputs : ∀ s s' evs,
  run c inputs s = Ok (s', evs) → _in_trigger s' = true →
  _in_trigger s = true ∨ T40 ∈ labels evs.
Proof.
  induction inputs as [| [p now] rest IH]; intros s s' evs; cbn [run].
  - intros [= <- <-] Hin. by left.
  - destruct (on_data c p now s) as [[s1 ev1] | e] eqn:H1; cbn; [| done].
    destruct (run c rest s1) as [[s2 ev2] | e] eqn:H2; cbn; [| done].
    intros [= <- <-] Hin. unfold labels. rewrite map_app, elem_of_app.
    destruct (IH _ _ _ H2 Hin) as [Hin1 | Hev]; [| by right; right].
    destruct (check_events_trigger_origin _ _ _ _ _ H1 Hin1) as [Hin0 | Hev];
      [by left | by right; left].
Qed.





End TrackerFacts.

Section TrackerClaims.

Import Datetime BTC15Frame Spec.

Implicit Types (c : config) (s : state) (now : datetime) (p : payload).

(** C4, at its failing input. After the fourth TARGET of a contract (with
    its MILESTONE) a fifth ENTRY opens; a book update one second later
    finds bid >= 45 with less than two seconds of dwell, completes nothing
    and leaves the cycle counter at 4, yet emits MILESTONE a second
    time. *)
Lemma milestone_repeated_on_short_dwell :
  summary (contract_run default_config (DT 2026 2 21 12 0 0 5) "yes"
             milestone_trace)
  = Ok ([T40; TARGET 1; T40; TARGET 2; T40; TARGET 3;
         T40; TARGET 4; MILESTONE; T40; MILESTONE], 4).
Proof. vm_compute. reflexivity. Qed.

(** C6, as stated, fails at the boundary: with exactly 30 seconds left to
    the expiry (12:14:30 for the contract expiring at 12:15:00) and an ask
    of 40, an idle tracker emits the ENTRY although the time remaining
    does not exceed 30 seconds. *)
Lemma entry_with_exactly_30_seconds_left :
  let now := DT 2026 2 21 12 14 30 0 in
  let s0 := rolled_at_noon in
  _roll (DT 2026 2 21 12 0 0 5) (init "yes") = Ok s0
  ∧ _in_trigger s0 = false ∧ _stopped_out s0 = false
  ∧ expiry s0 = Some (DT 2026 2 21 12 15 0 0)
  ∧ on_data default_config crossing_snapshot now s0
    = Ok (enter now 40 (set_book (updated_book crossing_snapshot s0) s0),
          [Event T40 now (Some 40) None None])
  ∧ sub (DT 2026 2 21 12 15 0 0) now = td_seconds 30
  ∧ ¬ (td_seconds 30 < sub (DT 2026 2 21 12 15 0 0) now).
Proof.
  cbn zeta.
  split; [vm_compute; reflexivity |].
  split; [reflexivity |]. split; [reflexivity |]. split; [reflexivity |].
  split; [vm_compute; reflexivity |].
  split; [vm_compute; reflexivity |].
  vm_compute. discriminate.
Qed.

(** C6, amended: for every book update while the tracker is idle and not
    stopped out, an ENTRY is emitted (and the trigger time and the entry
    ask are recorded) exactly when the ask is at most 40, the time left to
    the expiry is at least 30 seconds, and the no-entry-after setting is 0
    or the time since the contract start is less than that many minutes;
    otherwise nothing is emitted and the tracker stays as it was. *)
Theorem entry_rule c p now s exp start :
  _in_trigger s = false → _stopped_out s = false →
  expiry s = Some exp → _contract_start s = Some start →
  0 ≤ no_entry_after c →
  let entry_allowed ask :=
    ask ≤ 40 ∧ td_seconds 30 ≤ sub exp now
    ∧ (no_entry_after c = 0 ∨ sub now start < td_minutes (no_entry_after c)) in
  ∃ s' evs,
    on_data c p now s = Ok (s', evs)
    ∧ ((∃ ask,
          OrderBook.best_ask (updated_book p s) (side s) = Some ask
          ∧ entry_allowed ask
          ∧ evs = [Event T40 now (Some ask) None None]
          ∧ _in_trigger s' = true
          ∧ _trigger_time s' = Some now
          ∧ _entry_ask s' = Some ask)
       ∨ (¬ (∃ ask,
               OrderBook.best_ask (updated_book p s) (side s) = Some ask
               ∧ entry_allowed ask)
          ∧ evs = []
          ∧ s' = set_book (updated_book p s) s)).
Proof.
  intros Hin Hso Hexp Hstart Hne. cbn zeta.
  unfold on_data, _check_events. fold (updated_book p s).
  cbn [_stopped_out _in_trigger expiry _contract_start book side set_book].
  rewrite Hin, Hso, Hexp, Hstart. cbn [negb].
  destruct (OrderBook.best_ask _ _) as [ask |].
  2:{ do 2 eexists. split; [reflexivity |]. right.
      split; [| done]. by intros (ask & [=] & _). }
  destruct (Z.ltb_spec (sub exp now) (td_seconds 30)) as [Hlate | Hearly].
  { do 2 eexists. split; [reflexivity |]. right.
    split; [| done]. intros (a & _ & _ & ? & _). lia. }
  destruct (Z.ltb_spec 0 (no_entry_after c)) as [Hon | Hoff];
    destruct (Z.leb_spec (td_minutes (no_entry_after c)) (sub now start))
      as [Hcut | Hopen]; cbn [andb];
    destruct (Z.leb_spec ask 40) as [Hask | Hask].
  all: do 2 eexists; (split; [reflexivity |]).
  all: first
    [ left; exists ask; cbn; repeat split; (done || lia)
    | right; split; [| done]; intros (a & [= <-] & Ha & Hrem & Hcfg); lia ].
Qed.

(** The amended C6 three minutes into a contract, no entry after 5
    minutes, ask 40. *)
Lemma entry_rule_witness :
  let c := Config 5 0 0 in
  let p := crossing_snapshot in
  let now := DT 2026 2 21 12 3 0 0 in
  let exp := DT 2026 2 21 12 15 0 0 in
  let start := DT 2026 2 21 12 0 0 0 in
  let s := rolled_at_noon in
  let entry_allowed ask :=
    ask ≤ 40 ∧ td_seconds 30 ≤ sub exp now
    ∧ (no_entry_after c = 0 ∨ sub now start < td_minutes (no_entry_after c)) in
  (_in_trigger s = false ∧ _stopped_out s = false
   ∧ expiry s = Some exp ∧ _contract_start s = Some start
   ∧ 0 ≤ no_entry_after c)
  ∧ ∃ s' evs,
      on_data c p now s = Ok (s', evs)
      ∧ ((∃ ask,
            OrderBook.best_ask (updated_book p s) (side s) = Some ask
            ∧ entry_allowed ask
            ∧ evs = [Event T40 now (Some ask) None None]
            ∧ _in_trigger s' = true
            ∧ _trigger_time s' = Some now
            ∧ _entry_ask s' = Some ask)
         ∨ (¬ (∃ ask,
                 OrderBook.best_ask (updated_book p s) (side s) = Some ask
                 ∧ entry_allowed ask)
            ∧ evs = []
            ∧ s' = set_book (updated_book p s) s)).
Proof.
  cbn zeta. split.
  - split; [reflexivity |]. split; [reflexivity |]. split; [reflexivity |].
    split; [reflexivity |]. vm_compute. discriminate.
  - apply (entry_rule (Config 5 0 0) crossing_snapshot
             (DT 2026 2 21 12 3 0 0) rolled_at_noon
             (DT 2026 2 21 12 15 0 0) (DT 2026 2 21 12 0 0 0)).
    + reflexivity.
    + reflexivity.
    + reflexivity.
    + reflexivity.
    + vm_compute. discriminate.
Defined.




(** C8: every TARGET event comes from a book update that finds the bid at
    45 or above at least 2 seconds after the trigger; it adds one to the
    cycle counter, is labelled with the new count, carries the bid as its
    price and the dwell as its duration, and its P&L estimate is
    10 * (bid - 40) / 40: the cost basis is the fixed 40, whatever entry
    ask was recorded. *)
Theorem target_event_pnl c now s s' evs ev n :
  _check_events c now s = Ok (s', evs) →
  ev ∈ evs → ev_label ev = TARGET n →
  ∃ bid t q,
    OrderBook.best_bid (book s) (side s) = Some bid
    ∧ 45 ≤ bid
    ∧ _trigger_time s = Some t
    ∧ td_seconds 2 ≤ sub now t
    ∧ _cycle_count s' = _cycle_count s + 1
    ∧ n = _cycle_count s'
    ∧ ev_price ev = Some bid
    ∧ ev_duration ev = Some (sub now t)
    ∧ ev_pnl ev = Some q
    ∧ (q == 10 * (inject_Z bid - 40) / 40)%Q
    ∧ (q * 40 == 10 * (inject_Z bid - 40))%Q.
Proof.
  unfold _check_events.
  destruct (_stopped_out s); [by intros [= <- <-] ?%elem_of_nil |].
  destruct (OrderBook.best_ask _ _) as [ask |];
    [| by intros [= <- <-] ?%elem_of_nil].
  destruct (_in_trigger s); cbn [negb].
  2:{ repeat match goal with
      | |- context [match ?x with _ => _ end] => destruct x
      end; intros [= <- <-] Hin Hl; try (by apply elem_of_nil in Hin).
      apply list_elem_of_singleton in Hin. by subst ev. }
  destruct (ask <=? 10).
  { destruct (_ && _); intros [= <- <-] Hin Hl;
      [by apply elem_of_nil in Hin |].
    apply list_elem_of_singleton in Hin. by subst ev. }
  destruct (OrderBook.best_bid _ _) as [bid |];
    [| by intros [= <- <-] ?%elem_of_nil].
  destruct (Z.leb_spec 45 bid) as [Hbid | _];
    [| by intros [= <- <-] ?%elem_of_nil].
  destruct (_trigger_time s) as [t |]; [| done].
  destruct (Z.ltb_spec (sub now t) (td_seconds 2)) as [Hshort | Hdwell].
  { destruct (_cycle_count s =? 4); destruct (_ && _);
      intros [= <- <-] Hin Hl; cbn in Hin;
      try (by apply elem_of_nil in Hin);
      apply list_elem_of_singleton in Hin; by subst ev. }
  assert (ev = _add_event_row (TARGET (_cycle_count s + 1)) now bid
                 (Some (sub now t)) →
          _cycle_count s' = _cycle_count s + 1 →
          ev_label ev = TARGET n →
          ∃ bid0 t0 q,
            Some bid = Some bid0 ∧ 45 ≤ bid0 ∧ Some t = Some t0
            ∧ td_seconds 2 ≤ sub now t0
            ∧ _cycle_count s' = _cycle_count s + 1
            ∧ n = _cycle_count s'
            ∧ ev_price ev = Some bid0
            ∧ ev_duration ev = Some (sub now t0)
            ∧ ev_pnl ev = Some q
            ∧ (q == 10 * (inject_Z bid0 - 40) / 40)%Q
            ∧ (q * 40 == 10 * (inject_Z bid0 - 40))%Q) as Hfinal.
  { intros -> Hcount [= <-].
    exists bid, t, (10 * (inject_Z bid - 40) / 40)%Q.
    do 9 (split; [done |]). split; [reflexivity | field]. }
  cbn [complete_cycle _cycle_count].
  destruct (_cycle_count s + 1 =? 4); destruct (_ && _);
    intros [= <- <-] Hin Hl; cbn in Hin;
    repeat (apply elem_of_cons in Hin as [Hin | Hin]);
    try (by apply elem_of_nil in Hin);
    try (by subst ev);
    by apply Hfinal.
Qed.

(** C8 with an entry ask of 38 recorded and the bid at 46 after three
    seconds: the estimate is 10 * (46 - 40) / 40. *)
Lemma target_event_pnl_witness :
  let c := default_config in
  let now := at_second 4 in
  let s := State "KXBTC15M-26FEB211215-15" (Some (DT 2026 2 21 12 15 0 0))
             (OrderBook.Book "KXBTC15M-26FEB211215-15" {[46 := 10]} {[50 := 7]})
             "yes" (Some (DT 2026 2 21 12 0 0 0))
             true (Some (at_second 1)) 0 [] 0 false (Some 38) in
  let ev := Event (TARGET 1) now (Some 46) (Some (td_seconds 3))
              (Some (10 * (inject_Z 46 - 40) / 40)%Q) in
  let s' := complete_cycle (at_second 1) now s in
  (_check_events c now s = Ok (s', [ev])
   ∧ ev ∈ [ev] ∧ ev_label ev = TARGET 1)
  ∧ ∃ bid t q,
      OrderBook.best_bid (book s) (side s) = Some bid
      ∧ 45 ≤ bid
      ∧ _trigger_time s = Some t
      ∧ td_seconds 2 ≤ sub now t
      ∧ _cycle_count s' = _cycle_count s + 1
      ∧ 1 = _cycle_count s'
      ∧ ev_price ev = Some bid
      ∧ ev_duration ev = Some (sub now t)
      ∧ ev_pnl ev = Some q
      ∧ (q == 10 * (inject_Z bid - 40) / 40)%Q
      ∧ (q * 40 == 10 * (inject_Z bid - 40))%Q.
Proof.
  cbn zeta.
  assert (_check_events default_config (at_second 4)
            (State "KXBTC15M-26FEB211215-15" (Some (DT 2026 2 21 12 15 0 0))
               (OrderBook.Book "KXBTC15M-26FEB211215-15"
                  {[46 := 10]} {[50 := 7]})
               "yes" (Some (DT 2026 2 21 12 0 0 0))
               true (Some (at_second 1)) 0 [] 0 false (Some 38))
          = Ok (complete_cycle (at_second 1) (at_second 4)
                  (State "KXBTC15M-26FEB211215-15"
                     (Some (DT 2026 2 21 12 15 0 0))
                     (OrderBook.Book "KXBTC15M-26FEB211215-15"
                        {[46 := 10]} {[50 := 7]})
                     "yes" (Some (DT 2026 2 21 12 0 0 0))
                     true (Some (at_second 1)) 0 [] 0 false (Some 38)),
                [Event (TARGET 1) (at_second 4) (Some 46) (Some (td_seconds 3))
                   (Some (10 * (inject_Z 46 - 40) / 40)%Q)]))
    as Hstep by (vm_compute; reflexivity).
  split.
  - split; [exact Hstep |]. split; [left | reflexivity].
  - exact (target_event_pnl _ _ _ _ _ _ 1 Hstep
             (list_elem_of_here _ _) eq_refl).
Defined.

End TrackerClaims.

(* ====================================================================== *)
(** * Further properties of the order book *)

Section OrderBookAlgebra.

Import OrderBook Spec BookSpec.

Implicit Types (m : gmap Z Z) (b : OrderBook.t) (msg : delta_msg).

Lemma book_eq b1 b2 :
  market_ticker b1 = market_ticker b2 → yes b1 = yes b2 → no b1 = no b2 →
  b1 = b2.
Proof. destruct b1, b2; cbn; by intros -> -> ->. Qed.

Lemma update_side_lookup m price delta p :
  update_side m price delta !! p
  = if decide (p = price)
    then (if decide (qty m price + delta ≤ 0) then None
          else Some (qty m price + delta))
    else m !! p.
Proof.
  destruct (update_side_applied m price delta) as [Hat Hoff].
  destruct (decide (p = price)) as [-> | Hp]; [exact Hat | by apply Hoff].
Qed.

Lemma update_side_qty m price delta p :
  qty (update_side m price delta) p
  = if decide (p = price) then Z.max 0 (qty m price + delta) else qty m p.
Proof.
  unfold qty at 1. rewrite update_side_lookup.
  destruct (decide (p = price)) as [-> | Hp]; [| done].
  unfold qty. case_decide; cbn; lia.
Qed.

Lemma update_side_comm m p1 d1 p2 d2 :
  p1 ≠ p2 →
  update_side (update_side m p1 d1) p2 d2
  = update_side (update_side m p2 d2) p1 d1.
Proof.
  intros Hne. apply map_eq. intros p.
  rewrite !update_side_lookup, !update_side_qty.
  destruct (decide (p = p1)) as [-> | H1].
  - by rewrite !(decide_False (P := p1 = p2)).
  - destruct (decide (p = p2)) as [-> | H2]; [| done].
    by rewrite !(decide_False (P := p2 = p1)).
Qed.

Lemma apply_delta_side_map b msg side :
  side_map (apply_delta b msg) side
  = if Bool.eqb (String.eqb (d_side msg) "yes") (String.eqb side "yes")
    then update_side (side_map b side) (d_price msg) (d_delta msg)
    else side_map b side.
Proof.
  unfold apply_delta, side_map.
  by destruct (String.eqb (d_side msg) "yes"), (String.eqb side "yes").
Qed.

Lemma apply_delta_qty b msg side p :
  qty (side_map (apply_delta b msg) side) p
  = if targets side p msg
    then Z.max 0 (qty (side_map b side) p + d_delta msg)
    else qty (side_map b side) p.
Proof.
  rewrite apply_delta_side_map. unfold targets.
  destruct (Bool.eqb _ _); cbn [andb]; [| done].
  rewrite update_side_qty.
  destruct (Z.eqb_spec (d_price msg) p) as [<- | Hne].
  - by rewrite decide_True.
  - by rewrite decide_False by congruence.
Qed.

(** X1. Read through [side.get(price, 0)], every level of the book is a
    counter that saturates at zero: after any list of delta messages its
    quantity is the old quantity with the deltas aimed at that side and
    price added in order, each sum cut off below at 0. Deltas aimed
    elsewhere do not count, and a message whose side is not "yes" counts
    for the no map. *)
Theorem deltas_accumulate_saturating msgs b side p :
  qty (side_map (fold_left apply_delta msgs b) side) p
  = saturating (qty (side_map b side) p) (deltas_for side p msgs).
Proof.
  revert b. induction msgs as [| msg msgs IH]; intros b; [done |].
  cbn [fold_left]. rewrite IH, apply_delta_qty.
  unfold deltas_for. cbn [List.filter].
  by destruct (targets side p msg).
Qed.

(** X2. Two delta messages that change different levels (different maps
    or different prices) commute: the book after both is the same in
    either order. *)
Theorem independent_deltas_commute b msg1 msg2 :
  independent msg1 msg2 →
  apply_delta (apply_delta b msg1) msg2 = apply_delta (apply_delta b msg2) msg1.
Proof.
  intros [Hs | Hp]; unfold apply_delta;
    destruct (String.eqb (d_side msg1) "yes") eqn:H1,
      (String.eqb (d_side msg2) "yes") eqn:H2;
    cbn [yes no market_ticker]; try done;
    apply book_eq; cbn [yes no market_ticker]; try done;
    by apply update_side_comm.
Qed.

Lemma independent_deltas_commute_witness :
  let b := apply_snapshot (OrderBook.init "KXBTC15M")
             (SnapshotMsg (Some [(30, 100)]) (Some [(65, 50)])) in
  let m1 := DeltaMsg "yes" 30 (-100) in
  let m2 := DeltaMsg "no" 30 7 in
  independent m1 m2
  ∧ apply_delta (apply_delta b m1) m2 = apply_delta (apply_delta b m2) m1.
Proof.
  cbn zeta.
  assert (independent (DeltaMsg "yes" 30 (-100)) (DeltaMsg "no" 30 7)) as Hind
    by (left; discriminate).
  split; [exact Hind |].
  exact (independent_deltas_commute _ _ _ Hind).
Defined.

(** X3. Adding a positive amount to a level and taking the same amount
    away again gives back the book exactly, provided the level was absent
    or held a positive quantity. *)
Theorem add_then_remove_restores b msg :
  0 < d_delta msg →
  (∀ q, side_map b (d_side msg) !! d_price msg = Some q → 0 < q) →
  apply_delta (apply_delta b msg) (opposite msg) = b.
Proof.
  intros Hd Hpos.
  assert (∀ m, (∀ q, m !! d_price msg = Some q → 0 < q) →
            update_side (update_side m (d_price msg) (d_delta msg))
              (d_price msg) (- d_delta msg) = m) as Hmap.
  { intros m Hm. apply map_eq. intros p. rewrite update_side_lookup.
    destruct (decide (p = d_price msg)) as [-> | Hp];
      [| rewrite update_side_lookup; by destruct (decide (p = d_price msg))].
    rewrite update_side_qty.
    rewrite (decide_True (P := d_price msg = d_price msg)) by done.
    unfold qty. destruct (m !! d_price msg) as [q |] eqn:Hq; cbn.
    - specialize (Hm q eq_refl). rewrite decide_False by lia. f_equal. lia.
    - rewrite decide_True by lia. done. }
  unfold apply_delta, opposite, side_map in *. cbn [d_side d_price d_delta].
  destruct (String.eqb (d_side msg) "yes") eqn:Hs; cbn; rewrite ?Hs; cbn;
    apply book_eq; cbn; try done; by apply Hmap.
Qed.

Lemma add_then_remove_restores_witness :
  let b := apply_snapshot (OrderBook.init "KXBTC15M")
             (SnapshotMsg (Some [(30, 100)]) (Some [(65, 50)])) in
  let msg := DeltaMsg "yes" 30 25 in
  0 < d_delta msg
  ∧ apply_delta (apply_delta b msg) (opposite msg) = b.
Proof.
  cbn zeta. split; [reflexivity |].
  apply (add_then_remove_restores
           (apply_snapshot (OrderBook.init "KXBTC15M")
              (SnapshotMsg (Some [(30, 100)]) (Some [(65, 50)])))
           (DeltaMsg "yes" 30 25)).
  - reflexivity.
  - intros q Hq. vm_compute in Hq. injection Hq as <-. reflexivity.
Defined.

(** *** Snapshots *)

Lemma last_qty_none p (l : list (Z * Z)) : last_qty p l = None ↔ p ∉ l.*1.
Proof.
  induction l as [| [p' q'] l IH]; cbn.
  - split; [intros _; apply not_elem_of_nil | done].
  - rewrite not_elem_of_cons, <- IH.
    destruct (last_qty p l); [split; [done | by intros [_ ?]] |].
    case_decide as Hp; [split; [done | intros [Hne _]; by subst] |].
    split; [intros _; split; [congruence | done] | done].
Qed.

Lemma last_qty_nodup p q (l : list (Z * Z)) :
  NoDup l.*1 → (last_qty p l = Some q ↔ (p, q) ∈ l).
Proof.
  intros Hnd. split; [apply last_qty_elem |].
  induction l as [| [p' q'] l IH]; cbn; [by intros ?%elem_of_nil |].
  apply NoDup_cons in Hnd as [Hfresh Hnd].
  intros [[= -> ->] | Hin]%elem_of_cons.
  - apply last_qty_none in Hfresh. cbn in Hfresh. rewrite Hfresh.
    by rewrite decide_True.
  - by rewrite (IH Hnd Hin).
Qed.

Lemma fold_insert_size (l : list (Z * Z)) : ∀ m,
  NoDup l.*1 → (∀ p, p ∈ l.*1 → m !! p = None) →
  size (fold_left (λ m pq, <[pq.1 := pq.2]> m) l m)
  = (size m + length l)%nat.
Proof.
  induction l as [| [p q] l IH]; intros m Hnd Hfresh; cbn; [lia |].
  apply NoDup_cons in Hnd as [Hp Hnd].
  rewrite IH; [| done |].
  - rewrite map_size_insert_None; [lia |]. apply Hfresh. left.
  - intros p' Hp'. rewrite lookup_insert_ne by (intros ->; done).
    apply Hfresh. by right.
Qed.

(** X4. A snapshot whose level lists name each price once is reproduced
    exactly, whatever the book held before: a side's map has the level
    (p, q) exactly when the pair is in the list, and as many levels as the
    list has pairs. *)
Theorem snapshot_reproduced_exactly b snap :
  NoDup (get_levels (snap_yes snap)).*1 →
  NoDup (get_levels (snap_no snap)).*1 →
  (∀ p q, yes (apply_snapshot b snap) !! p = Some q
          ↔ (p, q) ∈ get_levels (snap_yes snap))
  ∧ (∀ p q, no (apply_snapshot b snap) !! p = Some q
            ↔ (p, q) ∈ get_levels (snap_no snap))
  ∧ size (yes (apply_snapshot b snap)) = length (get_levels (snap_yes snap))
  ∧ size (no (apply_snapshot b snap)) = length (get_levels (snap_no snap))
  ∧ ∀ msgs, apply_snapshot (fold_left apply_delta msgs b) snap
            = apply_snapshot b snap.
Proof.
  intros Hy Hn. cbn [apply_snapshot yes no]. repeat split.
  - rewrite dict_of_levels_lookup. by apply last_qty_nodup.
  - rewrite <- last_qty_nodup by done. by rewrite dict_of_levels_lookup.
  - rewrite dict_of_levels_lookup. by apply last_qty_nodup.
  - rewrite <- last_qty_nodup by done. by rewrite dict_of_levels_lookup.
  - unfold dict_of_levels. rewrite fold_insert_size; [done | done |].
    intros. apply lookup_empty.
  - unfold dict_of_levels. rewrite fold_insert_size; [done | done |].
    intros. apply lookup_empty.
  - intros msgs. unfold apply_snapshot. f_equal.
    induction msgs as [| msg msgs IH] using rev_ind; [done |].
    rewrite fold_left_app. cbn. unfold apply_delta.
    by destruct (String.eqb (d_side msg) "yes").
Qed.

Lemma snapshot_reproduced_exactly_witness :
  let b := OrderBook.init "KXBTC15M" in
  let snap := SnapshotMsg (Some [(30, 100); (28, 0)]) None in
  (NoDup (get_levels (snap_yes snap)).*1
   ∧ NoDup (get_levels (snap_no snap)).*1)
  ∧ size (yes (apply_snapshot b snap)) = 2%nat
  ∧ size (no (apply_snapshot b snap)) = 0%nat.
Proof.
  cbn zeta.
  assert (NoDup (get_levels (Some [(30, 100); (28, 0)])).*1) as Hy.
  { cbn. apply NoDup_cons. split.
    - intros [[=] | H]%elem_of_cons. by apply elem_of_nil in H.
    - apply NoDup_singleton. }
  assert (NoDup (get_levels (None : option (list (Z * Z)))).*1) as Hn
    by apply NoDup_nil_2.
  split; [by split |].
  destruct (snapshot_reproduced_exactly (OrderBook.init "KXBTC15M")
              (SnapshotMsg (Some [(30, 100); (28, 0)]) None) Hy Hn)
    as (_ & _ & Hsy & Hsn & _).
  split; [exact Hsy | exact Hsn].
Defined.

(** *** The best bid under deltas *)

Lemma is_max_key_unique m k1 k2 : is_max_key m k1 → is_max_key m k2 → k1 = k2.
Proof.
  intros [Hin1 Hub1] [Hin2 Hub2].
  specialize (Hub1 k2 Hin2). specialize (Hub2 k1 Hin1). lia.
Qed.

Lemma guarded_max_is m k :
  is_max_key m k → (if truthy m then max_key m else None) = Some k.
Proof.
  intros Hk. destruct (guarded_max_spec m) as [[-> _] | (k' & Hk' & ->)].
  - by apply is_max_key_nonempty in Hk.
  - f_equal. by eapply is_max_key_unique.
Qed.

Lemma best_bid_side_map b side :
  best_bid b side
  = if truthy (side_map b side) then max_key (side_map b side) else None.
Proof. reflexivity. Qed.

Lemma best_bid_cases b side :
  (side_map b side = ∅ ∧ best_bid b side = None)
  ∨ (∃ k, is_max_key (side_map b side) k ∧ best_bid b side = Some k).
Proof. rewrite best_bid_side_map. apply guarded_max_spec. Qed.

(** X5. How one delta moves the best bid of the side it names. If the new
    quantity is positive the best bid becomes the greater of the old best
    bid and the delta's price. If the level is removed and it was not the
    best bid, the best bid stays; if it was the best bid, the new best bid
    is lower or there is none. *)
Theorem best_bid_after_delta b msg :
  let side := d_side msg in
  let p := d_price msg in
  let new_qty := qty (side_map b side) p + d_delta msg in
  let before := best_bid b side in
  let after := best_bid (apply_delta b msg) side in
  (0 < new_qty →
   after = Some (match before with Some k => Z.max k p | None => p end))
  ∧ (new_qty ≤ 0 → ∀ k, before = Some k → k ≠ p → after = Some k)
  ∧ (new_qty ≤ 0 → before = Some p →
     after = None ∨ ∃ k, after = Some k ∧ k < p).
Proof.
  cbn zeta.
  assert (side_map (apply_delta b msg) (d_side msg)
          = update_side (side_map b (d_side msg)) (d_price msg) (d_delta msg))
    as Hmap by (rewrite apply_delta_side_map; by rewrite eqb_reflx).
  set (m := side_map b (d_side msg)) in *.
  set (m' := side_map (apply_delta b msg) (d_side msg)) in *.
  assert (∀ k, m' !! k
               = if decide (k = d_price msg)
                 then (if decide (qty m (d_price msg) + d_delta msg ≤ 0)
                       then None
                       else Some (qty m (d_price msg) + d_delta msg))
                 else m !! k) as Hlook
    by (intros k; rewrite Hmap; apply update_side_lookup).
  rewrite !best_bid_side_map. fold m m'.
  split; [| split].
  - intros Hpos.
    destruct (guarded_max_spec m) as [[He ->] | (k & [Hin Hub] & ->)];
      apply guarded_max_is; split.
    + rewrite Hlook, decide_True by done. by rewrite decide_False by lia.
    + intros k' Hk'. rewrite Hlook in Hk'.
      destruct (decide (k' = d_price msg)) as [-> | Hne]; [done |].
      rewrite He, lookup_empty in Hk'. by destruct Hk'.
    + rewrite Hlook.
      destruct (decide (Z.max k (d_price msg) = d_price msg)) as [Heq | Hne].
      * by rewrite decide_False by lia.
      * assert (Z.max k (d_price msg) = k) as -> by lia. done.
    + intros k' Hk'. rewrite Hlook in Hk'.
      destruct (decide (k' = d_price msg)) as [-> | Hne]; [lia |].
      specialize (Hub k' Hk'). lia.
  - intros Hrem k Hbefore Hne.
    destruct (guarded_max_spec m) as [[He Hnone] | (k0 & [Hin Hub] & Hsome)];
      [congruence |].
    assert (k0 = k) as -> by congruence.
    apply guarded_max_is. split.
    + rewrite Hlook. by rewrite decide_False.
    + intros k' Hk'. rewrite Hlook in Hk'. apply Hub.
      destruct (decide (k' = d_price msg)); [| done].
      rewrite decide_True in Hk' by done. by destruct Hk'.
  - intros Hrem Hbefore.
    destruct (guarded_max_spec m) as [[He Hnone] | (k0 & [Hin Hub] & Hsome)];
      [congruence |].
    assert (k0 = d_price msg) as -> by congruence.
    destruct (guarded_max_spec m') as [[He' ->] | (k' & [Hin' Hub'] & ->)];
      [by left |].
    right. exists k'. split; [done |]. rewrite Hlook in Hin'.
    destruct (decide (k' = d_price msg)) as [-> | Hne].
    + rewrite decide_True in Hin' by done. by destruct Hin'.
    + specialize (Hub k' Hin'). lia.
Qed.

Lemma best_ask_opposite b :
  best_ask b "yes" = (λ k, 100 - k) <$> best_bid b "no"
  ∧ best_ask b "no" = (λ k, 100 - k) <$> best_bid b "yes".
Proof.
  unfold best_ask, best_bid. cbn [String.eqb Ascii.eqb Bool.eqb].
  cbn beta iota. by destruct (truthy (no b)), (truthy (yes b)).
Qed.

Lemma best_bid_none b side :
  best_bid b side = None ↔ side_map b side = ∅.
Proof.
  destruct (best_bid_cases b side) as [[He ->] | (k & Hk & ->)]; [done |].
  apply is_max_key_nonempty in Hk. naive_solver.
Qed.

(** X6. The spread is the same seen from either side: with both maps
    non-empty it is 100 minus the best yes bid minus the best no bid, and
    there is none as soon as one map is empty. *)
Theorem spread_is_symmetric b :
  spread b "yes" = spread b "no"
  ∧ spread b "yes"
    = match best_bid b "yes", best_bid b "no" with
      | Some ky, Some kn => Some (100 - ky - kn)
      | _, _ => None
      end
  ∧ (spread b "yes" = None ↔ yes b = ∅ ∨ no b = ∅).
Proof.
  destruct (best_ask_opposite b) as [Hay Han].
  pose proof (best_bid_none b "yes") as Hny.
  pose proof (best_bid_none b "no") as Hnn.
  change (side_map b "yes") with (yes b) in Hny.
  change (side_map b "no") with (no b) in Hnn.
  unfold spread. rewrite Hay, Han.
  destruct (best_bid b "yes") as [ky |], (best_bid b "no") as [kn |];
    cbn [fmap option_fmap option_map].
  - split; [f_equal; lia |]. split; [f_equal; lia |].
    split; [done |]. intros [H | H]; [by apply Hny in H | by apply Hnn in H].
  - split; [done |]. split; [done |]. split; [| done]. right. by apply Hnn.
  - split; [done |]. split; [done |]. split; [| done]. left. by apply Hny.
  - split; [done |]. split; [done |]. split; [| done]. left. by apply Hny.
Qed.

End OrderBookAlgebra.

(* ====================================================================== *)
(** * Further properties of the cycle tracker *)

Section ContractFacts.

Import Datetime BTC15Frame Spec TrackerSpec.

Implicit Types (c : config) (s : state) (now : datetime) (p : payload).

Ltac split_tests :=
  repeat match goal with
  | |- context [match ?x with _ => _ end] =>
      match type of x with
      | bool => destruct x eqn:?
      | option _ => destruct x eqn:?
      end
  end.

(** Counts the labels of an explicit event list. *)
Ltac tally_prep :=
  unfold count, labels, target_numbers, open_count;
  cbn [map List.filter length omap list_omap ev_label _add_event_row
       _add_milestone_row is_target is_stop_loss is_entry is_milestone
       app _in_trigger _stopped_out _cycle_count _stop_loss_count
       enter stop_out complete_cycle set_stopped_out];
  repeat match goal with
  | H : _in_trigger _ = _ |- _ => rewrite H
  end;
  change (Z.of_nat 0) with 0; change (Z.of_nat 1) with 1.

Ltac tally := tally_prep; repeat split; first [done | reflexivity | lia].

Lemma count_app kind evs1 evs2 :
  count kind (evs1 ++ evs2) = count kind evs1 + count kind evs2.
Proof.
  unfold count, labels. rewrite map_app, List.filter_app, length_app. lia.
Qed.

Lemma count_nonneg kind evs : 0 ≤ count kind evs.
Proof. unfold count. lia. Qed.

Lemma target_numbers_app evs1 evs2 :
  target_numbers (evs1 ++ evs2) = target_numbers evs1 ++ target_numbers evs2.
Proof. apply omap_app. Qed.

(** What one call of [_check_events] does to the counters, against what
    it emits. *)
Lemma check_events_counts c now s s' evs :
  _check_events c now s = Ok (s', evs) →
  _cycle_count s' = _cycle_count s + count is_target evs
  ∧ _stop_loss_count s' = _stop_loss_count s + count is_stop_loss evs
  ∧ count is_entry evs + open_count s
    = count is_target evs + count is_stop_loss evs + open_count s'
  ∧ target_numbers evs
    = seqZ (_cycle_count s + 1) (count is_target evs)
  ∧ 0 ≤ count is_stop_loss evs ≤ 1
  ∧ (count is_stop_loss evs = 1 → _stopped_out s' = true).
Proof.
  unfold _check_events.
  destruct (_stopped_out s) eqn:Hso.
  { intros [= <- <-]. rewrite Hso. tally. }
  destruct (OrderBook.best_ask _ _) as [ask |]; [| intros [= <- <-]; tally].
  destruct (_in_trigger s) eqn:Hin; cbn [negb].
  - destruct (ask <=? 10).
    { destruct (_ && _); intros [= <- <-]; tally. }
    destruct (OrderBook.best_bid _ _) as [bid |]; [| intros [= <- <-]; tally].
    destruct (45 <=? bid); [| intros [= <- <-]; tally].
    destruct (_trigger_time s) as [t |]; [| done].
    destruct (sub now t <? td_seconds 2).
    + destruct (_cycle_count s =? 4); destruct (_ && _);
        intros [= <- <-]; tally.
    + cbn [complete_cycle _cycle_count].
      destruct (_cycle_count s + 1 =? 4); destruct (_ && _);
        intros [= <- <-]; tally.
  - split_tests; intros [= <- <-]; tally.
Qed.

Lemma on_data_counts c p now s s' evs :
  on_data c p now s = Ok (s', evs) →
  _cycle_count s' = _cycle_count s + count is_target evs
  ∧ _stop_loss_count s' = _stop_loss_count s + count is_stop_loss evs
  ∧ count is_entry evs + open_count s
    = count is_target evs + count is_stop_loss evs + open_count s'
  ∧ target_numbers evs
    = seqZ (_cycle_count s + 1) (count is_target evs)
  ∧ 0 ≤ count is_stop_loss evs ≤ 1
  ∧ (count is_stop_loss evs = 1 → _stopped_out s' = true).
Proof.
  unfold on_data. intros H.
  exact (check_events_counts _ _ (set_book _ s) _ _ H).
Qed.

Lemma run_counts c inputs : ∀ s s' evs,
  run c inputs s = Ok (s', evs) →
  _cycle_count s' = _cycle_count s + count is_target evs
  ∧ _stop_loss_count s' = _stop_loss_count s + count is_stop_loss evs
  ∧ count is_entry evs + open_count s
    = count is_target evs + count is_stop_loss evs + open_count s'
  ∧ target_numbers evs
    = seqZ (_cycle_count s + 1) (count is_target evs)
  ∧ 0 ≤ count is_stop_loss evs ≤ 1.
Proof.
  induction inputs as [| [p now] rest IH]; intros s s' evs; cbn [run].
  - intros [= <- <-]. tally.
  - destruct (on_data c p now s) as [[s1 ev1] | e] eqn:H1; cbn; [| done].
    destruct (run c rest s1) as [[s2 ev2] | e] eqn:H2; cbn; [| done].
    intros [= <- <-].
    destruct (on_data_counts _ _ _ _ _ _ H1)
      as (Hc1 & Hs1 & Hb1 & Hn1 & Hle1 & Hstop1).
    destruct (IH _ _ _ H2) as (Hc2 & Hs2 & Hb2 & Hn2 & Hle2).
    rewrite !count_app, target_numbers_app, Hn1, Hn2.
    pose proof (count_nonneg is_target ev1).
    pose proof (count_nonneg is_target ev2).
    repeat split; try lia.
    + rewrite Hc1. rewrite seqZ_app by lia. f_equal. f_equal. lia.
    + destruct (decide (count is_stop_loss ev1 = 1)) as [Hone | Hzero];
        [| lia].
      destruct (run_stopped c rest s1 (Hstop1 Hone)) as (s3 & Hrun3 & _).
      rewrite H2 in Hrun3. injection Hrun3 as _ ->.
      change (count is_stop_loss []) with 0. lia.
Qed.

Lemma roll_counters t0 s00 s0 :
  _roll t0 s00 = Ok s0 →
  _in_trigger s0 = false ∧ _stopped_out s0 = false
  ∧ _cycle_count s0 = 0 ∧ _stop_loss_count s0 = 0
  ∧ side s0 = side s00 ∧ book s0 = OrderBook.init (ticker s0).
Proof.
  unfold _roll. destruct (_compute t0) as [[tk exp] | e]; cbn; [| done].
  destruct (add exp _) as [start | e]; cbn; [| done]. by intros [= <-].
Qed.

(** X7. At any point of a contract the counters of the frame agree with
    what it has emitted since the roll: the cycle counter is the number
    of TARGET events, the stop counter the number of STOP LOSS events,
    which is 0 or 1, and every ENTRY is matched by a TARGET, by the STOP
    LOSS, or by the trigger that is still open. *)
Theorem counters_match_events c t0 s00 s0 inputs s evs :
  _roll t0 s00 = Ok s0 →
  run c inputs s0 = Ok (s, evs) →
  _cycle_count s = count is_target evs
  ∧ _stop_loss_count s = count is_stop_loss evs
  ∧ 0 ≤ count is_stop_loss evs ≤ 1
  ∧ count is_entry evs
    = count is_target evs + count is_stop_loss evs + open_count s.
Proof.
  intros Hroll Hrun.
  destruct (roll_counters _ _ _ Hroll) as (Hin & _ & Hc & Hs & _).
  destruct (run_counts _ _ _ _ _ Hrun) as (Hc' & Hs' & Hb & _ & Hle).
  unfold open_count in Hb at 1. rewrite Hin in Hb. lia.
Qed.

(** X8. The TARGET events of a contract are numbered 1, 2, 3, ... in the
    order they are emitted, without gap or repetition, up to the cycle
    counter. *)
Theorem targets_numbered_consecutively c t0 s00 s0 inputs s evs :
  _roll t0 s00 = Ok s0 →
  run c inputs s0 = Ok (s, evs) →
  target_numbers evs = seqZ 1 (_cycle_count s).
Proof.
  intros Hroll Hrun.
  destruct (roll_counters _ _ _ Hroll) as (_ & _ & Hc & _).
  destruct (run_counts _ _ _ _ _ Hrun) as (Hc' & _ & _ & Hn & _).
  rewrite Hn, Hc', Hc. f_equal.
Qed.

Lemma roll_at_noon :
  _roll (DT 2026 2 21 12 0 0 5) (init "yes") = Ok rolled_at_noon.
Proof. vm_compute. reflexivity. Qed.

(** X7 on the contract of [milestone_trace]. *)
Lemma counters_match_events_witness :
  ∃ s evs,
    run default_config milestone_trace rolled_at_noon = Ok (s, evs)
    ∧ _cycle_count s = count is_target evs
    ∧ _stop_loss_count s = count is_stop_loss evs
    ∧ 0 ≤ count is_stop_loss evs ≤ 1
    ∧ count is_entry evs
      = count is_target evs + count is_stop_loss evs + open_count s.
Proof.
  destruct (run default_config milestone_trace rolled_at_noon)
    as [[s evs] | e] eqn:Hrun.
  - exists s, evs. split; [reflexivity |].
    exact (counters_match_events default_config _ _ _ _ _ _
             roll_at_noon Hrun).
  - exfalso. vm_compute in Hrun. discriminate Hrun.
Defined.

(** X8 on the contract of [milestone_trace]. *)
Lemma targets_numbered_consecutively_witness :
  ∃ s evs,
    run default_config milestone_trace rolled_at_noon = Ok (s, evs)
    ∧ target_numbers evs = seqZ 1 (_cycle_count s).
Proof.
  destruct (run default_config milestone_trace rolled_at_noon)
    as [[s evs] | e] eqn:Hrun.
  - exists s, evs. split; [reflexivity |].
    exact (targets_numbered_consecutively default_config _ _ _ _ _ _
             roll_at_noon Hrun).
  - exfalso. vm_compute in Hrun. discriminate Hrun.
Defined.

(** *** A contract without a trigger *)

Lemma quiet_step c p now s :
  _in_trigger s = false → _stopped_out s = false →
  (∀ k, OrderBook.best_ask (apply_payload p (book s)) (side s) = Some k
        → 40 < k) →
  on_data c p now s = Ok (set_book (apply_payload p (book s)) s, []).
Proof.
  intros Hin Hso Hask. unfold on_data, _check_events.
  fold (apply_payload p (book s)).
  cbn [_stopped_out _in_trigger expiry _contract_start book side set_book].
  rewrite Hin, Hso. cbn [negb].
  destruct (OrderBook.best_ask _ _) as [ask |]; [| done].
  specialize (Hask ask eq_refl).
  destruct (_ <? td_seconds 30); [done |].
  destruct (match _contract_start s with Some _ => _ | None => _ end);
    [done |].
  destruct (Z.leb_spec ask 40); [lia | done].
Qed.

Lemma quiet_run c inputs : ∀ s,
  _in_trigger s = false → _stopped_out s = false →
  never_at_entry (asks_seen (side s) inputs (book s)) →
  ∃ s', run c inputs s = Ok (s', [])
        ∧ _in_trigger s' = false ∧ _stopped_out s' = false
        ∧ _cycle_count s' = _cycle_count s
        ∧ _stop_loss_count s' = _stop_loss_count s
        ∧ _trigger_time s' = _trigger_time s
        ∧ ticker s' = ticker s ∧ side s' = side s
        ∧ book s' = book_after inputs (book s).
Proof.
  induction inputs as [| [p now] rest IH]; intros s Hin Hso Hquiet.
  - exists s. by repeat split.
  - cbn [asks_seen] in Hquiet. apply Forall_cons in Hquiet as [Hhead Hrest].
    cbn [run]. rewrite (quiet_step c p now s Hin Hso Hhead).
    cbn [mbind result_bind].
    destruct (IH (set_book (apply_payload p (book s)) s) Hin Hso Hrest)
      as (s' & Hrun & H).
    rewrite Hrun. cbn. exists s'. split; [done |]. exact H.
Qed.

(** X9. A contract during which the ask of the frame's side never comes
    down to 40 emits nothing at all: after any run of book updates since
    the roll no trigger is open, both counters are 0 and the tracker is
    not stopped out. *)
Theorem quiet_contract_emits_nothing c t0 s00 s0 inputs :
  _roll t0 s00 = Ok s0 →
  never_at_entry (asks_seen (side s0) inputs (book s0)) →
  ∃ s, run c inputs s0 = Ok (s, [])
       ∧ _in_trigger s = false ∧ _stopped_out s = false
       ∧ _cycle_count s = 0 ∧ _stop_loss_count s = 0
       ∧ book s = book_after inputs (OrderBook.init (ticker s0)).
Proof.
  intros Hroll Hquiet.
  destruct (roll_counters _ _ _ Hroll) as (Hin & Hso & Hc & Hs & _ & Hb).
  destruct (quiet_run c inputs s0 Hin Hso Hquiet)
    as (s & Hrun & Hin' & Hso' & Hc' & Hs' & _ & _ & _ & Hb').
  exists s. repeat split; try done; congruence.
Qed.

Lemma quiet_contract_emits_nothing_witness :
  let inputs :=
    [(Snapshot (OrderBook.SnapshotMsg (Some [(30, 100)]) (Some [(55, 50)])),
      at_second 1);
     (Delta (OrderBook.DeltaMsg "no" 58 10), at_second 2);
     (Delta (OrderBook.DeltaMsg "yes" 47 5), at_second 9)] in
  never_at_entry (asks_seen (side rolled_at_noon) inputs (book rolled_at_noon))
  ∧ ∃ s, run default_config inputs rolled_at_noon = Ok (s, [])
         ∧ _in_trigger s = false ∧ _stopped_out s = false
         ∧ _cycle_count s = 0 ∧ _stop_loss_count s = 0
         ∧ book s = book_after inputs
                      (OrderBook.init (ticker rolled_at_noon)).
Proof.
  cbn zeta.
  assert (never_at_entry
            (asks_seen (side rolled_at_noon)
               [(Snapshot (OrderBook.SnapshotMsg (Some [(30, 100)])
                             (Some [(55, 50)])), at_second 1);
                (Delta (OrderBook.DeltaMsg "no" 58 10), at_second 2);
                (Delta (OrderBook.DeltaMsg "yes" 47 5), at_second 9)]
               (book rolled_at_noon))) as Hquiet.
  { repeat (apply Forall_cons; split;
            [intros k Hk; vm_compute in Hk; injection Hk as <-; reflexivity |]).
    apply Forall_nil. done. }
  split; [exact Hquiet |].
  exact (quiet_contract_emits_nothing default_config _ _ _ _
           roll_at_noon Hquiet).
Defined.

(** *** The cap on cycles *)

Lemma check_events_cap c now s s' evs :
  0 < max_cycles c →
  _check_events c now s = Ok (s', evs) →
  (_cycle_count s ≤ max_cycles c
   ∧ (_stopped_out s = false → _cycle_count s < max_cycles c)) →
  (_cycle_count s' ≤ max_cycles c
   ∧ (_stopped_out s' = false → _cycle_count s' < max_cycles c))
  ∧ (count is_milestone evs = 0 ∨ count is_milestone evs = 1)
  ∧ (count is_milestone evs = 1 → _cycle_count s' = 4)
  ∧ (_stopped_out s = true → evs = []).
Proof.
  intros Hmax. unfold _check_events.
  destruct (_stopped_out s) eqn:Hso.
  { intros [= <- <-] [Hle Hlt]. rewrite Hso. tally. }
  intros Hstep [Hle Hlt]. specialize (Hlt eq_refl). revert Hstep.
  destruct (OrderBook.best_ask _ _) as [ask |]; [| intros [= <- <-]; tally].
  destruct (_in_trigger s) eqn:Hin; cbn [negb].
  - destruct (ask <=? 10).
    { destruct (_ && _); intros [= <- <-]; tally. }
    destruct (OrderBook.best_bid _ _) as [bid |]; [| intros [= <- <-]; tally].
    destruct (45 <=? bid); [| intros [= <- <-]; tally].
    destruct (_trigger_time s) as [t |]; [| done].
    destruct (sub now t <? td_seconds 2).
    + destruct (Z.eqb_spec (_cycle_count s) 4);
        destruct (Z.ltb_spec 0 (max_cycles c));
        destruct (Z.leb_spec (max_cycles c) (_cycle_count s));
        cbn [andb]; intros [= <- <-]; tally.
    + cbn [complete_cycle _cycle_count].
      destruct (Z.eqb_spec (_cycle_count s + 1) 4);
        destruct (Z.ltb_spec 0 (max_cycles c));
        destruct (Z.leb_spec (max_cycles c) (_cycle_count s + 1));
        cbn [andb]; intros [= <- <-]; tally.
  - split_tests; intros [= <- <-]; tally.
Qed.

Lemma run_cap c inputs : ∀ s s' evs,
  0 < max_cycles c →
  run c inputs s = Ok (s', evs) →
  (_cycle_count s ≤ max_cycles c
   ∧ (_stopped_out s = false → _cycle_count s < max_cycles c)) →
  (_cycle_count s' ≤ max_cycles c
   ∧ (_stopped_out s' = false → _cycle_count s' < max_cycles c)).
Proof.
  induction inputs as [| [p now] rest IH]; intros s s' evs Hmax; cbn [run].
  - by intros [= <- <-].
  - destruct (on_data c p now s) as [[s1 ev1] | e] eqn:H1; cbn; [| done].
    destruct (run c rest s1) as [[s2 ev2] | e] eqn:H2; cbn; [| done].
    intros [= <- <-] Hinv. eapply IH; [done | exact H2 |].
    unfold on_data in H1.
    exact (proj1 (check_events_cap c now (set_book _ s) _ _ Hmax H1 Hinv)).
Qed.

(** X10. With the max-cycles setting at n > 0, a contract never counts
    more than n cycles, and the tracker is stopped out as soon as the
    counter reaches n. *)
Theorem max_cycles_caps_contract c t0 s00 s0 inputs s evs :
  0 < max_cycles c →
  _roll t0 s00 = Ok s0 →
  run c inputs s0 = Ok (s, evs) →
  count is_target evs = _cycle_count s
  ∧ _cycle_count s ≤ max_cycles c
  ∧ (_cycle_count s = max_cycles c → _stopped_out s = true).
Proof.
  intros Hmax Hroll Hrun.
  destruct (roll_counters _ _ _ Hroll) as (_ & Hso & Hc & _).
  destruct (run_counts _ _ _ _ _ Hrun) as (Hc' & _).
  destruct (run_cap c inputs s0 s evs Hmax Hrun) as [Hle Hlt];
    [rewrite Hc; lia |].
  split; [lia |]. split; [done |].
  intros Heq. destruct (_stopped_out s); [done |].
  specialize (Hlt eq_refl). lia.
Qed.

Lemma max_cycles_caps_contract_witness :
  let c := Config 0 2 0 in
  ∃ s evs,
    (0 < max_cycles c
     ∧ _roll (DT 2026 2 21 12 0 0 5) (init "yes") = Ok rolled_at_noon
     ∧ run c milestone_trace rolled_at_noon = Ok (s, evs))
    ∧ count is_target evs = _cycle_count s
    ∧ _cycle_count s ≤ max_cycles c
    ∧ (_cycle_count s = max_cycles c → _stopped_out s = true).
Proof.
  cbn zeta.
  destruct (run (Config 0 2 0) milestone_trace rolled_at_noon)
    as [[s evs] | e] eqn:Hrun.
  - exists s, evs. split.
    + split; [reflexivity |]. split; [exact roll_at_noon | reflexivity].
    + exact (max_cycles_caps_contract (Config 0 2 0) _ _ _ _ _ _
               eq_refl roll_at_noon Hrun).
  - exfalso. vm_compute in Hrun. discriminate Hrun.
Defined.

(** *** The milestone under a cap *)

Lemma check_events_milestone c now s s' evs :
  0 < max_cycles c ≤ 4 →
  _check_events c now s = Ok (s', evs) →
  (_cycle_count s ≤ max_cycles c
   ∧ (_stopped_out s = false → _cycle_count s < max_cycles c)) →
  count is_milestone evs + (if _cycle_count s =? 4 then 1 else 0)
  = (if _cycle_count s' =? 4 then 1 else 0).
Proof.
  intros Hmax. unfold _check_events.
  destruct (_stopped_out s) eqn:Hso.
  { intros [= <- <-] _. tally. }
  intros Hstep [Hle Hlt]. specialize (Hlt eq_refl). revert Hstep.
  destruct (OrderBook.best_ask _ _) as [ask |]; [| intros [= <- <-]; tally].
  destruct (_in_trigger s) eqn:Hin; cbn [negb].
  - destruct (ask <=? 10).
    { destruct (_ && _); intros [= <- <-]; tally. }
    destruct (OrderBook.best_bid _ _) as [bid |]; [| intros [= <- <-]; tally].
    destruct (45 <=? bid); [| intros [= <- <-]; tally].
    destruct (_trigger_time s) as [t |]; [| done].
    destruct (sub now t <? td_seconds 2).
    + destruct (Z.eqb_spec (_cycle_count s) 4); [lia |].
      destruct (_ && _); intros [= <- <-]; tally_prep;
        destruct (Z.eqb_spec (_cycle_count s) 4); lia.
    + cbn [complete_cycle _cycle_count].
      destruct (Z.eqb_spec (_cycle_count s + 1) 4);
        destruct (_ && _); intros [= <- <-]; tally_prep;
        destruct (Z.eqb_spec (_cycle_count s) 4);
        destruct (Z.eqb_spec (_cycle_count s + 1) 4); lia.
  - destruct (_ <? td_seconds 30); [intros [= <- <-]; tally |].
    destruct (match _contract_start s with Some _ => _ | None => _ end);
      [intros [= <- <-]; tally |].
    destruct (ask <=? 40); intros [= <- <-]; tally.
Qed.

Lemma run_milestone c inputs : ∀ s s' evs,
  0 < max_cycles c ≤ 4 →
  run c inputs s = Ok (s', evs) →
  (_cycle_count s ≤ max_cycles c
   ∧ (_stopped_out s = false → _cycle_count s < max_cycles c)) →
  count is_milestone evs + (if _cycle_count s =? 4 then 1 else 0)
  = (if _cycle_count s' =? 4 then 1 else 0).
Proof.
  induction inputs as [| [p now] rest IH]; intros s s' evs Hmax; cbn [run].
  - intros [= <- <-] _. tally.
  - destruct (on_data c p now s) as [[s1 ev1] | e] eqn:H1; cbn; [| done].
    destruct (run c rest s1) as [[s2 ev2] | e] eqn:H2; cbn; [| done].
    intros [= <- <-] Hinv. unfold on_data in H1.
    assert (0 < max_cycles c) as Hpos by lia.
    pose proof (check_events_milestone c now (set_book _ s) _ _ Hmax H1 Hinv)
      as Hm1.
    pose proof (proj1 (check_events_cap c now (set_book _ s) _ _ Hpos H1 Hinv))
      as Hinv1.
    pose proof (IH _ _ _ Hmax H2 Hinv1) as Hm2.
    rewrite count_app. cbn [_cycle_count set_book] in Hm1. lia.
Qed.

(** X11. With the max-cycles setting between 1 and 4, a contract emits
    MILESTONE at most once: exactly once when its cycle counter has
    reached 4, and not at all otherwise. *)
Theorem milestone_once_under_cap c t0 s00 s0 inputs s evs :
  0 < max_cycles c ≤ 4 →
  _roll t0 s00 = Ok s0 →
  run c inputs s0 = Ok (s, evs) →
  count is_milestone evs = (if _cycle_count s =? 4 then 1 else 0).
Proof.
  intros Hmax Hroll Hrun.
  destruct (roll_counters _ _ _ Hroll) as (_ & Hso & Hc & _).
  pose proof (run_milestone c inputs s0 s evs Hmax Hrun) as H.
  rewrite Hc in H. cbn in H. rewrite Z.add_0_r in H. apply H. lia.
Qed.

Lemma milestone_once_under_cap_witness :
  let c := Config 0 4 0 in
  ∃ s evs,
    (0 < max_cycles c ≤ 4
     ∧ _roll (DT 2026 2 21 12 0 0 5) (init "yes") = Ok rolled_at_noon
     ∧ run c milestone_trace rolled_at_noon = Ok (s, evs))
    ∧ count is_milestone evs = (if _cycle_count s =? 4 then 1 else 0).
Proof.
  cbn zeta.
  destruct (run (Config 0 4 0) milestone_trace rolled_at_noon)
    as [[s evs] | e] eqn:Hrun.
  - exists s, evs. split.
    + split; [split; [reflexivity | discriminate] |].
      split; [exact roll_at_noon | reflexivity].
    + assert (0 < max_cycles (Config 0 4 0) ≤ 4) as Hmax
        by (split; [reflexivity | discriminate]).
      exact (milestone_once_under_cap (Config 0 4 0) _ _ _ _ _ _
               Hmax roll_at_noon Hrun).
  - exfalso. vm_compute in Hrun. discriminate Hrun.
Defined.

(** *** What each event means *)

Lemma stop_pnl_is_loss (ask : Z) :
  ask ≤ 10 → (10 * (inject_Z ask - 40) / 40 <= - (15 # 2))%Q.
Proof.
  intros H. rewrite Zle_Qle in H. change (inject_Z 10) with (10 # 1) in H.
  setoid_replace (10 * (inject_Z ask - 40) / 40)%Q
    with ((inject_Z ask - 40) * (1 # 4))%Q using relation Qeq by field.
  lra.
Qed.

Lemma target_pnl_is_gain (bid : Z) :
  45 ≤ bid → ((5 # 4) <= 10 * (inject_Z bid - 40) / 40)%Q.
Proof.
  intros H. rewrite Zle_Qle in H. change (inject_Z 45) with (45 # 1) in H.
  setoid_replace (10 * (inject_Z bid - 40) / 40)%Q
    with ((inject_Z bid - 40) * (1 # 4))%Q using relation Qeq by field.
  lra.
Qed.

(** X12. What an event says about the book update that emitted it. An
    ENTRY is emitted by an idle tracker at an ask of 40 or less, which it
    carries as its price, with no P&L. A STOP LOSS is emitted with a
    trigger open at an ask of 10 or less and carries a loss of at least
    7.5. A TARGET is only emitted while the ask is above 10 (the stop
    loss is tested first) and carries a gain of at least 1.25. A MILESTONE
    is only emitted when the cycle counter stands at 4. *)
Theorem events_and_their_causes c now s s' evs ev :
  _check_events c now s = Ok (s', evs) → ev ∈ evs →
  ∃ ask,
    OrderBook.best_ask (book s) (side s) = Some ask
    ∧ ev_time ev = now
    ∧ _stopped_out s = false
    ∧ match ev_label ev with
      | T40 =>
          _in_trigger s = false ∧ ask ≤ 40
          ∧ ev_price ev = Some ask ∧ ev_pnl ev = None
      | STOP_LOSS =>
          _in_trigger s = true ∧ ask ≤ 10 ∧ ev_price ev = Some ask
          ∧ ∃ q, ev_pnl ev = Some q ∧ (q <= - (15 # 2))%Q
      | TARGET n =>
          _in_trigger s = true ∧ 10 < ask
          ∧ ∃ q, ev_pnl ev = Some q ∧ ((5 # 4) <= q)%Q
      | MILESTONE =>
          _in_trigger s = true ∧ 10 < ask ∧ _cycle_count s' = 4
          ∧ ev_price ev = None ∧ ev_pnl ev = None
      end.
Proof.
  unfold _check_events.
  destruct (_stopped_out s); [by intros [= <- <-] ?%elem_of_nil |].
  destruct (OrderBook.best_ask _ _) as [ask |];
    [| by intros [= <- <-] ?%elem_of_nil].
  destruct (_in_trigger s) eqn:Htrig; cbn [negb].
  - destruct (Z.leb_spec ask 10) as [Hlow | Hhigh].
    { destruct (_ && _); intros [= <- <-] Hin;
        [by apply elem_of_nil in Hin |].
      apply list_elem_of_singleton in Hin. subst ev. exists ask.
      cbn. do 6 (split; [done |]). eexists. split; [reflexivity |].
      by apply stop_pnl_is_loss. }
    destruct (OrderBook.best_bid _ _) as [bid |];
      [| by intros [= <- <-] ?%elem_of_nil].
    destruct (Z.leb_spec 45 bid) as [Hbid | _];
      [| by intros [= <- <-] ?%elem_of_nil].
    destruct (_trigger_time s) as [t |]; [| done].
    destruct (sub now t <? td_seconds 2).
    + destruct (Z.eqb_spec (_cycle_count s) 4) as [Hfour | _];
        destruct (_ && _); intros [= <- <-] Hin; cbn in Hin;
        try (by apply elem_of_nil in Hin);
        apply list_elem_of_singleton in Hin; subst ev; exists ask;
        cbn; by repeat split.
    + cbn [complete_cycle _cycle_count].
      assert (∃ ask0 : Z,
                Some ask = Some ask0
                ∧ ev_time (_add_event_row (TARGET (_cycle_count s + 1)) now
                             bid (Some (sub now t))) = now
                ∧ false = false
                ∧ true = true ∧ 10 < ask0
                ∧ ∃ q, ev_pnl (_add_event_row (TARGET (_cycle_count s + 1))
                                 now bid (Some (sub now t))) = Some q
                       ∧ ((5 # 4) <= q)%Q) as Htarget.
      { exists ask. do 5 (split; [done |]). eexists.
        split; [reflexivity |]. by apply target_pnl_is_gain. }
      destruct (Z.eqb_spec (_cycle_count s + 1) 4) as [Hfour | _];
        destruct (_ && _); intros [= <- <-] Hin; cbn in Hin;
        repeat (apply elem_of_cons in Hin as [Hin | Hin]);
        try (by apply elem_of_nil in Hin); subst ev;
        try exact Htarget;
        exists ask; cbn; by repeat split.
  - destruct (_ <? td_seconds 30); [by intros [= <- <-] ?%elem_of_nil |].
    destruct (match _contract_start s with Some _ => _ | None => _ end);
      [by intros [= <- <-] ?%elem_of_nil |].
    destruct (Z.leb_spec ask 40) as [Hask | _];
      [| by intros [= <- <-] ?%elem_of_nil].
    intros [= <- <-] Hin. apply list_elem_of_singleton in Hin. subst ev.
    exists ask. cbn. by repeat split.
Qed.

Lemma events_and_their_causes_witness :
  let now := at_second 2 in
  let s := enter (at_second 1) 40
             (set_book
                (OrderBook.Book "KXBTC15M-26FEB211215-15"
                   {[45 := 100]} {[92 := 5]}) rolled_at_noon) in
  let ev := Event STOP_LOSS now (Some 8) None
              (Some (10 * (inject_Z 8 - 40) / 40)%Q) in
  (_check_events default_config now s = Ok (stop_out s, [ev]) ∧ ev ∈ [ev])
  ∧ ∃ ask,
      OrderBook.best_ask (book s) (side s) = Some ask
      ∧ ev_time ev = now
      ∧ _stopped_out s = false
      ∧ _in_trigger s = true ∧ ask ≤ 10 ∧ ev_price ev = Some ask
      ∧ ∃ q, ev_pnl ev = Some q ∧ (q <= - (15 # 2))%Q.
Proof.
  cbn zeta.
  assert (_check_events default_config (at_second 2)
            (enter (at_second 1) 40
               (set_book
                  (OrderBook.Book "KXBTC15M-26FEB211215-15"
                     {[45 := 100]} {[92 := 5]}) rolled_at_noon))
          = Ok (stop_out
                  (enter (at_second 1) 40
                     (set_book
                        (OrderBook.Book "KXBTC15M-26FEB211215-15"
                           {[45 := 100]} {[92 := 5]}) rolled_at_noon)),
                [Event STOP_LOSS (at_second 2) (Some 8) None
                   (Some (10 * (inject_Z 8 - 40) / 40)%Q)]))
    as Hstep by (vm_compute; reflexivity).
  split; [split; [exact Hstep | left] |].
  exact (events_and_their_causes _ _ _ _ _ _ Hstep (list_elem_of_here _ _)).
Defined.

End ContractFacts.

(* ====================================================================== *)
(** * Properties of the end of a contract and of the history tabs *)

Section HistoryFacts.

Import Datetime BTC15Frame Spec TrackerSpec Callbacks HistorySpec.

Implicit Types (c : config) (s : state) (now : datetime).

Lemma strftime_HMS_nonempty d : nonempty (strftime_HMS d) = true.
Proof. reflexivity. Qed.

Lemma compute_ticker_nonempty now tk exp :
  _compute now = Ok (tk, exp) → nonempty tk = true.
Proof.
  unfold _compute. cbn zeta.
  destruct (if 60 <=? _ then _ else _) as [e | err]; cbn; [| done].
  by intros [= <- _].
Qed.

Lemma roll_ticker_nonempty t0 s00 s0 :
  _roll t0 s00 = Ok s0 → nonempty (ticker s0) = true.
Proof.
  unfold _roll. destruct (_compute t0) as [[tk exp] | e] eqn:Hc; cbn; [| done].
  destruct (add exp _) as [start | e]; cbn; [| done]. intros [= <-]. cbn.
  by eapply compute_ticker_nonempty.
Qed.

Lemma check_events_ticker c now s s' evs :
  _check_events c now s = Ok (s', evs) →
  ticker s' = ticker s ∧ side s' = side s.
Proof.
  unfold _check_events.
  destruct (_stopped_out s); [by intros [= <- _] |].
  destruct (OrderBook.best_ask _ _) as [ask |]; [| by intros [= <- _]].
  destruct (_in_trigger s); cbn [negb].
  - destruct (ask <=? 10); [destruct (_ && _); by intros [= <- _] |].
    destruct (OrderBook.best_bid _ _) as [bid |]; [| by intros [= <- _]].
    destruct (45 <=? bid); [| by intros [= <- _]].
    destruct (_trigger_time s) as [t |]; [| done].
    destruct (sub now t <? td_seconds 2); destruct (_ && _);
      by intros [= <- _].
  - destruct (_ <? td_seconds 30); [by intros [= <- _] |].
    destruct (match _contract_start s with Some _ => _ | None => _ end);
      [by intros [= <- _] |].
    destruct (ask <=? 40); by intros [= <- _].
Qed.

Lemma run_ticker c inputs : ∀ s s' evs,
  run c inputs s = Ok (s', evs) → ticker s' = ticker s ∧ side s' = side s.
Proof.
  induction inputs as [| [p now] rest IH]; intros s s' evs; cbn [run].
  - by intros [= <- <-].
  - destruct (on_data c p now s) as [[s1 ev1] | e] eqn:H1; cbn; [| done].
    destruct (run c rest s1) as [[s2 ev2] | e] eqn:H2; cbn; [| done].
    intros [= <- <-]. destruct (IH _ _ _ H2) as [-> ->].
    unfold on_data in H1.
    exact (check_events_ticker c now (set_book _ s) _ _ H1).
Qed.

(** X13. At the end of a contract the two summaries written for it agree.
    The CONTRACT END row of the frame's log and the row of the history
    tab fall into the same one of the four classes (four cycles or more,
    some cycles, a trigger left open, no trigger), the row tags
    corresponding, and the history row shows the frame's side in upper
    case and its two counters in decimal. The history callback is made
    because the frame has a ticker. *)
Theorem end_summaries_agree c t0 s00 s0 inputs s evs now :
  _roll t0 s00 = Ok s0 →
  run c inputs s0 = Ok (s, evs) →
  ∃ row,
    (λ '(tk, sd, cy, st, ot), HistoryFrame.add_record now tk sd cy st ot)
      <$> contract_end_call s = Some row
    ∧ (roll_marker (cycle_data s)).1.2 = marker_tag (HistoryFrame.tag row)
    ∧ HistoryFrame.r_ticker row = ticker s0
    ∧ HistoryFrame.r_side row = upper (side s00)
    ∧ HistoryFrame.cycles row = pretty (count is_target evs)
    ∧ HistoryFrame.stops row = pretty (count is_stop_loss evs)
    ∧ ((roll_marker (cycle_data s)).2 = "NO TRIG"%string
       ↔ HistoryFrame.result row
         = ("no trigger" ++ stop_suffix (_stop_loss_count s))%string).
Proof.
  intros Hroll Hrun.
  pose proof (roll_ticker_nonempty _ _ _ Hroll) as Htk.
  destruct (run_ticker _ _ _ _ _ Hrun) as [Htk' Hsd'].
  destruct (roll_counters _ _ _ Hroll) as (_ & _ & Hc0 & Hs0 & Hsd0 & _).
  destruct (run_counts _ _ _ _ _ Hrun) as (Hc & Hs & _).
  assert (tracker_inv c s) as [Htrig _]
    by (eapply run_inv; [by eapply roll_inv | exact Hrun]).
  unfold contract_end_call. rewrite Htk', Htk.
  eexists. split; [reflexivity |].
  unfold HistoryFrame.add_record, roll_marker, cycle_data, open_trig_str,
    marker_tag.
  assert (_cycle_count s = count is_target evs) as Hcy by lia.
  assert (_stop_loss_count s = count is_stop_loss evs) as Hst by lia.
  destruct (Z.leb_spec 4 (_cycle_count s)).
  { cbn. rewrite Hcy, Hst, Hsd', Hsd0. do 5 (split; [done |]).
    split; intros Hd; exfalso; cbn [String.append] in Hd; discriminate Hd. }
  destruct (Z.ltb_spec 0 (_cycle_count s)).
  { cbn. rewrite Hsd', Hsd0. rewrite <- Hcy, <- Hst. do 5 (split; [done |]).
    assert (_cycle_count s = 1 ∨ _cycle_count s = 2 ∨ _cycle_count s = 3)
      as [-> | [-> | ->]] by lia;
      (split; intros Hd; exfalso; vm_compute in Hd; discriminate Hd). }
  destruct (_in_trigger s) eqn:Hin.
  - destruct (Htrig eq_refl) as [_ [t Ht]]. rewrite Ht.
    cbn [fmap option_fmap option_map default].
    rewrite ?strftime_HMS_nonempty.
    cbn. rewrite Hsd', Hsd0. rewrite <- Hcy, <- Hst. do 5 (split; [done |]).
    split; intros Hd; exfalso; cbn [String.append] in Hd; discriminate Hd.
  - cbn. rewrite Hsd', Hsd0. rewrite <- Hcy, <- Hst. by repeat split.
Qed.

Lemma end_summaries_agree_witness :
  let now := DT 2026 2 21 12 15 1 0 in
  ∃ s evs row,
    (_roll (DT 2026 2 21 12 0 0 5) (init "yes") = Ok rolled_at_noon
     ∧ run default_config milestone_trace rolled_at_noon = Ok (s, evs))
    ∧ (λ '(tk, sd, cy, st, ot), HistoryFrame.add_record now tk sd cy st ot)
        <$> contract_end_call s = Some row
    ∧ (roll_marker (cycle_data s)).1.2 = marker_tag (HistoryFrame.tag row)
    ∧ HistoryFrame.r_ticker row = ticker rolled_at_noon
    ∧ HistoryFrame.r_side row = upper (side (init "yes"))
    ∧ HistoryFrame.cycles row = pretty (count is_target evs)
    ∧ HistoryFrame.stops row = pretty (count is_stop_loss evs)
    ∧ ((roll_marker (cycle_data s)).2 = "NO TRIG"%string
       ↔ HistoryFrame.result row
         = ("no trigger" ++ stop_suffix (_stop_loss_count s))%string).
Proof.
  cbn zeta.
  assert (_roll (DT 2026 2 21 12 0 0 5) (init "yes") = Ok rolled_at_noon)
    as Hroll by (vm_compute; reflexivity).
  destruct (run default_config milestone_trace rolled_at_noon)
    as [[s evs] | e] eqn:Hrun.
  - destruct (end_summaries_agree default_config _ _ _ _ _ _
                (DT 2026 2 21 12 15 1 0) Hroll Hrun) as [row Hrow].
    exists s, evs, row. split; [split; [exact Hroll | reflexivity] |].
    exact Hrow.
  - exfalso. vm_compute in Hrun. discriminate Hrun.
Defined.

(** X14. A contract during which the ask never comes down to 40 is
    reported as one without a trigger: the history callback receives the
    counters 0 and 0 and no open trigger, the history row reads
    "no trigger" with the tag "neutral", and the CONTRACT END row of the
    log is labelled "NO TRIG". *)
Theorem quiet_contract_reports_no_trigger c t0 s00 s0 inputs now :
  _roll t0 s00 = Ok s0 →
  never_at_entry (asks_seen (side s0) inputs (book s0)) →
  ∃ s,
    run c inputs s0 = Ok (s, [])
    ∧ contract_end_call s = Some (ticker s0, side s00, 0, 0, false)
    ∧ HistoryFrame.result
        (HistoryFrame.add_record now (ticker s0) (side s00) 0 0 false)
      = "no trigger"%string
    ∧ HistoryFrame.tag
        (HistoryFrame.add_record now (ticker s0) (side s00) 0 0 false)
      = "neutral"%string
    ∧ roll_marker (cycle_data s)
      = ("ask never reached ≤40"%string, "roll"%string, "NO TRIG"%string).
Proof.
  intros Hroll Hquiet.
  pose proof (roll_ticker_nonempty _ _ _ Hroll) as Htk.
  destruct (roll_counters _ _ _ Hroll) as (Hin & Hso & Hc & Hs & Hsd & _).
  destruct (quiet_run c inputs s0 Hin Hso Hquiet)
    as (s & Hrun & Hin' & _ & Hc' & Hs' & _ & Htk' & Hsd' & _).
  exists s. split; [exact Hrun |].
  unfold contract_end_call, cycle_data, open_trig_str.
  rewrite Htk', Htk, Hin', Hc', Hs', Hc, Hs, Hsd', Hsd.
  by repeat split.
Qed.

Lemma quiet_contract_reports_no_trigger_witness :
  let inputs :=
    [(Snapshot (OrderBook.SnapshotMsg (Some [(30, 100)]) (Some [(55, 50)])),
      at_second 1);
     (Delta (OrderBook.DeltaMsg "no" 58 10), at_second 2)] in
  let now := DT 2026 2 21 12 15 1 0 in
  (_roll (DT 2026 2 21 12 0 0 5) (init "yes") = Ok rolled_at_noon
   ∧ never_at_entry
       (asks_seen (side rolled_at_noon) inputs (book rolled_at_noon)))
  ∧ ∃ s,
      run default_config inputs rolled_at_noon = Ok (s, [])
      ∧ contract_end_call s
        = Some (ticker rolled_at_noon, side (init "yes"), 0, 0, false)
      ∧ HistoryFrame.result
          (HistoryFrame.add_record now (ticker rolled_at_noon)
             (side (init "yes")) 0 0 false)
        = "no trigger"%string
      ∧ HistoryFrame.tag
          (HistoryFrame.add_record now (ticker rolled_at_noon)
             (side (init "yes")) 0 0 false)
        = "neutral"%string
      ∧ roll_marker (cycle_data s)
        = ("ask never reached ≤40"%string, "roll"%string, "NO TRIG"%string).
Proof.
  cbn zeta.
  assert (_roll (DT 2026 2 21 12 0 0 5) (init "yes") = Ok rolled_at_noon)
    as Hroll by (vm_compute; reflexivity).
  assert (never_at_entry
            (asks_seen (side rolled_at_noon)
               [(Snapshot (OrderBook.SnapshotMsg (Some [(30, 100)])
                             (Some [(55, 50)])), at_second 1);
                (Delta (OrderBook.DeltaMsg "no" 58 10), at_second 2)]
               (book rolled_at_noon))) as Hquiet.
  { repeat (apply Forall_cons; split;
            [intros k Hk; vm_compute in Hk; injection Hk as <-; reflexivity |]).
    apply Forall_nil. done. }
  split; [split; [exact Hroll | exact Hquiet] |].
  exact (quiet_contract_reports_no_trigger default_config _ _ _ _
           (DT 2026 2 21 12 15 1 0) Hroll Hquiet).
Defined.

(** *** The trade history *)

Import TradeHistoryFrame.

Lemma count_cons kind ev evs :
  count kind (ev :: evs) = tick kind (ev_label ev) + count kind evs.
Proof.
  unfold count, labels, tick. cbn [map List.filter].
  destruct (kind (ev_label ev)); cbn [length]; lia.
Qed.

(** Brings the keys of the counters to literal form. *)
Ltac literal_keys :=
  repeat match goal with
  | |- context [String.append ?a ?b] =>
      let r := eval vm_compute in (String.append a b) in
      change (String.append a b) with r
  | H : context [String.append ?a ?b] |- _ =>
      let r := eval vm_compute in (String.append a b) in
      change (String.append a b) with r in H
  end.

Lemma tallies_lookup side h na nb nc nd :
  tallies side h = Some (na, nb, nc, nd) ↔
  _stats h !! ("cycles_" ++ side)%string = Some na
  ∧ _stats h !! ("stops_" ++ side)%string = Some nb
  ∧ _stats h !! ("triggers_" ++ side)%string = Some nc
  ∧ _stats h !! ("milestones_" ++ side)%string = Some nd.
Proof.
  unfold tallies. split.
  - destruct (_stats h !! ("cycles_" ++ side)%string); cbn; [| done].
    destruct (_stats h !! ("stops_" ++ side)%string); cbn; [| done].
    destruct (_stats h !! ("triggers_" ++ side)%string); cbn; [| done].
    destruct (_stats h !! ("milestones_" ++ side)%string); cbn; [| done].
    by intros [= -> -> -> ->].
  - by intros (-> & -> & -> & ->).
Qed.

Lemma add_event_tallies side l pnl h na nb nc nd :
  known_side side →
  tallies side h = Some (na, nb, nc, nd) →
  ∃ h',
    add_event side (label_str l) pnl h = Some h'
    ∧ tallies side h'
      = Some (na + tick is_target l, nb + tick is_stop_loss l,
              nc + tick is_entry l, nd + tick is_milestone l)
    ∧ tallies (other_side side) h' = tallies (other_side side) h
    ∧ _stats h' !! "contracts_yes"%string = _stats h !! "contracts_yes"%string
    ∧ _stats h' !! "contracts_no"%string = _stats h !! "contracts_no"%string
    ∧ _cumulative_pnl h'
      = match pnl with
        | Some v => (_cumulative_pnl h + v)%Q
        | None => _cumulative_pnl h
        end.
Proof.
  intros Hside Htal. apply tallies_lookup in Htal as (Ha & Hb & Hc & Hd).
  assert (String.prefix "TARGET" (label_str l) = is_target l) as Hpre
    by (by destruct l).
  assert (String.eqb (label_str l) "STOP LOSS" = is_stop_loss l) as Hstop
    by (by destruct l).
  assert (String.eqb (label_str l) "T40" = is_entry l) as Hentry
    by (by destruct l).
  assert (String.eqb (label_str l) "MILESTONE" = is_milestone l) as Hmile
    by (by destruct l).
  unfold add_event. rewrite Hpre, Hstop, Hentry, Hmile. unfold bump, tick.
  destruct Hside as [-> | ->]; unfold other_side;
    cbn [String.eqb Ascii.eqb Bool.eqb]; cbn beta iota;
    destruct l; cbn [is_target is_stop_loss is_entry is_milestone];
    rewrite ?Ha, ?Hb, ?Hc, ?Hd; cbn [mbind option_bind];
    (eexists; split; [reflexivity |]);
    cbn [_stats _cumulative_pnl];
    (split; [apply tallies_lookup; literal_keys |]);
    literal_keys; unfold tallies; cbn [_stats]; literal_keys;
    rewrite ?lookup_insert_eq, ?lookup_insert_ne by done;
    literal_keys; rewrite ?Ha, ?Hb, ?Hc, ?Hd;
    repeat split; try done; f_equal; lia.
Qed.

Lemma deliver_tallies side evs : ∀ h na nb nc nd,
  known_side side →
  tallies side h = Some (na, nb, nc, nd) →
  ∃ h',
    deliver side evs h = Some h'
    ∧ tallies side h'
      = Some (na + count is_target evs, nb + count is_stop_loss evs,
              nc + count is_entry evs, nd + count is_milestone evs)
    ∧ tallies (other_side side) h' = tallies (other_side side) h
    ∧ _stats h' !! "contracts_yes"%string = _stats h !! "contracts_yes"%string
    ∧ _stats h' !! "contracts_no"%string = _stats h !! "contracts_no"%string
    ∧ (_cumulative_pnl h' == _cumulative_pnl h + total_pnl evs)%Q.
Proof.
  induction evs as [| ev evs IH]; intros h na nb nc nd Hside Htal.
  - exists h. cbn [deliver]. split; [done |]. split.
    + rewrite Htal. unfold count, labels. cbn [map List.filter length].
      change (Z.of_nat 0) with 0. by rewrite !Z.add_0_r.
    + do 3 (split; [done |]). cbn [total_pnl fold_right]. ring.
  - destruct (add_event_tallies side (ev_label ev) (ev_pnl ev) h
                na nb nc nd Hside Htal)
      as (h1 & Hadd & Htal1 & Hother1 & Hcy1 & Hcn1 & Hpnl1).
    destruct (IH h1 _ _ _ _ Hside Htal1)
      as (h' & Hdel & Htal' & Hother' & Hcy' & Hcn' & Hpnl').
    exists h'. cbn [deliver]. rewrite Hadd. cbn [mbind option_bind].
    split; [exact Hdel |]. split.
    + rewrite Htal', !count_cons. by rewrite !Z.add_assoc.
    + split; [congruence |]. split; [congruence |]. split; [congruence |].
      rewrite Hpnl', Hpnl1. unfold total_pnl. cbn [fold_right].
      destruct (ev_pnl ev); ring.
Qed.

(** X15. The counters of the trade history follow the frame. When the
    events of a contract of a yes or no frame are handed to a fresh trade
    history, its cycle and stop counters for that side equal the frame's
    cycle and stop counters, its trigger counter equals their sum plus one
    for a trigger still open, its running P&L is the sum of the P&L values
    of the events, and the counters of the other side stay at 0. *)
Theorem trade_history_follows_frame c t0 s00 s0 inputs s evs :
  known_side (side s00) →
  _roll t0 s00 = Ok s0 →
  run c inputs s0 = Ok (s, evs) →
  ∃ h,
    deliver (side s) evs TradeHistoryFrame.init = Some h
    ∧ tallies (side s) h
      = Some (_cycle_count s, _stop_loss_count s,
              _cycle_count s + _stop_loss_count s + open_count s,
              count is_milestone evs)
    ∧ tallies (other_side (side s)) h = Some (0, 0, 0, 0)
    ∧ (_cumulative_pnl h == total_pnl evs)%Q.
Proof.
  intros Hside Hroll Hrun.
  destruct (roll_counters _ _ _ Hroll) as (Hin & _ & Hc0 & Hs0 & Hsd0 & _).
  destruct (run_ticker _ _ _ _ _ Hrun) as [_ Hsd].
  destruct (run_counts _ _ _ _ _ Hrun) as (Hc & Hs & Hb & _).
  unfold open_count in Hb at 1. rewrite Hin in Hb.
  rewrite Hsd, Hsd0.
  assert (tallies (side s00) TradeHistoryFrame.init = Some (0, 0, 0, 0)
          ∧ tallies (other_side (side s00)) TradeHistoryFrame.init
            = Some (0, 0, 0, 0)) as [Hinit Hinit'].
  { destruct Hside as [-> | ->]; split; reflexivity. }
  destruct (deliver_tallies (side s00) evs _ _ _ _ _ Hside Hinit)
    as (h & Hdel & Htal & Hother & _ & _ & Hpnl).
  exists h. split; [exact Hdel |]. split.
  - rewrite Htal, !Z.add_0_l.
    assert (count is_entry evs
            = _cycle_count s + _stop_loss_count s + open_count s) as -> by lia.
    assert (count is_target evs = _cycle_count s) as -> by lia.
    assert (count is_stop_loss evs = _stop_loss_count s) as -> by lia.
    done.
  - split; [congruence |]. rewrite Hpnl.
    cbn [TradeHistoryFrame.init _cumulative_pnl]. ring.
Qed.

Lemma trade_history_follows_frame_witness :
  ∃ s evs h,
    (known_side (side (BTC15Frame.init "yes"))
     ∧ _roll (DT 2026 2 21 12 0 0 5) (BTC15Frame.init "yes") = Ok rolled_at_noon
     ∧ run default_config milestone_trace rolled_at_noon = Ok (s, evs))
    ∧ deliver (side s) evs TradeHistoryFrame.init = Some h
    ∧ tallies (side s) h
      = Some (_cycle_count s, _stop_loss_count s,
              _cycle_count s + _stop_loss_count s + open_count s,
              count is_milestone evs)
    ∧ tallies (other_side (side s)) h = Some (0, 0, 0, 0)
    ∧ (_cumulative_pnl h == total_pnl evs)%Q.
Proof.
  assert (known_side (side (BTC15Frame.init "yes"))) as Hside by (by left).
  assert (_roll (DT 2026 2 21 12 0 0 5) (BTC15Frame.init "yes") = Ok rolled_at_noon)
    as Hroll by (vm_compute; reflexivity).
  destruct (run default_config milestone_trace rolled_at_noon)
    as [[s evs] | e] eqn:Hrun.
  - destruct (trade_history_follows_frame default_config _ _ _ _ _ _
                Hside Hroll Hrun) as [h Hh].
    exists s, evs, h.
    split; [split; [exact Hside | split; [exact Hroll | reflexivity]] |].
    exact Hh.
  - exfalso. vm_compute in Hrun. discriminate Hrun.
Defined.

Lemma init_key_missing pre side :
  ¬ known_side side →
  pre = "cycles_"%string ∨ pre = "stops_"%string
  ∨ pre = "triggers_"%string ∨ pre = "milestones_"%string
  ∨ pre = "contracts_"%string →
  _stats TradeHistoryFrame.init !! (pre ++ side)%string = None.
Proof.
  intros Hside Hpre. unfold known_side in Hside.
  unfold TradeHistoryFrame.init. cbn [_stats].
  apply not_elem_of_list_to_map_1. cbn [fmap list_fmap fst].
  rewrite !not_elem_of_cons.
  destruct Hpre as [-> | [-> | [-> | [-> | ->]]]];
    repeat split; try apply not_elem_of_nil;
    intros Heq; vm_compute in Heq; simplify_eq;
    apply Hside; auto.
Qed.

(** X16. The trade history only knows the sides "yes" and "no". For a
    frame created with any other side string the first event handed over,
    whatever its label, fails with a KeyError on the side's counter, and
    so does the end of a contract. *)
Theorem trade_history_rejects_unknown_side side l pnl evs :
  ¬ known_side side →
  add_event side (label_str l) pnl TradeHistoryFrame.init = None
  ∧ deliver side (Event l (DT 2026 1 1 0 0 0 0) None None pnl :: evs)
      TradeHistoryFrame.init = None
  ∧ add_contract_end side TradeHistoryFrame.init = None.
Proof.
  intros Hside.
  assert (add_event side (label_str l) pnl TradeHistoryFrame.init = None)
    as Hadd.
  { unfold add_event, bump.
    destruct l; cbn -[TradeHistoryFrame.init String.append];
      rewrite init_key_missing by (done || tauto); reflexivity. }
  split; [exact Hadd |]. split.
  - cbn [deliver ev_label ev_pnl]. by rewrite Hadd.
  - unfold add_contract_end, bump.
    rewrite init_key_missing by (done || tauto). reflexivity.
Qed.

Lemma trade_history_rejects_unknown_side_witness :
  ¬ known_side "maybe"
  ∧ add_event "maybe" (label_str T40) None TradeHistoryFrame.init = None
  ∧ add_contract_end "maybe" TradeHistoryFrame.init = None.
Proof.
  assert (¬ known_side "maybe") as Hside
    by (intros [H | H]; discriminate H).
  split; [exact Hside |].
  destruct (trade_history_rejects_unknown_side "maybe" T40 None [] Hside)
    as (Ha & _ & Hc).
  split; [exact Ha | exact Hc].
Defined.

(** *** The P&L of a contract *)

Lemma check_events_pnl c now s s' evs :
  _check_events c now s = Ok (s', evs) → Forall pnl_by_kind evs.
Proof.
  unfold _check_events.
  destruct (_stopped_out s); [by intros [= <- <-] |].
  destruct (OrderBook.best_ask _ _) as [ask |]; [| by intros [= <- <-]].
  destruct (_in_trigger s); cbn [negb].
  - destruct (Z.leb_spec ask 10) as [Hlow | _].
    { destruct (_ && _); intros [= <- <-]; [done |].
      apply Forall_singleton. eexists. split; [reflexivity |].
      by apply stop_pnl_is_loss. }
    destruct (OrderBook.best_bid _ _) as [bid |]; [| by intros [= <- <-]].
    destruct (Z.leb_spec 45 bid) as [Hbid | _]; [| by intros [= <- <-]].
    destruct (_trigger_time s) as [t |]; [| done].
    destruct (sub now t <? td_seconds 2).
    + destruct (_cycle_count s =? 4); destruct (_ && _);
        intros [= <- <-]; cbn [app]; by repeat constructor.
    + cbn [complete_cycle _cycle_count].
      assert (pnl_by_kind (_add_event_row (TARGET (_cycle_count s + 1)) now
                             bid (Some (sub now t)))) as Htarget.
      { eexists. split; [reflexivity |]. by apply target_pnl_is_gain. }
      destruct (_cycle_count s + 1 =? 4); destruct (_ && _);
        intros [= <- <-]; cbn [app]; by repeat constructor.
  - destruct (_ <? td_seconds 30); [by intros [= <- <-] |].
    destruct (match _contract_start s with Some _ => _ | None => _ end);
      [by intros [= <- <-] |].
    destruct (ask <=? 40); intros [= <- <-]; by repeat constructor.
Qed.

Lemma run_pnl c inputs : ∀ s s' evs,
  run c inputs s = Ok (s', evs) → Forall pnl_by_kind evs.
Proof.
  induction inputs as [| [p now] rest IH]; intros s s' evs; cbn [run].
  - by intros [= <- <-].
  - destruct (on_data c p now s) as [[s1 ev1] | e] eqn:H1; cbn; [| done].
    destruct (run c rest s1) as [[s2 ev2] | e] eqn:H2; cbn; [| done].
    intros [= <- <-]. apply Forall_app. split.
    + unfold on_data in H1. by eapply check_events_pnl.
    + by eapply IH.
Qed.

Lemma pnl_lower_bound evs :
  Forall pnl_by_kind evs → count is_stop_loss evs = 0 →
  ((5 # 4) * inject_Z (count is_target evs) <= total_pnl evs)%Q.
Proof.
  induction 1 as [| ev evs Hev Hevs IH]; intros Hstop.
  - cbn. by unfold Qle.
  - rewrite count_cons in Hstop |- *.
    pose proof (count_nonneg is_stop_loss evs).
    unfold total_pnl. cbn [fold_right]. fold (total_pnl evs).
    unfold pnl_by_kind in Hev. unfold tick in *.
    destruct (ev_label ev); cbn [is_target is_stop_loss] in *.
    + rewrite Hev. rewrite Z.add_0_l. apply IH. lia.
    + destruct Hev as (q & -> & Hq). specialize (IH ltac:(lia)).
      rewrite inject_Z_plus. change (inject_Z 1) with 1%Q. lra.
    + lia.
    + rewrite Hev. rewrite Z.add_0_l. apply IH. lia.
Qed.

(** X17. A contract without a stop loss never shows a loss: the P&L
    values of its events add up to at least 1.25 for every completed
    cycle. When the contract has its stop loss, the STOP LOSS event alone
    carries a loss of at least 7.5. *)
Theorem contract_pnl_bounds c t0 s00 s0 inputs s evs :
  _roll t0 s00 = Ok s0 →
  run c inputs s0 = Ok (s, evs) →
  (_stop_loss_count s = 0 →
   ((5 # 4) * inject_Z (_cycle_count s) <= total_pnl evs)%Q)
  ∧ (∀ ev, ev ∈ evs → ev_label ev = STOP_LOSS →
       ∃ q, ev_pnl ev = Some q ∧ (q <= - (15 # 2))%Q).
Proof.
  intros Hroll Hrun.
  destruct (roll_counters _ _ _ Hroll) as (_ & _ & Hc0 & Hs0 & _).
  destruct (run_counts _ _ _ _ _ Hrun) as (Hc & Hs & _).
  pose proof (run_pnl _ _ _ _ _ Hrun) as Hall.
  split.
  - intros Hnone.
    assert (_cycle_count s = count is_target evs) as -> by lia.
    apply pnl_lower_bound; [done | lia].
  - intros ev Hin Hl. rewrite Forall_forall in Hall.
    specialize (Hall ev Hin). unfold pnl_by_kind in Hall.
    by rewrite Hl in Hall.
Qed.

Lemma contract_pnl_bounds_witness :
  ∃ s evs,
    (_roll (DT 2026 2 21 12 0 0 5) (BTC15Frame.init "yes") = Ok rolled_at_noon
     ∧ run default_config milestone_trace rolled_at_noon = Ok (s, evs))
    ∧ (_stop_loss_count s = 0 →
       ((5 # 4) * inject_Z (_cycle_count s) <= total_pnl evs)%Q)
    ∧ (∀ ev, ev ∈ evs → ev_label ev = STOP_LOSS →
         ∃ q, ev_pnl ev = Some q ∧ (q <= - (15 # 2))%Q).
Proof.
  assert (_roll (DT 2026 2 21 12 0 0 5) (BTC15Frame.init "yes")
          = Ok rolled_at_noon) as Hroll by (vm_compute; reflexivity).
  destruct (run default_config milestone_trace rolled_at_noon)
    as [[s evs] | e] eqn:Hrun.
  - exists s, evs. split; [split; [exact Hroll | reflexivity] |].
    exact (contract_pnl_bounds default_config _ _ _ _ _ _ Hroll Hrun).
  - exfalso. vm_compute in Hrun. discriminate Hrun.
Defined.

End HistoryFacts.

(* ====================================================================== *)
(** * Further properties of the calendar and of the scheduler *)

Section CalendarOrder.

Import Datetime BTC15Frame Spec Timers.

Implicit Types (d a b now exp : datetime).

(** Evaluates the month tables at literal months. *)
Ltac month_tables :=
  repeat match goal with
  | |- context [nth ?n ?l ?d] =>
      let r := eval vm_compute in (nth n l d) in
      change (nth n l d) with r
  | |- context [andb ?x ?y] =>
      let r := eval vm_compute in (andb x y) in
      change (andb x y) with r
  end;
  cbn beta iota.

Lemma days_before_year_mono y1 y2 :
  y1 ≤ y2 → days_before_year y1 ≤ days_before_year y2.
Proof.
  intros Hy. unfold days_before_year. cbn zeta. Z.div_mod_to_equations. lia.
Qed.

Lemma day_of_year_bounds d :
  valid d = true →
  1 ≤ days_before_month (year d) (month d) + day d
    ≤ 365 + (if is_leap (year d) then 1 else 0).
Proof.
  rewrite valid_fields. intros (_ & Hm & Hd & _). revert Hd.
  unfold days_before_month, days_in_month.
  destruct (month_cases _ Hm) as
    [-> | [-> | [-> | [-> | [-> | [-> | [-> | [-> | [-> | [-> | [-> | ->]]]]]]]]]]];
    destruct (is_leap (year d)); month_tables; lia.
Qed.

Lemma days_before_month_mono y m1 m2 :
  1 ≤ m1 → m1 < m2 → m2 ≤ 12 →
  days_before_month y m1 + days_in_month y m1 ≤ days_before_month y m2.
Proof.
  intros H1 Hlt H2.
  assert (1 ≤ m1 ≤ 12) as Hm1 by lia. assert (1 ≤ m2 ≤ 12) as Hm2 by lia.
  unfold days_before_month, days_in_month.
  destruct (month_cases _ Hm1) as
    [-> | [-> | [-> | [-> | [-> | [-> | [-> | [-> | [-> | [-> | [-> | ->]]]]]]]]]]];
    destruct (month_cases _ Hm2) as
    [-> | [-> | [-> | [-> | [-> | [-> | [-> | [-> | [-> | [-> | [-> | ->]]]]]]]]]]];
    try lia; destruct (is_leap y); month_tables; lia.
Qed.

(** Two valid datetimes with the same ordinal have the same date. *)
Lemma toordinal_inj a b :
  valid a = true → valid b = true → toordinal a = toordinal b →
  year a = year b ∧ month a = month b ∧ day a = day b.
Proof.
  intros Ha Hb Heq.
  pose proof (day_of_year_bounds a Ha) as Hda.
  pose proof (day_of_year_bounds b Hb) as Hdb.
  rewrite valid_fields in Ha, Hb.
  destruct Ha as (_ & Hma & Hdda & _). destruct Hb as (_ & Hmb & Hddb & _).
  unfold toordinal in Heq.
  assert (year a = year b) as Hy.
  { destruct (Z.lt_trichotomy (year a) (year b)) as [Hlt | [Heqy | Hgt]];
      [| done |].
    - pose proof (days_before_next_year (year a)).
      pose proof (days_before_year_mono (year a + 1) (year b) ltac:(lia)).
      lia.
    - pose proof (days_before_next_year (year b)).
      pose proof (days_before_year_mono (year b + 1) (year a) ltac:(lia)).
      lia. }
  rewrite Hy in *.
  assert (month a = month b) as Hm.
  { destruct (Z.lt_trichotomy (month a) (month b)) as [Hlt | [Heqm | Hgt]];
      [| done |].
    - pose proof (days_before_month_mono (year b) (month a) (month b)
                    ltac:(lia) Hlt ltac:(lia)). lia.
    - pose proof (days_before_month_mono (year b) (month b) (month a)
                    ltac:(lia) Hgt ltac:(lia)). lia. }
  rewrite Hm in *. repeat split; lia.
Qed.

Lemma time_of_day_inj a b :
  valid a = true → valid b = true → time_of_day a = time_of_day b →
  hour a = hour b ∧ minute a = minute b ∧ second a = second b
  ∧ microsecond a = microsecond b.
Proof.
  rewrite !valid_fields. unfold time_of_day, US_PER_SECOND.
  intros (_ & _ & _ & Hha & Hma & Hsa & Hua) (_ & _ & _ & Hhb & Hmb & Hsb & Hub).
  intros Heq.
  assert (microsecond a = microsecond b) as Hu by lia.
  assert (second a = second b) as Hs by lia.
  assert (minute a = minute b) as Hm by lia.
  repeat split; lia.
Qed.

(** Valid datetimes that are no time apart are the same datetime. *)
Lemma sub_zero_eq a b :
  valid a = true → valid b = true → sub a b = 0 → a = b.
Proof.
  intros Ha Hb Hsub.
  pose proof (time_of_day_bounds a Ha). pose proof (time_of_day_bounds b Hb).
  unfold sub in Hsub.
  assert (toordinal a = toordinal b) as Hord
    by (unfold US_PER_DAY, US_PER_SECOND in *; lia).
  assert (time_of_day a = time_of_day b) as Htod
    by (rewrite Hord in Hsub; lia).
  destruct (toordinal_inj a b Ha Hb Hord) as (Hy & Hm & Hd).
  destruct (time_of_day_inj a b Ha Hb Htod) as (Hh & Hmi & Hs & Hu).
  destruct a, b; cbn in *; congruence.
Qed.

(** The quarter-hour boundaries: second and microsecond zero, minute a
    multiple of 15. Two of them are a multiple of 15 minutes apart. *)
Lemma boundary_sub_multiple a b :
  second a = 0 → microsecond a = 0 → minute a mod 15 = 0 →
  second b = 0 → microsecond b = 0 → minute b mod 15 = 0 →
  ∃ k, sub a b = k * td_minutes 15.
Proof.
  intros Hsa Hua Hma Hsb Hub Hmb.
  exists ((toordinal a - toordinal b) * 96
          + (hour a * 4 + minute a / 15) - (hour b * 4 + minute b / 15)).
  unfold sub, time_of_day, td_minutes, US_PER_DAY, US_PER_SECOND.
  rewrite Hsa, Hua, Hsb, Hub. Z.div_mod_to_equations. lia.
Qed.

End CalendarOrder.

Section SchedulerOrder.

Import Datetime BTC15Frame Spec Timers.

Implicit Types (d a b now exp : datetime) (s : state).

Lemma toordinal_max d : valid d = true → toordinal d ≤ 3652059.
Proof.
  intros Hv. pose proof (day_of_year_bounds d Hv) as Hd.
  rewrite valid_fields in Hv. destruct Hv as (Hy & _).
  unfold MINYEAR, MAXYEAR in Hy.
  pose proof (days_before_next_year (year d)).
  pose proof (days_before_year_mono (year d + 1) 10000 ltac:(lia)) as Hmono.
  change (days_before_year 10000) with 3652059 in Hmono.
  unfold toordinal. lia.
Qed.

(** No quarter-hour boundary lies after the last quarter of an hour of
    year 9999. *)
Lemma before_boundary_not_last now exp :
  valid now = true → valid exp = true →
  second exp = 0 → microsecond exp = 0 → minute exp mod 15 = 0 →
  0 < sub exp now → last_quarter_hour now = false.
Proof.
  intros Hvn Hve Hs Hus Hm Hlt.
  destruct (last_quarter_hour now) eqn:Hlast; [exfalso | done].
  unfold last_quarter_hour in Hlast.
  rewrite !andb_true_iff, !Z.eqb_eq, Z.leb_le in Hlast.
  destruct Hlast as ((((Hy & Hmo) & Hd) & Hh) & Hmi).
  pose proof (toordinal_max exp Hve) as Hmax.
  assert (toordinal now = 3652059) as Hord
    by (unfold toordinal; rewrite Hy, Hmo, Hd; reflexivity).
  rewrite valid_fields in Hvn, Hve.
  destruct Hvn as (_ & _ & _ & _ & Hmin & Hsn & Hun).
  destruct Hve as (_ & _ & _ & Hhe & Hme & _).
  unfold sub, time_of_day, US_PER_DAY, US_PER_SECOND in Hlt.
  rewrite Hs, Hus, Hh, Hord in Hlt.
  Z.div_mod_to_equations. nia.
Qed.

(** What [_roll] leaves in the frame. *)
Lemma roll_spec now s :
  valid now = true → last_quarter_hour now = false →
  ∃ tk exp start s',
    _compute now = Ok (tk, exp)
    ∧ _roll now s = Ok s'
    ∧ ticker s' = tk ∧ expiry s' = Some exp
    ∧ _contract_start s' = Some start
    ∧ valid exp = true ∧ valid start = true
    ∧ 0 < sub exp now ≤ td_minutes 15
    ∧ sub exp start = td_minutes 15
    ∧ second exp = 0 ∧ microsecond exp = 0 ∧ minute exp mod 15 = 0
    ∧ second start = 0 ∧ microsecond start = 0 ∧ minute start mod 15 = 0.
Proof.
  intros Hv Hlast.
  destruct (expiry_spec now Hv Hlast)
    as (exp & Hexp & Hve & Hsub & Hmin & Hsec & Hus & _).
  destruct (compute_of_expiry now exp Hexp) as [tk Hc].
  assert (minute exp mod 15 = 0) as Hm15
    by (rewrite Hmin; Z.div_mod_to_equations; lia).
  destruct (start_total now exp Hv Hve) as [start Hst]; try done; [lia |].
  destruct (add_spec exp _ start Hve Hst) as [Hvs Hss].
  exists tk, exp, start. eexists.
  split; [exact Hc |]. split.
  { unfold _roll. rewrite Hc. cbn [mbind result_bind]. rewrite Hst.
    cbn [mbind result_bind]. reflexivity. }
  cbn [ticker expiry _contract_start].
  do 6 (split; [done |]). split; [rewrite sub_opp, Hss; lia |].
  do 3 (split; [done |]).
  (* the start is a boundary as well *)
  pose proof Hvs as Hfs. pose proof Hve as Hfe.
  rewrite valid_fields in Hfs, Hfe.
  destruct Hfs as (_ & _ & _ & Hhs & Hms & Hss' & Hus').
  destruct Hfe as (_ & _ & _ & Hhe & Hme & _).
  pose proof (time_of_day_bounds start Hvs) as Hbs.
  pose proof (time_of_day_bounds exp Hve) as Hbe.
  assert (∃ k, time_of_day start = k * td_minutes 15) as [k Hk].
  { assert (∃ j, toordinal start - toordinal exp = j) as [j Hj] by eauto.
    exists (hour exp * 4 + minute exp / 15 - 1 - j * 96).
    unfold sub in Hss. rewrite Hj in Hss.
    assert (time_of_day exp
            = (hour exp * 4 + minute exp / 15) * td_minutes 15) as Hte.
    { unfold time_of_day, td_minutes, US_PER_SECOND. rewrite Hsec, Hus.
      Z.div_mod_to_equations. lia. }
    rewrite Hte in Hss. unfold td_minutes, US_PER_DAY, US_PER_SECOND in *.
    lia. }
  unfold time_of_day, td_minutes, US_PER_DAY, US_PER_SECOND in Hk, Hbs.
  assert (microsecond start = 0) as Hu0 by (Z.div_mod_to_equations; lia).
  rewrite Hu0 in Hk.
  assert (second start = 0) as Hs0 by (Z.div_mod_to_equations; lia).
  rewrite Hs0 in Hk.
  repeat split; try done. Z.div_mod_to_equations. lia.
Qed.

Lemma compute_ok_not_last now tk exp :
  valid now = true → _compute now = Ok (tk, exp) →
  last_quarter_hour now = false.
Proof.
  intros Hv Hc. destruct (last_quarter_hour now) eqn:Hlast; [| done].
  rewrite (compute_overflow now Hv Hlast) in Hc. discriminate Hc.
Qed.

Lemma compute_ok_spec now tk exp :
  valid now = true → _compute now = Ok (tk, exp) →
  valid exp = true ∧ 0 < sub exp now ≤ td_minutes 15
  ∧ second exp = 0 ∧ microsecond exp = 0 ∧ minute exp mod 15 = 0.
Proof.
  intros Hv Hc. pose proof (compute_ok_not_last now tk exp Hv Hc) as Hlast.
  destruct (expiry_spec now Hv Hlast)
    as (exp0 & Hexp0 & Hve & Hsub & Hmin & Hsec & Hus & _).
  apply compute_inv in Hc as [Hexp _].
  assert (exp0 = exp) as -> by congruence.
  repeat split; try done; try lia.
  rewrite Hmin. Z.div_mod_to_equations. lia.
Qed.

(** X18. Every instant of a contract computes that contract: if
    [_compute] gives a ticker and an expiry at some time, it gives the
    same ticker and the same expiry at every time in the 15 minutes that
    end at this expiry. *)
Theorem compute_constant_on_contract now tk exp now' :
  valid now = true → _compute now = Ok (tk, exp) →
  valid now' = true → 0 < sub exp now' ≤ td_minutes 15 →
  _compute now' = Ok (tk, exp).
Proof.
  intros Hv Hc Hv' Hin.
  destruct (compute_ok_spec now tk exp Hv Hc) as (Hve & _ & Hs & Hus & Hm).
  assert (last_quarter_hour now' = false) as Hlast'
    by (eapply before_boundary_not_last; eauto; lia).
  destruct (expiry_spec now' Hv' Hlast')
    as (exp' & Hexp' & Hve' & Hsub' & Hmin' & Hsec' & Hus' & _).
  assert (minute exp' mod 15 = 0) as Hm'
    by (rewrite Hmin'; Z.div_mod_to_equations; lia).
  destruct (boundary_sub_multiple exp' exp Hsec' Hus' Hm' Hs Hus Hm)
    as [k Hk].
  assert (sub exp' exp = 0) as Hzero.
  { pose proof (sub_trans exp' now' exp) as Ht.
    pose proof (sub_opp now' exp) as Ho.
    unfold td_minutes, US_PER_SECOND in *. lia. }
  pose proof (sub_zero_eq exp' exp Hve' Hve Hzero) as ->.
  destruct (compute_of_expiry now' exp Hexp') as [tk' Hc'].
  apply compute_inv in Hc as [_ ->].
  pose proof Hc' as Hc''. apply compute_inv in Hc'' as [_ ->]. exact Hc'.
Qed.

Lemma compute_constant_on_contract_witness :
  let now := DT 2026 2 21 12 7 0 0 in
  let now' := DT 2026 2 21 12 14 59 999999 in
  let exp := DT 2026 2 21 12 15 0 0 in
  let tk := "KXBTC15M-26FEB211215-15"%string in
  (valid now = true ∧ _compute now = Ok (tk, exp)
   ∧ valid now' = true ∧ 0 < sub exp now' ≤ td_minutes 15)
  ∧ _compute now' = Ok (tk, exp).
Proof.
  cbn zeta.
  assert (0 < sub (DT 2026 2 21 12 15 0 0) (DT 2026 2 21 12 14 59 999999)
          ≤ td_minutes 15) as Hin
    by (split; [reflexivity | discriminate]).
  split; [do 3 (split; [reflexivity |]); exact Hin |].
  exact (compute_constant_on_contract (DT 2026 2 21 12 7 0 0) _ _
           (DT 2026 2 21 12 14 59 999999) eq_refl eq_refl eq_refl Hin).
Defined.

(** X19. Contracts follow each other without gap or overlap: when the
    frame rolls less than 15 minutes after the expiry of its contract,
    the new contract starts exactly at that expiry and expires 15 minutes
    after it. *)
Theorem next_contract_starts_at_expiry now s s1 e1 now2 :
  valid now = true → _roll now s = Ok s1 → expiry s1 = Some e1 →
  valid now2 = true → last_quarter_hour now2 = false →
  0 ≤ sub now2 e1 < td_minutes 15 →
  ∃ s2 e2,
    _roll now2 s1 = Ok s2
    ∧ _contract_start s2 = Some e1
    ∧ expiry s2 = Some e2
    ∧ sub e2 e1 = td_minutes 15.
Proof.
  intros Hv Hroll He1 Hv2 Hlast2 Hlate.
  assert (last_quarter_hour now = false) as Hlast.
  { destruct (last_quarter_hour now) eqn:Hl; [| done].
    unfold _roll in Hroll. rewrite (compute_overflow now Hv Hl) in Hroll.
    discriminate Hroll. }
  destruct (roll_spec now s Hv Hlast)
    as (tk & exp & start & s' & _ & Hroll' & _ & Hexp & _ & Hve & _ & _ & _
        & Hs & Hus & Hm & _).
  assert (s' = s1) as -> by congruence.
  assert (exp = e1) as -> by congruence.
  destruct (roll_spec now2 s1 Hv2 Hlast2)
    as (tk2 & e2 & start2 & s2 & _ & Hroll2 & _ & Hexp2 & Hst2 & Hve2 & Hvs2
        & Hsub2 & Hlen2 & Hs2 & Hus2 & Hm2 & _).
  destruct (boundary_sub_multiple e2 e1 Hs2 Hus2 Hm2 Hs Hus Hm) as [k Hk].
  assert (sub e2 e1 = td_minutes 15) as Hgap.
  { pose proof (sub_trans e2 now2 e1) as Ht.
    unfold td_minutes, US_PER_SECOND in *. lia. }
  assert (start2 = e1) as ->.
  { apply sub_zero_eq; [done | done |].
    pose proof (sub_trans start2 e2 e1) as Ht.
    pose proof (sub_opp start2 e2) as Ho. lia. }
  exists s2, e2. by repeat split.
Qed.

Lemma next_contract_starts_at_expiry_witness :
  let now := DT 2026 2 21 12 0 0 5 in
  let e1 := DT 2026 2 21 12 15 0 0 in
  let now2 := DT 2026 2 21 12 15 0 730000 in
  (valid now = true ∧ _roll now (init "yes") = Ok rolled_at_noon
   ∧ expiry rolled_at_noon = Some e1
   ∧ valid now2 = true ∧ last_quarter_hour now2 = false
   ∧ 0 ≤ sub now2 e1 < td_minutes 15)
  ∧ ∃ s2 e2,
      _roll now2 rolled_at_noon = Ok s2
      ∧ _contract_start s2 = Some e1
      ∧ expiry s2 = Some e2
      ∧ sub e2 e1 = td_minutes 15.
Proof.
  cbn zeta.
  assert (_roll (DT 2026 2 21 12 0 0 5) (init "yes") = Ok rolled_at_noon)
    as Hroll by (vm_compute; reflexivity).
  assert (0 ≤ sub (DT 2026 2 21 12 15 0 730000) (DT 2026 2 21 12 15 0 0)
          < td_minutes 15) as Hlate
    by (split; [discriminate | reflexivity]).
  split.
  - split; [reflexivity |]. split; [exact Hroll |].
    do 3 (split; [reflexivity |]). exact Hlate.
  - exact (next_contract_starts_at_expiry (DT 2026 2 21 12 0 0 5)
             (init "yes") rolled_at_noon (DT 2026 2 21 12 15 0 0)
             (DT 2026 2 21 12 15 0 730000)
             eq_refl Hroll eq_refl eq_refl eq_refl Hlate).
Defined.

(** X20. The one-second tick keeps the frame on the current contract,
    for a roll that does not fall in the last quarter of an hour of year
    9999. A tick that finds the expiry reached rolls, and whatever state
    the tracker was in, the frame then holds a contract that contains the
    time of the roll (start <= time < expiry, 15 minutes long), with no
    trigger open, both counters at 0 and the stop flag cleared. A tick
    before the expiry, or of a frame that is no longer running, changes
    nothing. *)
Theorem tick_keeps_contract_current now now' s e :
  expiry s = Some e →
  valid now' = true → last_quarter_hour now' = false →
  (sub e now ≤ 0 →
   ∃ s' e' start',
     _tick true now now' s = Ok (s', None)
     ∧ expiry s' = Some e' ∧ _contract_start s' = Some start'
     ∧ 0 ≤ sub now' start' ∧ 0 < sub e' now'
     ∧ sub e' start' = td_minutes 15
     ∧ _in_trigger s' = false ∧ _stopped_out s' = false
     ∧ _cycle_count s' = 0 ∧ _stop_loss_count s' = 0
     ∧ side s' = side s)
  ∧ (0 < sub e now → ∃ text, _tick true now now' s = Ok (s, Some text))
  ∧ _tick false now now' s = Ok (s, None).
Proof.
  intros He Hv Hlast. split; [| split].
  - intros Hdue.
    destruct (roll_spec now' s Hv Hlast)
      as (tk & e' & start' & s' & _ & Hroll & _ & Hexp & Hst & _ & _
          & Hsub & Hlen & _).
    destruct (roll_counters _ _ _ Hroll) as (Hin & Hso & Hc & Hs & Hsd & _).
    exists s', e', start'. split.
    { unfold _tick. cbn [negb]. rewrite He.
      destruct (Z.leb_spec (sub e now) 0); [| lia].
      rewrite Hroll. reflexivity. }
    do 2 (split; [done |]). split.
    { pose proof (sub_trans e' now' start') as Ht. lia. }
    repeat split; try done; lia.
  - intros Hearly. eexists. unfold _tick. cbn [negb]. rewrite He.
    destruct (Z.leb_spec (sub e now) 0); [lia | reflexivity].
  - reflexivity.
Qed.

Lemma tick_keeps_contract_current_witness :
  let now := DT 2026 2 21 12 15 0 200000 in
  let now' := DT 2026 2 21 12 15 0 200300 in
  let e := DT 2026 2 21 12 15 0 0 in
  (expiry rolled_at_noon = Some e
   ∧ valid now' = true ∧ last_quarter_hour now' = false
   ∧ sub e now ≤ 0)
  ∧ ∃ s' e' start',
      _tick true now now' rolled_at_noon = Ok (s', None)
      ∧ expiry s' = Some e' ∧ _contract_start s' = Some start'
      ∧ 0 ≤ sub now' start' ∧ 0 < sub e' now'
      ∧ sub e' start' = td_minutes 15
      ∧ _in_trigger s' = false ∧ _stopped_out s' = false
      ∧ _cycle_count s' = 0 ∧ _stop_loss_count s' = 0
      ∧ side s' = side rolled_at_noon.
Proof.
  cbn zeta.
  assert (sub (DT 2026 2 21 12 15 0 0) (DT 2026 2 21 12 15 0 200000) ≤ 0)
    as Hdue by discriminate.
  split; [do 3 (split; [reflexivity |]); exact Hdue |].
  exact (proj1 (tick_keeps_contract_current
                  (DT 2026 2 21 12 15 0 200000)
                  (DT 2026 2 21 12 15 0 200300) rolled_at_noon
                  (DT 2026 2 21 12 15 0 0) eq_refl eq_refl eq_refl) Hdue).
Defined.

End SchedulerOrder.

(* ====================================================================== *)
(** * Properties of the price ladder *)

Section LadderFacts.

Import OrderBook Spec BookSpec Ladder.

Implicit Types (m : gmap Z Z) (b : OrderBook.t) (l : list (Z * Z)).

#[local] Instance tuple_ge_trans : Transitive tuple_ge.
Proof. intros x y z. unfold tuple_ge. lia. Qed.

#[local] Instance tuple_ge_total : Total tuple_ge.
Proof. intros x y. unfold tuple_ge. lia. Qed.

Lemma strictly_falling l :
  StronglySorted tuple_ge l → NoDup l.*1 → falling l.
Proof.
  unfold falling. induction 1 as [| x l Hl IH Hx]; intros Hnd; cbn in *.
  - constructor.
  - apply NoDup_cons in Hnd as [Hfresh Hnd]. constructor; [by apply IH |].
    rewrite Forall_forall in Hx |- *. intros y Hy.
    destruct (Hx y Hy) as [Hlt | [Heq _]]; [done |].
    exfalso. apply Hfresh. rewrite <- Heq. by apply list_elem_of_fmap_2.
Qed.

Lemma sorted_desc_spec m :
  sorted_desc m ≡ₚ map_to_list m ∧ falling (sorted_desc m).
Proof.
  unfold sorted_desc.
  pose proof (merge_sort_Permutation tuple_ge (map_to_list m)) as Hperm.
  split; [done |]. apply strictly_falling.
  - apply StronglySorted_merge_sort; apply _.
  - rewrite Hperm. apply NoDup_fst_map_to_list.
Qed.

Lemma elem_of_sorted_desc m p q :
  (p, q) ∈ sorted_desc m ↔ m !! p = Some q.
Proof.
  destruct (sorted_desc_spec m) as [Hperm _].
  rewrite Hperm. apply elem_of_map_to_list.
Qed.

(** The first 8 of a falling list: they fall, they come from the list,
    and whatever is left out lies below all of them. *)
Lemma take_falling n l :
  falling l →
  falling (take n l)
  ∧ (∀ x, x ∈ l →
       x ∈ take n l
       ∨ (length (take n l) = n ∧ ∀ y, y ∈ take n l → x.1 < y.1)).
Proof.
  intros Hl. unfold falling in *.
  rewrite <- (take_drop n l) in Hl at 1.
  apply StronglySorted_app in Hl as (Hcross & Htake & _).
  split; [done |]. intros x Hx.
  rewrite <- (take_drop n l) in Hx. apply elem_of_app in Hx as [Hx | Hx];
    [by left |].
  right. split.
  - apply length_take_le.
    destruct (decide (n ≤ length l)%nat); [done |].
    rewrite drop_ge in Hx by lia. by apply elem_of_nil in Hx.
  - intros y Hy. by apply Hcross.
Qed.

Lemma falling_head_max l x :
  falling (x :: l) → ∀ y, y ∈ x :: l → y.1 ≤ x.1.
Proof.
  unfold falling. intros Hl y [-> | Hy]%elem_of_cons; [lia |].
  apply StronglySorted_cons in Hl as [Hx _].
  rewrite Forall_forall in Hx. specialize (Hx y Hy). lia.
Qed.

Lemma sorted_desc_nil m : sorted_desc m = [] ↔ m = ∅.
Proof.
  destruct (sorted_desc_spec m) as [Hperm _]. split.
  - intros Hnil. rewrite Hnil in Hperm.
    apply map_to_list_empty_iff. by apply Permutation_nil.
  - intros ->. rewrite map_to_list_empty in Hperm.
    by apply Permutation_nil_r.
Qed.

(** The first row of the descending order is the greatest key. *)
Lemma sorted_desc_head m p q l :
  sorted_desc m = (p, q) :: l → is_max_key m p ∧ m !! p = Some q.
Proof.
  intros Heq. destruct (sorted_desc_spec m) as [_ Hfall].
  assert (m !! p = Some q) as Hp
    by (apply elem_of_sorted_desc; rewrite Heq; left).
  split; [| done]. split; [by eexists |].
  intros k [v Hk]. apply elem_of_sorted_desc in Hk. rewrite Heq in Hk, Hfall.
  exact (falling_head_max l (p, q) Hfall (k, v) Hk).
Qed.

Lemma sorted_desc_length m : length (sorted_desc m) = size m.
Proof.
  destruct (sorted_desc_spec m) as [Hperm _].
  by rewrite Hperm, length_map_to_list.
Qed.

Lemma top8_spec m :
  let rows := take 8 (sorted_desc m) in
  length rows = Nat.min 8 (size m)
  ∧ falling rows
  ∧ (∀ p q, (p, q) ∈ rows → m !! p = Some q)
  ∧ (∀ p q, m !! p = Some q →
       (p, q) ∈ rows
       ∨ (length rows = 8%nat ∧ ∀ y, y ∈ rows → p < y.1)).
Proof.
  intros rows. subst rows.
  destruct (sorted_desc_spec m) as [_ Hfall].
  destruct (take_falling 8 _ Hfall) as [Htake Hrest].
  split; [by rewrite length_take, sorted_desc_length |].
  split; [done |]. split.
  - intros p q Hin. apply elem_of_sorted_desc.
    by apply (subseteq_take 8).
  - intros p q Hm. apply elem_of_sorted_desc in Hm.
    exact (Hrest (p, q) Hm).
Qed.

Lemma top8_head m :
  fst <$> head (take 8 (sorted_desc m))
  = if truthy m then max_key m else None.
Proof.
  destruct (sorted_desc m) as [| [p q] l] eqn:Heq.
  - apply sorted_desc_nil in Heq as ->. cbn.
    destruct (guarded_max_spec ∅) as [[_ ->] | (k & Hk & _)]; [done |].
    by apply is_max_key_nonempty in Hk.
  - apply sorted_desc_head in Heq as [Hmax _].
    cbn. symmetry. by apply guarded_max_is.
Qed.

Lemma falling_reverse_fmap l :
  falling l → falling ((λ pq, (100 - pq.1, pq.2)) <$> reverse l).
Proof.
  unfold falling. induction 1 as [| x l Hl IH Hx].
  - constructor.
  - rewrite reverse_cons, fmap_app. apply StronglySorted_app.
    split; [| split; [done | repeat constructor]].
    intros y1 y2 Hy1 ->%list_elem_of_singleton.
    apply list_elem_of_fmap in Hy1 as (z & -> & Hz).
    rewrite elem_of_reverse in Hz. rewrite Forall_forall in Hx. specialize (Hx z Hz). cbn. lia.
Qed.

(** X21. The bid rows of the ladder are the highest-priced levels of the
    chosen side: there are as many rows as levels up to 8, prices fall
    strictly from one row to the next, every row is a level of the side
    with its quantity, and a level that is not shown is priced below all
    8 rows that are. *)
Theorem bid_rows_are_top_levels b side :
  let m := side_map b side in
  let rows := bid_rows b side in
  length rows = Nat.min 8 (size m)
  ∧ falling rows
  ∧ (∀ p q, (p, q) ∈ rows → m !! p = Some q)
  ∧ (∀ p q, m !! p = Some q →
       (p, q) ∈ rows
       ∨ (length rows = 8%nat ∧ ∀ y, y ∈ rows → p < y.1)).
Proof. apply top8_spec. Qed.

(** X22. The ask rows of the ladder are the lowest asks, derived from the
    opposite side: there are as many rows as opposite levels up to 8, ask
    prices fall strictly from the top row down, every row at ask price [a]
    carries the quantity of the opposite level at [100 - a], and an
    opposite level that is not shown would be an ask above all 8 rows that
    are. *)
Theorem ask_rows_are_lowest_asks b side :
  let other := if String.eqb side "yes" then no b else yes b in
  let rows := ask_rows b side in
  length rows = Nat.min 8 (size other)
  ∧ falling rows
  ∧ (∀ a q, (a, q) ∈ rows → other !! (100 - a) = Some q)
  ∧ (∀ p q, other !! p = Some q →
       (100 - p, q) ∈ rows
       ∨ (length rows = 8%nat ∧ ∀ y, y ∈ rows → y.1 < 100 - p)).
Proof.
  intros other rows. subst rows. unfold ask_rows. fold other.
  destruct (top8_spec other) as (Hlen & Hfall & Hin & Hout).
  split; [by rewrite length_fmap, length_reverse |].
  split; [by apply falling_reverse_fmap |]. split.
  - intros a q Hrow.
    apply list_elem_of_fmap in Hrow as ([p q'] & [= -> ->] & Hpq).
    rewrite elem_of_reverse in Hpq.
    cbn. replace (100 - (100 - p)) with p by lia. by apply Hin.
  - intros p q Hm. destruct (Hout p q Hm) as [Hshown | [Hfull Hbelow]].
    + left. apply list_elem_of_fmap. exists (p, q).
      split; [done |]. by apply elem_of_reverse.
    + right. split; [by rewrite length_fmap, length_reverse |].
      intros y Hy.
      apply list_elem_of_fmap in Hy as (z & -> & Hz).
      rewrite elem_of_reverse in Hz. specialize (Hbelow z Hz). cbn. lia.
Qed.

(** X23. The ladder meets at the best prices of the summary line: the
    price of the first bid row is the best bid, the price of the last ask
    row is the best ask, and there is no such row exactly when there is no
    such price. *)
Theorem ladder_meets_at_best_prices b side :
  fst <$> head (bid_rows b side) = best_bid b side
  ∧ fst <$> last (ask_rows b side) = best_ask b side.
Proof.
  split.
  - unfold bid_rows, best_bid. apply top8_head.
  - unfold ask_rows, best_ask.
    set (other := if String.eqb side "yes" then no b else yes b).
    rewrite fmap_last, last_reverse.
    pose proof (top8_head other) as Hhead.
    destruct (head (take 8 (sorted_desc other))) as [[p q] |];
      cbn in Hhead |- *; destruct (truthy other); by rewrite <- ?Hhead.
Qed.

End LadderFacts.

(* ====================================================================== *)
(** * Properties of the two feeds and of the strike retry loop *)

Section FeedFacts.

Import OrderBook Watcher BookFrame FeedSpec.

Implicit Types (msgs pre post : list ws_message) (b : OrderBook.t)
  (f : BookFrame.t).

Lemma receive_app side0 debug pre post b :
  Forall (λ m, is_error m = false) pre →
  receive side0 debug (pre ++ post) b
  = ((receive side0 debug post (receive side0 debug pre b).1).1,
     (receive side0 debug pre b).2
     ++ (receive side0 debug post (receive side0 debug pre b).1).2).
Proof.
  intros Hpre. revert b.
  induction Hpre as [| m pre Hm _ IH]; intros b.
  - cbn. by destruct (receive side0 debug post b).
  - destruct m as [msg | msg | text |]; [| | done |]; cbn;
      rewrite IH; cbn; by rewrite ?app_assoc.
Qed.

Lemma receive_ticker side0 debug msgs b :
  market_ticker (receive side0 debug msgs b).1 = market_ticker b.
Proof.
  revert b. induction msgs as [| m msgs IH]; intros b; [done |].
  destruct m as [msg | msg | text |]; cbn; rewrite ?IH; try done.
  unfold apply_delta. by destruct (String.eqb _ _).
Qed.

Lemma receive_error side0 debug pre text post b :
  receive side0 debug (pre ++ ErrorMessage text :: post) b
  = receive side0 debug pre b.
Proof.
  revert b. induction pre as [| m pre IH]; intros b; [done |].
  destruct m as [msg | msg | text' |]; cbn; by rewrite ?IH.
Qed.

Lemma drain_forward msgs f :
  BookFrame.book (drain (forward msgs) f).1
  = (receive (BookFrame.side f) false msgs (BookFrame.book f)).1
  ∧ (drain (forward msgs) f).2
    = drawing_of <$> (receive (BookFrame.side f) false msgs
                        (BookFrame.book f)).2.
Proof.
  revert f. induction msgs as [| m msgs IH]; intros f; [done |].
  destruct m as [msg | msg | text |]; cbn.
  - destruct (IH {| BookFrame.side := BookFrame.side f;
                    BookFrame.book := apply_snapshot (BookFrame.book f) msg;
                    status_var := status_var f |}) as [-> ->]. done.
  - destruct (IH {| BookFrame.side := BookFrame.side f;
                    BookFrame.book := apply_delta (BookFrame.book f) msg;
                    status_var := status_var f |}) as [-> ->]. done.
  - done.
  - apply IH.
Qed.

Lemma drain_status_quiet msgs f :
  Forall (λ m, is_error m = false) msgs →
  status_var (drain (forward msgs) f).1 = status_var f.
Proof.
  intros Hq. revert f. induction Hq as [| m msgs Hm _ IH]; intros f; [done |].
  destruct m as [msg | msg | text |]; [| | done |]; cbn; by rewrite IH.
Qed.

Lemma drain_status_error pre text post f :
  Forall (λ m, is_error m = false) pre →
  status_var (drain (forward (pre ++ ErrorMessage text :: post)) f).1
  = ("Error: " ++ text)%string.
Proof.
  intros Hq. revert f. induction Hq as [| m msgs Hm _ IH]; intros f; [done |].
  destruct m as [msg | msg | text' |]; [| | done |]; cbn; by rewrite IH.
Qed.

(** X24. A book tab and the command-line watcher agree: fed the same
    messages for the same ticker, the tab's queue hand-over ends with the
    same book as the watcher's loop, and every redraw of the tab shows
    the rows, and when it shows a summary the three numbers, of the
    watcher's screen for the same message. *)
Theorem book_frame_shows_what_watcher_prints ticker msgs :
  let w := watch_orderbook ticker "yes" false msgs in
  let f := _poll true (_ws_loop msgs) (BookFrame.init ticker) in
  BookFrame.book f.1 = w.1 ∧ f.2 = drawing_of <$> w.2.
Proof.
  cbn zeta. unfold _poll, _ws_loop, watch_orderbook. cbn [negb drain].
  apply (drain_forward msgs
           {| BookFrame.side := "yes"; BookFrame.book := OrderBook.init ticker;
              status_var := "Live" |}).
Qed.

(** X25. A snapshot resynchronises the watcher: as long as no error
    message came before it, the book after the snapshot and the messages
    that follow, and every screen shown from the snapshot on, are those
    of a watcher started afresh on the same ticker, whatever was received
    earlier. *)
Theorem snapshot_resynchronises side0 debug pre s post b :
  Forall (λ m, is_error m = false) pre →
  let whole := receive side0 debug (pre ++ OrderbookSnapshot s :: post) b in
  let fresh := watch_orderbook (market_ticker b) side0 debug
                 (OrderbookSnapshot s :: post) in
  whole.1 = fresh.1 ∧ whole.2 = (receive side0 debug pre b).2 ++ fresh.2.
Proof.
  intros Hpre. cbn zeta. rewrite receive_app by done.
  unfold watch_orderbook.
  assert (apply_snapshot (receive side0 debug pre b).1 s
          = apply_snapshot (OrderBook.init (market_ticker b)) s) as Heq.
  { unfold apply_snapshot. by rewrite receive_ticker. }
  cbn [receive fst snd]. by rewrite Heq.
Qed.

Lemma snapshot_resynchronises_witness :
  let pre := [OrderbookDelta (DeltaMsg "yes" 40 5); OtherMessage] in
  let s := SnapshotMsg (Some [(41, 3)]) None in
  let post := [OrderbookDelta (DeltaMsg "no" 55 2)] in
  let b := OrderBook.init "KXBTC15M" in
  Forall (λ m, is_error m = false) pre
  ∧ (receive "yes" false (pre ++ OrderbookSnapshot s :: post) b).1
    = (watch_orderbook "KXBTC15M" "yes" false
         (OrderbookSnapshot s :: post)).1.
Proof.
  cbn zeta.
  assert (Forall (λ m, is_error m = false)
            [OrderbookDelta (DeltaMsg "yes" 40 5); OtherMessage]) as Hpre
    by (repeat constructor).
  split; [exact Hpre |].
  exact (proj1 (snapshot_resynchronises "yes" false _
                  (SnapshotMsg (Some [(41, 3)]) None)
                  [OrderbookDelta (DeltaMsg "no" 55 2)]
                  (OrderBook.init "KXBTC15M") Hpre)).
Defined.

(** X26. The first error message ends a feed. The watcher's book and
    screens are those of the messages before it, and nothing after it is
    read; the book tab's status line ends as "Error: " followed by the
    text of the message, while without an error message it stays at
    "Live". *)
Theorem error_ends_the_feed ticker side0 debug pre text post :
  Forall (λ m, is_error m = false) pre →
  watch_orderbook ticker side0 debug (pre ++ ErrorMessage text :: post)
  = watch_orderbook ticker side0 debug pre
  ∧ status_var (_poll true (_ws_loop (pre ++ ErrorMessage text :: post))
                  (BookFrame.init ticker)).1
    = ("Error: " ++ text)%string
  ∧ status_var (_poll true (_ws_loop pre) (BookFrame.init ticker)).1
    = "Live".
Proof.
  intros Hpre. split; [apply receive_error |].
  unfold _poll, _ws_loop. cbn [negb drain]. split.
  - by apply drain_status_error.
  - by rewrite drain_status_quiet.
Qed.

Lemma error_ends_the_feed_witness :
  let pre := [OrderbookSnapshot (SnapshotMsg (Some [(41, 3)]) None)] in
  Forall (λ m, is_error m = false) pre
  ∧ status_var (_poll true
       (_ws_loop (pre ++ ErrorMessage "bad market" :: [OtherMessage]))
       (BookFrame.init "KXBTC15M")).1
    = "Error: bad market".
Proof.
  cbn zeta.
  assert (Forall (λ m, is_error m = false)
            [OrderbookSnapshot (SnapshotMsg (Some [(41, 3)]) None)]) as Hpre
    by (repeat constructor).
  split; [exact Hpre |].
  exact (proj1 (proj2 (error_ends_the_feed "KXBTC15M" "yes" false _
                         "bad market" [OtherMessage] Hpre))).
Defined.

End FeedFacts.

(* ====================================================================== *)
(** * Properties of the strike retry loop *)

Section StrikeFacts.

Import StrikeFetch.

Context {V : Type}.

Lemma range6 : seqZ 0 6 = [0; 1; 2; 3; 4; 5].
Proof. reflexivity. Qed.

Ltac below t :=
  let i := fresh "i" in
  let Hi := fresh "Hi" in
  intros i Hi;
  repeat match goal with
         | H : t ?n = _ |- _ =>
             destruct (decide (i = n)) as [-> |]; [by rewrite H |]; revert H
         end;
  lia.

Ltac found t :=
  split; [lia | split; [done | split; [below t | reflexivity]]].

(** X27. The strike is fetched in at most 6 attempts, and the thread ends
    with exactly one verdict. If attempt [k] is the first whose patterns
    match, the thread has slept 7 seconds after each of the [k] attempts
    before it, stores the value and puts one "strike" item. If none of
    the 6 attempts matches it puts one "strike_failed" item: after 6
    sleeps, or, when the last attempt raised, after 5 sleeps and a status
    item that carries the exception's text. *)
Theorem fetch_strike_outcome (try_ : Z → outcome V) :
  (∃ k val,
      0 ≤ k < 6 ∧ try_ k = Matched val
      ∧ (∀ i, 0 ≤ i < k → unmatched (try_ i))
      ∧ _fetch_strike try_
        = replicate (Z.to_nat k) (Sleep 7)
          ++ [SetSharedStrike val; PutStrike val])
  ∨ ((∀ i, 0 ≤ i < 6 → unmatched (try_ i))
     ∧ _fetch_strike try_
       = match try_ 5 with
         | Raised e =>
             replicate 5 (Sleep 7)
             ++ [PutStatus ("Strike error: " ++ e); PutStrikeFailed]
         | _ => replicate 6 (Sleep 7) ++ [PutStrikeFailed]
         end).
Proof.
  unfold _fetch_strike. rewrite range6. cbn [attempts].
  destruct (try_ 0) as [v0 | | e0] eqn:H0;
    [left; exists 0, v0; found try_ |..];
  (destruct (try_ 1) as [v1 | | e1] eqn:H1;
    [left; exists 1, v1; found try_ |..]);
  (destruct (try_ 2) as [v2 | | e2] eqn:H2;
    [left; exists 2, v2; found try_ |..]);
  (destruct (try_ 3) as [v3 | | e3] eqn:H3;
    [left; exists 3, v3; found try_ |..]);
  (destruct (try_ 4) as [v4 | | e4] eqn:H4;
    [left; exists 4, v4; found try_ |..]);
  (destruct (try_ 5) as [v5 | | e5] eqn:H5;
    [left; exists 5, v5; found try_ |..]);
  right; (split; [below try_ | reflexivity]).
Qed.

End StrikeFacts.
